(** * Habit-Tracker: the gamification calculator

    A shallow embedding of the scoring rules of the habits, user and
    gamification routers (XP reward, level, rank, streak, achievements),
    of the [features] helpers and of the client store's [addXP] action,
    together with the properties the specification states about them.

    Conventions of the embedding.
    - A JavaScript [number] is an IEEE 754 double.  One that holds an
      integer (XP, streak counters, thresholds, day numbers) is a [Z]:
      integers up to [2 ^ 53] in magnitude are doubles, and sums,
      differences and products of integers are exact as long as they stay
      in that range.  A [number] that can be fractional (multipliers,
      quotients, square roots) is a [Q] that holds the exact value of the
      double, and every quotient, product or square root that can fall
      between two doubles is rounded to the nearest one by [JS.double].
      A result that is [NaN] is [None].
    - A calendar day is its day number (a [Z]); [startOfDay] is the
      identity on it, [subDays d n] is [d - n] and [differenceInDays a b]
      is [a - b].
    - A database table is a list of rows in insertion order; a handler is
      a function of the database in the monad [M]. *)

From Stdlib Require Import ZArith QArith Qround Qabs Qpower Lia Lqa Reals Qreals Lra.
From stdpp Require Import base option list strings gmap sorting.

Local Open Scope Z_scope.

(** ** JavaScript numbers *)

Module JS.

(** The values of the type [number] below [2 ^ 1024] in magnitude: an
    integer of magnitude at most [2 ^ 53] times a power of two that is at
    least [2 ^ -1074]. *)
Definition representable (r : Q) : Prop :=
  exists m e : Z, Z.abs m <= 2 ^ 53 /\ -1074 <= e /\ (r == inject_Z m * 2 ^ e)%Q.

(** The exponent of [q > 0]: the [e] with [2 ^ e <= q < 2 ^ (e + 1)]. *)
Definition ilog2 (q : Q) : Z :=
  let e := Z.log2 (Qnum q) - Z.log2 (Zpos (Qden q)) in
  if Qle_bool (2 ^ e) q then e else e - 1.

(** The integer nearest to [t], the even one of the two when [t] is
    halfway between them. *)
Definition round_half_even (t : Q) : Z :=
  let f := Qfloor t in
  match (t - inject_Z f ?= 1 # 2)%Q with
  | Lt => f
  | Gt => f + 1
  | Eq => if Z.even f then f else f + 1
  end.

(** The distance between the doubles around [q]: [2 ^ (e - 52)] where [e]
    is the exponent of [q], and [2 ^ -1074] for the subnormal numbers
    below [2 ^ -1022]. *)
Definition ulp (q : Q) : Q := (2 ^ (Z.max (ilog2 (Qabs q)) (-1022) - 52))%Q.

(** The double nearest to the rational [q], ties to the even mantissa:
    the rounding at the end of every arithmetic operation.  (A result of
    [2 ^ 1024] or more would be [Infinity]; the values computed here
    stay far below.) *)
Definition double (q : Q) : Q :=
  if Qeq_bool q 0 then 0%Q
  else Qred (inject_Z (round_half_even (q / ulp q)) * ulp q).

(** [x * y] *)
Definition mul (x y : Q) : Q := double (x * y).

(** [a / b] on integers, for a [b] that is not 0. *)
Definition quot (a b : Z) : Q := double (inject_Z a / inject_Z b).

(** [a / b] on integers: [None] when [b] is 0 and the quotient is [NaN]
    or an infinity. *)
Definition div (a b : Z) : option Q :=
  if b =? 0 then None else Some (quot a b).

(** A stand-in for the square root of [x >= 0] that rounds as the root
    does.  With [s] the integer square root of [x * 2 ^ 1200], the root
    is [s / 2 ^ 600] when [s * s] is [x * 2 ^ 1200], and otherwise lies
    strictly between [s / 2 ^ 600] and [(s + 1) / 2 ^ 600], where no
    double and no midpoint between two doubles lies ([x] is a double, at
    least [2 ^ -1074], so [s] has 64 bits or more): [(s + 1/2) / 2 ^ 600]
    has the same rounding. *)
Definition sqrt_sticky (x : Q) : Q :=
  let scaled := (x * 4 ^ 600)%Q in
  let s := Z.sqrt (Qfloor scaled) in
  ((inject_Z s + (if Qeq_bool (inject_Z (s * s)) scaled then 0 else 1 # 2)) / 2 ^ 600)%Q.

(** [Math.sqrt x]: the double nearest to the square root, [NaN] for a
    negative [x]. *)
Definition Math_sqrt (x : Q) : option Q :=
  if Qle_bool 0 x then Some (double (sqrt_sticky x)) else None.

(** [Math.floor x] *)
Definition Math_floor (x : Q) : Z := Qfloor x.

(** [Math.round x]: the integer nearest to [x], halves rounded up. *)
Definition Math_round (x : Q) : Z := Qfloor (x + (1 # 2))%Q.

(** [a[i]] for an integer index: [undefined] out of range. *)
Definition index {A} (a : list A) (i : Z) : option A :=
  if i <? 0 then None else a !! Z.to_nat i.

(** [a.findIndex(p)]: the first position where [p] holds, or -1. *)
Fixpoint findIndex_from {A} (p : A -> bool) (a : list A) (i : Z) : Z :=
  match a with
  | [] => -1
  | x :: a' => if p x then i else findIndex_from p a' (i + 1)
  end.

Definition findIndex {A} (p : A -> bool) (a : list A) : Z :=
  findIndex_from p a 0.

(** [v || d] on a fractional number: [undefined] and [0] are falsy. *)
Definition or_default (v : option Q) (d : Q) : Q :=
  match v with
  | Some q => if Qeq_bool q 0 then d else q
  | None => d
  end.

(** [o?.f || 0] on an integer field: [undefined] and [0] give [0]. *)
Definition or_zero (v : option Z) : Z :=
  match v with
  | Some z => z
  | None => 0
  end.

End JS.

(** ** The database (the Prisma client [db]) *)

Module Db.

Record Habit := {
  habit_id : string;
  habit_userId : string;
  isArchived : bool
}.

Record HabitCompletion := {
  hc_habitId : string;
  hc_userId : string;
  date : Z;
  completed : bool
}.

Record User := {
  xp : Z;
  currentStreak : Z;
  longestStreak : Z
}.

Record Achievement := {
  ach_id : string;
  ach_name : string;
  criteriaType : string;
  threshold : Z;             (* criteriaConfig.threshold *)
  xpReward : Z
}.

Record UserAchievement := {
  ua_userId : string;
  achievementId : string
}.

Record ActivityLog := {
  al_userId : string;
  action : string;
  entityType : string;
  entityId : string;
  xpEarned : Z
}.

(** The tables; users are keyed by their id. *)
Record t := {
  habit : list Habit;
  habitCompletion : list HabitCompletion;
  user : gmap string User;
  achievement : list Achievement;
  userAchievement : list UserAchievement;
  activityLog : list ActivityLog
}.

(** A call either returns or throws; the database it leaves behind is
    there in both cases (a handler that throws half way keeps the rows it
    wrote before). *)
Inductive Result (A : Type) :=
| Ok (a : A)
| Throw (e : string).
Arguments Ok {A} a.
Arguments Throw {A} e.

Definition M (A : Type) : Type := t -> Result A * t.

Definition ret {A} (a : A) : M A := fun db => (Ok a, db).

Definition bind {A B} (m : M A) (k : A -> M B) : M B :=
  fun db =>
    match m db with
    | (Ok a, db') => k a db'
    | (Throw e, db') => (Throw e, db')
    end.

(** A query reads the database and leaves it as it is. *)
Definition query {A} (f : t -> A) : M A := fun db => (Ok (f db), db).

(** [for (const x of xs) { body x }] *)
Fixpoint forEach {A} (xs : list A) (body : A -> M unit) : M unit :=
  match xs with
  | [] => ret tt
  | x :: xs' => bind (body x) (fun _ => forEach xs' body)
  end.

(** [orderBy: { date: 'desc' }] *)
Definition date_desc (a b : HabitCompletion) : Prop := date b <= date a.

#[global] Instance date_desc_dec : RelDecision date_desc.
Proof. unfold date_desc. solve_decision. Defined.

(** [db.user.update]: throws when the row is not there. *)
Definition user_update (userId : string) (f : User -> User) : M unit :=
  fun db =>
    match user db !! userId with
    | Some _ =>
        (Ok tt, {| habit := habit db;
                   habitCompletion := habitCompletion db;
                   user := alter f userId (user db);
                   achievement := achievement db;
                   userAchievement := userAchievement db;
                   activityLog := activityLog db |})
    | None => (Throw "RecordNotFound", db)
    end.

Definition userAchievement_create (row : UserAchievement) : M unit :=
  fun db =>
    (Ok tt, {| habit := habit db;
               habitCompletion := habitCompletion db;
               user := user db;
               achievement := achievement db;
               userAchievement := userAchievement db ++ [row];
               activityLog := activityLog db |}).

Definition activityLog_create (row : ActivityLog) : M unit :=
  fun db =>
    (Ok tt, {| habit := habit db;
               habitCompletion := habitCompletion db;
               user := user db;
               achievement := achievement db;
               userAchievement := userAchievement db;
               activityLog := activityLog db ++ [row] |}).

End Db.

#[global] Instance M_ret : MRet Db.M := @Db.ret.

#[global] Instance M_bind : MBind Db.M := fun A B k m => Db.bind m k.

(** ** Rank tiers (shared shape of the rows of the [RANKS] tables) *)

Record Rank := {
  id : string;
  name : string;
  minXP : Z;
  color : string
}.

#[global] Instance Rank_eq_dec : EqDecision Rank.
Proof. solve_decision. Defined.

(** ** Habits router (part_007) *)

Module HabitsRouter.

Definition baseXP : Q := 10.

Definition multipliers : list Q := [1 # 2; 3 # 4; 1; 3 # 2; 2]%Q.

Definition multiplier (difficulty : Z) : Q :=
  JS.or_default (JS.index multipliers (difficulty - 1)) 1.

Definition calculateXPReward (difficulty : Z) : Q :=
  (inject_Z (JS.Math_round (baseXP * multiplier difficulty * 10)) / 10 * 10)%Q.

(** The rows [calculateStreak] fetches: the completed rows of the habit,
    latest first, at most 365 of them. *)
Definition findCompletions (habitId userId : string) (db : Db.t) : list Db.HabitCompletion :=
  take 365
    (merge_sort Db.date_desc
       (filter (fun c => Db.hc_habitId c = habitId /\ Db.hc_userId c = userId /\
                         Db.completed c = true)
               (Db.habitCompletion db))).

(** The [for ... of completions] loop of [calculateStreak]. *)
Fixpoint streakLoop (completions : list Db.HabitCompletion) (streak currentDate : Z) : Z :=
  match completions with
  | [] => streak
  | completion :: rest =>
      let completionDate := Db.date completion in
      let diffDays := currentDate - completionDate in
      if diffDays =? 0 then streakLoop rest (streak + 1) (currentDate - 1)
      else if diffDays =? 1 then streakLoop rest (streak + 1) (completionDate - 1)
      else streak
  end.

(** [today] is [startOfDay(new Date())]. *)
Definition calculateStreak (today : Z) (habitId userId : string) : Db.M Z :=
  completions ← Db.query (findCompletions habitId userId);
  if (length completions =? 0)%nat then Db.ret 0
  else Db.ret (streakLoop completions 0 today).

(** [db.habitCompletion.count] of the user's completed rows of one day. *)
Definition dayCount (userId : string) (day : Z) (db : Db.t) : Z :=
  Z.of_nat (length (filter (fun c => Db.hc_userId c = userId /\ Db.date c = day /\
                                     Db.completed c = true)
                           (Db.habitCompletion db))).

(** The [for (let i = 0; i < 365; i++)] loop of [updateUserStreak], with
    [n] iterations left. *)
Fixpoint userStreakLoop (count : Z -> Z) (n : nat) (i streak currentDate : Z) : Z :=
  match n with
  | O => streak
  | S n' =>
      let dayCompletions := count currentDate in
      if dayCompletions >? 0 then userStreakLoop count n' (i + 1) (streak + 1) (currentDate - 1)
      else if i >? 0 then streak
      else userStreakLoop count n' (i + 1) streak (currentDate - 1)
  end.

Definition userStreak (today : Z) (userId : string) (db : Db.t) : Z :=
  userStreakLoop (fun day => dayCount userId day db) 365 0 0 today.

Definition activeHabits (userId : string) (db : Db.t) : list Db.Habit :=
  filter (fun h => Db.habit_userId h = userId /\ Db.isArchived h = false) (Db.habit db).

Definition updateUserStreak (today : Z) (userId : string) : Db.M unit :=
  habits ← Db.query (activeHabits userId);
  if (length habits =? 0)%nat then Db.ret tt
  else
    streak ← Db.query (userStreak today userId);
    user ← Db.query (fun db => Db.user db !! userId);
    Db.user_update userId (fun u =>
      {| Db.xp := Db.xp u;
         Db.currentStreak := streak;
         Db.longestStreak := Z.max streak (JS.or_zero (Db.longestStreak <$> user)) |}).

(** The [switch (achievement.criteriaType)] of [checkAchievements]. *)
Definition shouldUnlock (user : option Db.User) (totalCompletions : Z)
    (achievement : Db.Achievement) : bool :=
  if String.eqb (Db.criteriaType achievement) "streak"
  then JS.or_zero (Db.currentStreak <$> user) >=? Db.threshold achievement
  else if String.eqb (Db.criteriaType achievement) "total_completions"
  then totalCompletions >=? Db.threshold achievement
  else false.

Definition unlockedSet (userId : string) (db : Db.t) : gset string :=
  list_to_set (Db.achievementId <$>
               filter (fun ua => Db.ua_userId ua = userId) (Db.userAchievement db)).

(** [db.achievement.findMany({ where: { id: { notIn: ... } } })] *)
Definition lockedAchievements (userId : string) (db : Db.t) : list Db.Achievement :=
  filter (fun a => Db.ach_id a ∉ unlockedSet userId db) (Db.achievement db).

Definition totalCompletions (userId : string) (db : Db.t) : Z :=
  Z.of_nat (length (filter (fun c => Db.hc_userId c = userId /\ Db.completed c = true)
                           (Db.habitCompletion db))).

Definition unlock (userId : string) (achievement : Db.Achievement) : Db.M unit :=
  Db.userAchievement_create
    {| Db.ua_userId := userId; Db.achievementId := Db.ach_id achievement |};;
  Db.user_update userId (fun u =>
    {| Db.xp := Db.xp u + Db.xpReward achievement;
       Db.currentStreak := Db.currentStreak u;
       Db.longestStreak := Db.longestStreak u |});;
  Db.activityLog_create
    {| Db.al_userId := userId;
       Db.action := "achievement_unlocked";
       Db.entityType := "achievement";
       Db.entityId := Db.ach_id achievement;
       Db.xpEarned := Db.xpReward achievement |}.

Definition checkAchievements (userId : string) : Db.M unit :=
  achievements ← Db.query (lockedAchievements userId);
  user ← Db.query (fun db => Db.user db !! userId);
  totalCompletions ← Db.query (totalCompletions userId);
  Db.forEach achievements (fun achievement =>
    if shouldUnlock user totalCompletions achievement
    then unlock userId achievement
    else Db.ret tt).

(** The achievements one run of [checkAchievements] unlocks: the locked
    ones whose criterion holds on the user's current aggregates. *)
Definition newlyUnlocked (userId : string) (db : Db.t) : list Db.Achievement :=
  filter (fun a => shouldUnlock (Db.user db !! userId) (totalCompletions userId db) a = true)
         (lockedAchievements userId db).

End HabitsRouter.

(** ** User router (part_007, second file) *)

Module UserRouter.

Definition calculateLevel (xp : Z) : option Z :=
  r ← JS.Math_sqrt (JS.quot xp 50); Some (JS.Math_floor r + 1).

(** The user router's [calculateLevelProgress] returns three fields.
    [xpRequiredForNextLevel] is [50 * (2 * level - 1)], never 0. *)
Record LevelProgress := {
  currentLevelXP : Z;
  nextLevelXP : Z;
  progressPercent : Z
}.

Definition calculateLevelProgress (xp : Z) : option LevelProgress :=
  level ← calculateLevel xp;
  let currentLevelXP := 50 * (level - 1) ^ 2 in
  let nextLevelXP := 50 * level ^ 2 in
  let xpInCurrentLevel := xp - currentLevelXP in
  let xpRequiredForNextLevel := nextLevelXP - currentLevelXP in
  let progressPercent :=
    Z.min 100
      (JS.Math_round (JS.mul (JS.quot xpInCurrentLevel xpRequiredForNextLevel) 100)) in
  Some {| currentLevelXP := currentLevelXP;
          nextLevelXP := nextLevelXP;
          progressPercent := progressPercent |}.

End UserRouter.

(** ** Gamification router (part_008) *)

Module GamificationRouter.

(** The rows of [RANKS] without their [icon], an emoji for the UI. *)
Definition RANKS : list Rank := [
  {| id := "unranked"; name := "Unranked"; minXP := 0; color := "#9CA3AF" |};
  {| id := "bronze"; name := "Bronze"; minXP := 100; color := "#CD7F32" |};
  {| id := "silver"; name := "Silver"; minXP := 300; color := "#C0C0C0" |};
  {| id := "gold"; name := "Gold"; minXP := 600; color := "#FFD700" |};
  {| id := "platinum"; name := "Platinum"; minXP := 1000; color := "#E5E4E2" |};
  {| id := "diamond"; name := "Diamond"; minXP := 1500; color := "#B9F2FF" |};
  {| id := "master"; name := "Master"; minXP := 2200; color := "#9B59B6" |};
  {| id := "champion"; name := "Champion"; minXP := 3000; color := "#E74C3C" |};
  {| id := "legend"; name := "Legend"; minXP := 4000; color := "#F39C12" |}
].

(** What [getNextRank] returns when there is a next rank: the row of the
    next rank with two more fields.  [progress] is [None] when the two
    thresholds are equal and the quotient is not a finite number. *)
Record NextRank := {
  rank : Rank;
  xpRequired : Z;
  progress : option Z
}.

Section Ranks.

(** The functions read the module constant [RANKS]; here it is the section
    variable [table], instantiated with [RANKS] below. *)
Variable table : list Rank.

(** The loop of [getRank] with [i = n - 1]; after the loop, [RANKS[0]]
    ([undefined], [None], when the table is empty). *)
Fixpoint getRankLoop (xp : Z) (n : nat) : option Rank :=
  match n with
  | O => table !! O
  | S i =>
      match table !! i with
      | Some r => if xp >=? minXP r then Some r else getRankLoop xp i
      | None => None
      end
  end.

Definition getRankIn (xp : Z) : option Rank := getRankLoop xp (length table).

(** [getRank] gives [undefined] only on an empty table, where [findIndex]
    calls its predicate on no row and answers -1, which is
    [RANKS.length - 1]: the result is [null]. *)
Definition getNextRankIn (xp : Z) : option NextRank :=
  match getRankIn xp with
  | None => None
  | Some currentRank =>
      let currentIndex := JS.findIndex (fun r => String.eqb (id r) (id currentRank)) table in
      if currentIndex =? Z.of_nat (length table) - 1 then None
      else
        nextRank ← JS.index table (currentIndex + 1);
        Some {| rank := nextRank;
                xpRequired := minXP nextRank - xp;
                progress :=
                  q ← JS.div (xp - minXP currentRank) (minXP nextRank - minXP currentRank);
                  Some (JS.Math_round (JS.mul q 100)) |}
  end.

End Ranks.

Definition getRank (xp : Z) : option Rank := getRankIn RANKS xp.

Definition getNextRank (xp : Z) : option NextRank := getNextRankIn RANKS xp.

Definition calculateLevel (xp : Z) : option Z :=
  r ← JS.Math_sqrt (JS.quot xp 50); Some (JS.Math_floor r + 1).

Record LevelProgress := {
  level : Z;
  currentLevelXP : Z;
  nextLevelXP : Z;
  xpInLevel : Z;
  xpForNextLevel : Z;
  progressPercent : Z
}.

(** When the level is [NaN] every field of the result is [NaN]: [None].
    [xpForNextLevel] is [50 * (2 * level - 1)], never 0 for an integer
    level, so the quotient is a finite number. *)
Definition calculateLevelProgress (xp : Z) : option LevelProgress :=
  level ← calculateLevel xp;
  let currentLevelXP := 50 * (level - 1) ^ 2 in
  let nextLevelXP := 50 * level ^ 2 in
  let xpInLevel := xp - currentLevelXP in
  let xpForNextLevel := nextLevelXP - currentLevelXP in
  let progressPercent :=
    Z.min 100 (JS.Math_round (JS.mul (JS.quot xpInLevel xpForNextLevel) 100)) in
  Some {| level := level;
          currentLevelXP := currentLevelXP;
          nextLevelXP := nextLevelXP;
          xpInLevel := xpInLevel;
          xpForNextLevel := xpForNextLevel;
          progressPercent := progressPercent |}.

(** One row of [getRanks]: the rank with two flags. *)
Record RankRow := {
  row : Rank;
  isUnlocked : bool;
  isCurrent : bool
}.

(** [getRanks] for the user row [user] ([None] when it does not exist).
    [getRank] is [undefined] only on an empty table, which has no row to
    ask for its [id]. *)
Definition getRanksIn (table : list Rank) (user : option Db.User) : list RankRow :=
  (fun rank =>
     {| row := rank;
        isUnlocked := JS.or_zero (Db.xp <$> user) >=? minXP rank;
        isCurrent :=
          match getRankIn table (JS.or_zero (Db.xp <$> user)) with
          | Some current => String.eqb (id current) (id rank)
          | None => false
          end |}) <$> table.

Definition getRanks (user : option Db.User) : list RankRow := getRanksIn RANKS user.

(** The rewards [claimDailyBonus] computes from the user row it reads. *)
Record DailyBonus := {
  goldReward : Z;
  xpReward : Z;
  streakMultiplier : Z
}.

Definition dailyBonus (user : option Db.User) : DailyBonus :=
  let streakMultiplier := Z.min (JS.or_zero (Db.currentStreak <$> user) / 7 + 1) 5 in
  {| goldReward := 10 * streakMultiplier;
     xpReward := 5 * streakMultiplier;
     streakMultiplier := streakMultiplier |}.

End GamificationRouter.

(** ** The [features] module (src/features/index.ts) *)

Module Features.

Definition calculateLevel (xp : Z) : option Z :=
  r ← JS.Math_sqrt (JS.quot xp 50); Some (JS.Math_floor r + 1).

(** The local [ranks] of [getRankInfo], again without the icons. *)
Definition ranks : list Rank := [
  {| id := "unranked"; name := "Unranked"; minXP := 0; color := "#9CA3AF" |};
  {| id := "bronze"; name := "Bronze"; minXP := 100; color := "#CD7F32" |};
  {| id := "silver"; name := "Silver"; minXP := 300; color := "#C0C0C0" |};
  {| id := "gold"; name := "Gold"; minXP := 600; color := "#FFD700" |};
  {| id := "platinum"; name := "Platinum"; minXP := 1000; color := "#E5E4E2" |};
  {| id := "diamond"; name := "Diamond"; minXP := 1500; color := "#B9F2FF" |};
  {| id := "master"; name := "Master"; minXP := 2200; color := "#9B59B6" |};
  {| id := "champion"; name := "Champion"; minXP := 3000; color := "#E74C3C" |};
  {| id := "legend"; name := "Legend"; minXP := 4000; color := "#F39C12" |}
].

Record RankInfo := {
  current : Rank;
  next : option Rank;
  progress : option Z
}.

(** [ranks.indexOf(r)]: the rows are distinct, so the position of the
    object is the first position of an equal row. *)
Definition indexOf (table : list Rank) (r : Rank) : Z :=
  JS.findIndex (fun r' => bool_decide (r' = r)) table.

(** The body of [getRankInfo] over its table ([None] only for an empty
    table, which the literal is not). *)
Definition getRankInfoIn (table : list Rank) (xp : Z) : option RankInfo :=
  first ← table !! O;
  let currentRank :=
    fold_left (fun currentRank rank => if xp >=? minXP rank then rank else currentRank)
              table first in
  let currentIndex := indexOf table currentRank in
  let nextRank :=
    if currentIndex <? Z.of_nat (length table) - 1
    then JS.index table (currentIndex + 1) else None in
  Some {| current := currentRank;
          next := nextRank;
          progress :=
            match nextRank with
            | Some nextRank =>
                q ← JS.div (xp - minXP currentRank) (minXP nextRank - minXP currentRank);
                Some (JS.Math_round (JS.mul q 100))
            | None => Some 100
            end |}.

Definition getRankInfo (xp : Z) : option RankInfo := getRankInfoIn ranks xp.

Record LevelProgress := {
  level : Z;
  currentLevelXP : Z;
  nextLevelXP : Z;
  xpInLevel : Z;
  xpForNextLevel : Z;
  progressPercent : Z
}.

(** The copy of [calculateLevelProgress] in the features module rounds
    the percentage and does not cap it. *)
Definition calculateLevelProgress (xp : Z) : option LevelProgress :=
  level ← calculateLevel xp;
  let currentLevelXP := 50 * (level - 1) ^ 2 in
  let nextLevelXP := 50 * level ^ 2 in
  let xpInLevel := xp - currentLevelXP in
  let xpForNextLevel := nextLevelXP - currentLevelXP in
  let progressPercent :=
    JS.Math_round (JS.mul (JS.quot xpInLevel xpForNextLevel) 100) in
  Some {| level := level;
          currentLevelXP := currentLevelXP;
          nextLevelXP := nextLevelXP;
          xpInLevel := xpInLevel;
          xpForNextLevel := xpForNextLevel;
          progressPercent := progressPercent |}.

End Features.

(** ** The client store (src/state/stores/habit-store.ts) *)

Module UserStore.

Record UserProfile := {
  xp : Z;
  level : option Z;          (* [None] is [NaN] *)
  currentStreak : Z;
  longestStreak : Z
}.

Record State := { user : option UserProfile }.


End UserStore.

(** ** The client's habit store (src/state/stores/habit-store.ts) *)

Module HabitStore.

(** The fields of a habit the actions below read or write. *)
Record Habit := {
  id : string;
  category : string;
  isArchived : bool;
  isPinned : bool;
  orderIndex : Z;
  currentStreak : Z;
  isCompletedToday : bool
}.

#[global] Instance Habit_eq_dec : EqDecision Habit.
Proof. solve_decision. Defined.

Record State := { habits : list Habit }.

Definition addHabit (habit : Habit) (state : State) : State :=
  {| habits := habits state ++ [habit] |}.

Definition removeHabit (id' : string) (state : State) : State :=
  {| habits := filter (fun h => id h <> id') (habits state) |}.

(** [l] with [f] applied to its first element that satisfies [p]: a
    [find] followed by a change of the object found. *)
Fixpoint update_first {A} (p : A -> bool) (f : A -> A) (l : list A) : list A :=
  match l with
  | [] => []
  | x :: l' => if p x then f x :: l' else x :: update_first p f l'
  end.

(** The body of [toggleCompletion] on the habit found. *)
Definition toggle (habit : Habit) : Habit :=
  let isCompletedToday := negb (isCompletedToday habit) in
  {| id := id habit;
     category := category habit;
     isArchived := isArchived habit;
     isPinned := isPinned habit;
     orderIndex := orderIndex habit;
     currentStreak :=
       if isCompletedToday then currentStreak habit + 1
       else Z.max 0 (currentStreak habit - 1);
     isCompletedToday := isCompletedToday |}.

Definition toggleCompletion (id' : string) (state : State) : State :=
  {| habits := update_first (fun h => String.eqb (id h) id') toggle (habits state) |}.

(** Where [splice(start, ...)] starts in an array of length [len]: a
    negative [start] counts from the end, and the result is clamped to
    the array. *)
Definition splice_start (len : nat) (start : Z) : nat :=
  if start <? 0 then Z.to_nat (Z.max (Z.of_nat len + start) 0)
  else Nat.min (Z.to_nat start) len.

Definition with_orderIndex (index : nat) (habit : Habit) : Habit :=
  {| id := id habit;
     category := category habit;
     isArchived := isArchived habit;
     isPinned := isPinned habit;
     orderIndex := Z.of_nat index;
     currentStreak := currentStreak habit;
     isCompletedToday := isCompletedToday habit |}.

(** [reorderHabits].  When [splice(fromIndex, 1)] removes nothing,
    [removed] is [undefined], it is inserted all the same, and writing
    its [orderIndex] throws a TypeError: [None], and the store keeps its
    state. *)
Definition reorderHabits (fromIndex toIndex : Z) (state : State) : option State :=
  let l := habits state in
  let from := splice_start (length l) fromIndex in
  let rest := take from l ++ drop (S from) l in
  let to := splice_start (length rest) toIndex in
  removed ← l !! from;
  Some {| habits := imap with_orderIndex (take to rest ++ removed :: drop to rest) |}.



End HabitStore.

(** ** The specification's own formulas *)

(** The reward the specification describes: base XP times the multiplier,
    rounded to the nearest multiple of 10. *)
Definition xpReward_spec (difficulty : Z) : Q :=
  (inject_Z (JS.Math_round (HabitsRouter.baseXP * HabitsRouter.multiplier difficulty / 10)) * 10)%Q.

(** The level as the specification words it, over the real numbers:
    [floor (sqrt (xp / 50)) + 1], not a number when [xp] is negative. *)
Definition level_spec (xp : Z) : option Z :=
  if decide (0 <= xp) then Some (Zfloor (sqrt (IZR xp / 50)) + 1) else None.

(** A valid threshold table: it starts at 0 and its thresholds increase
    strictly. *)
Definition strictly_increasing (table : list Rank) : Prop :=
  forall i j ri rj, table !! i = Some ri -> table !! j = Some rj ->
    (i < j)%nat -> minXP ri < minXP rj.

Definition valid_table (table : list Rank) : Prop :=
  (exists r0, table !! O = Some r0 /\ minXP r0 = 0) /\
  strictly_increasing table.

(** The ids of a table identify its rows. *)
Definition distinct_ids (table : list Rank) : Prop := NoDup (id <$> table).

(** [r] at position [i] is the last row of [table] whose threshold is at
    most [xp]. *)
Definition last_reached (table : list Rank) (xp : Z) (i : nat) (r : Rank) : Prop :=
  table !! i = Some r /\ minXP r <= xp /\
  forall j r', table !! j = Some r' -> (i < j)%nat -> xp < minXP r'.

(** The row [checkAchievements] creates for an achievement it unlocks. *)
Definition row_of (userId : string) (a : Db.Achievement) : Db.UserAchievement :=
  {| Db.ua_userId := userId; Db.achievementId := Db.ach_id a |}.

(** The activity-log row [checkAchievements] writes for an achievement it
    unlocks. *)
Definition log_of (userId : string) (a : Db.Achievement) : Db.ActivityLog :=
  {| Db.al_userId := userId;
     Db.action := "achievement_unlocked";
     Db.entityType := "achievement";
     Db.entityId := Db.ach_id a;
     Db.xpEarned := Db.xpReward a |}.

(** The sum of the XP rewards of a list of achievements. *)
Definition totalReward (achs : list Db.Achievement) : Z :=
  foldr Z.add 0 (Db.xpReward <$> achs).

(** ** Sequences of recomputations *)

(** One more run of [updateUserStreak]: by the time it runs the habits and
    the completion history have become [r_habit] and [r_history], and the
    day is [r_today]. *)
Record Recompute := {
  r_today : Z;
  r_habit : list Db.Habit;
  r_history : list Db.HabitCompletion
}.

Definition recompute (userId : string) (db : Db.t) (step : Recompute) : Db.t :=
  snd (HabitsRouter.updateUserStreak (r_today step) userId
         {| Db.habit := r_habit step;
            Db.habitCompletion := r_history step;
            Db.user := Db.user db;
            Db.achievement := Db.achievement db;
            Db.userAchievement := Db.userAchievement db;
            Db.activityLog := Db.activityLog db |}).

Definition recomputeAll (userId : string) (steps : list Recompute) (db : Db.t) : Db.t :=
  fold_left (recompute userId) steps db.

(** ** A sample database *)

(** User [u1] has one habit, done on days 10, 9 and 7 (not on day 8), and
    three achievements are defined. *)
Definition done_on (day : Z) : Db.HabitCompletion :=
  {| Db.hc_habitId := "h1"; Db.hc_userId := "u1"; Db.date := day; Db.completed := true |}.

Definition sample_db : Db.t :=
  {| Db.habit := [{| Db.habit_id := "h1"; Db.habit_userId := "u1"; Db.isArchived := false |}];
     Db.habitCompletion := [done_on 7; done_on 9; done_on 10];
     Db.user := {[ "u1" := {| Db.xp := 30; Db.currentStreak := 2; Db.longestStreak := 5 |} ]};
     Db.achievement :=
       [{| Db.ach_id := "a1"; Db.ach_name := "First Steps";
           Db.criteriaType := "total_completions"; Db.threshold := 1; Db.xpReward := 25 |};
        {| Db.ach_id := "a2"; Db.ach_name := "Week Warrior";
           Db.criteriaType := "streak"; Db.threshold := 7; Db.xpReward := 50 |};
        {| Db.ach_id := "a3"; Db.ach_name := "Two in a Row";
           Db.criteriaType := "streak"; Db.threshold := 2; Db.xpReward := 25 |}];
     Db.userAchievement := [];
     Db.activityLog := [] |}.

(** ** The procedures of the routers *)

Module Handlers.

Inductive ResourceType := GOLD | ELIXIR | DARK_MATTER | GEMS.

#[global] Instance ResourceType_eq_dec : EqDecision ResourceType.
Proof. solve_decision. Defined.

#[global] Instance ResourceType_countable : Countable ResourceType.
Proof.
  refine (inj_countable'
            (fun r => match r with
                      | GOLD => 0 | ELIXIR => 1 | DARK_MATTER => 2 | GEMS => 3
                      end)%nat
            (fun n => match n with
                      | 0 => GOLD | 1 => ELIXIR | 2 => DARK_MATTER | _ => GEMS
                      end)%nat _).
  now intros [].
Defined.

(** The database as the procedures see it: the tables of [Db.t], the
    [xpReward] column of the habit table (by habit id), and the
    [userResource] table, whose rows have the unique key
    [(userId, resourceType)] and hold an [amount]. *)
Record t := {
  db : Db.t;
  habit_xpReward : string -> Z;
  userResource : gmap (string * ResourceType) Z
}.

Definition M (A : Type) : Type := t -> Db.Result A * t.

Definition ret {A} (a : A) : M A := fun w => (Db.Ok a, w).

Definition bind {A B} (m : M A) (k : A -> M B) : M B :=
  fun w =>
    match m w with
    | (Db.Ok a, w') => k a w'
    | (Db.Throw e, w') => (Db.Throw e, w')
    end.

(** [throw new TRPCError({ code })] *)
Definition throw {A} (code : string) : M A := fun w => (Db.Throw code, w).

(** A call of a function of the database of the earlier sections. *)
Definition lift {A} (m : Db.M A) : M A :=
  fun w =>
    let (r, db') := m (db w) in
    (r, {| db := db'; habit_xpReward := habit_xpReward w; userResource := userResource w |}).

(** [m.catch(console.error)] on a call that is not awaited: what [m]
    wrote before it threw stays, the error is dropped.  The call is run
    to its end before the procedure returns. *)
Definition detached (m : M unit) : M unit :=
  fun w => (Db.Ok tt, snd (m w)).

End Handlers.

#[global] Instance Handlers_ret : MRet Handlers.M := @Handlers.ret.

#[global] Instance Handlers_bind : MBind Handlers.M := fun A B k m => Handlers.bind m k.

(** *** habits router: toggleCompletion, archive, restore (part_007) *)

Module HabitsProcedures.

(** [db.habit.findUnique({ where: { id } })] *)
Definition findHabit (id : string) (db : Db.t) : option Db.Habit :=
  head (filter (fun h => Db.habit_id h = id) (Db.habit db)).

(** [db.habitCompletion.findUnique({ where: { habitId_date } })] *)
Definition findCompletion (habitId : string) (date : Z) (db : Db.t)
    : option Db.HabitCompletion :=
  head (filter (fun c => Db.hc_habitId c = habitId /\ Db.date c = date)
               (Db.habitCompletion db)).

(** The list without its first element that satisfies [p]. *)
Fixpoint remove_first {A} (p : A -> bool) (l : list A) : list A :=
  match l with
  | [] => []
  | x :: l' => if p x then l' else x :: remove_first p l'
  end.

(** [db.habitCompletion.delete({ where: { id: existing.id } })], for the
    row [findCompletion] found: the first row of that habit and day. *)
Definition completion_delete (habitId : string) (date : Z) : Db.M unit :=
  fun db =>
    (Db.Ok tt,
     {| Db.habit := Db.habit db;
        Db.habitCompletion :=
          remove_first (fun c => bool_decide (Db.hc_habitId c = habitId /\ Db.date c = date))
                       (Db.habitCompletion db);
        Db.user := Db.user db;
        Db.achievement := Db.achievement db;
        Db.userAchievement := Db.userAchievement db;
        Db.activityLog := Db.activityLog db |}).

Definition completion_create (row : Db.HabitCompletion) : Db.M unit :=
  fun db =>
    (Db.Ok tt,
     {| Db.habit := Db.habit db;
        Db.habitCompletion := Db.habitCompletion db ++ [row];
        Db.user := Db.user db;
        Db.achievement := Db.achievement db;
        Db.userAchievement := Db.userAchievement db;
        Db.activityLog := Db.activityLog db |}).

(** The result of [toggleCompletion] without its [message] text. *)
Record ToggleResult := {
  completed : bool;
  xpChange : Z
}.

(** [toggleCompletion] for the user [userId] of the context, on the day
    [today]; [inputDate] is [input.date], when given. *)
Definition toggleCompletion (today : Z) (userId habitId : string) (inputDate : option Z)
    : Handlers.M ToggleResult :=
  let date := match inputDate with Some d => d | None => today end in
  if date >? today then Handlers.throw "BAD_REQUEST"
  else
    habit ← Handlers.lift (Db.query (findHabit habitId));
    match habit with
    | None => Handlers.throw "NOT_FOUND"
    | Some habit =>
        if negb (String.eqb (Db.habit_userId habit) userId)
        then Handlers.throw "NOT_FOUND"
        else
          xpReward ← (fun w => (Db.Ok (Handlers.habit_xpReward w habitId), w));
          existing ← Handlers.lift (Db.query (findCompletion habitId date));
          match existing with
          | Some _ =>
              Handlers.lift (completion_delete habitId date);;
              Handlers.lift (Db.user_update userId (fun u =>
                {| Db.xp := Db.xp u - xpReward;
                   Db.currentStreak := Db.currentStreak u;
                   Db.longestStreak := Db.longestStreak u |}));;
              Handlers.lift (HabitsRouter.updateUserStreak today userId);;
              Handlers.ret {| completed := false; xpChange := - xpReward |}
          | None =>
              Handlers.lift (completion_create
                {| Db.hc_habitId := habitId; Db.hc_userId := userId;
                   Db.date := date; Db.completed := true |});;
              Handlers.lift (Db.user_update userId (fun u =>
                {| Db.xp := Db.xp u + xpReward;
                   Db.currentStreak := Db.currentStreak u;
                   Db.longestStreak := Db.longestStreak u |}));;
              Handlers.lift (HabitsRouter.updateUserStreak today userId);;
              Handlers.lift (Db.activityLog_create
                {| Db.al_userId := userId;
                   Db.action := "habit_completed";
                   Db.entityType := "habit";
                   Db.entityId := Db.habit_id habit;
                   Db.xpEarned := xpReward |});;
              Handlers.detached (Handlers.lift (HabitsRouter.checkAchievements userId));;
              Handlers.ret {| completed := true; xpChange := xpReward |}
          end
    end.

(** The habit row with [isArchived] set, when it has the id. *)
Definition set_archived (id : string) (archived : bool) (h : Db.Habit) : Db.Habit :=
  if bool_decide (Db.habit_id h = id) then
    {| Db.habit_id := Db.habit_id h; Db.habit_userId := Db.habit_userId h;
       Db.isArchived := archived |}
  else h.

(** [db.habit.update({ where: { id }, data: { isArchived } })]: the
    updated row, or a throw when no habit has the id (the id is the
    primary key of the table). *)
Definition habit_setArchived (id : string) (archived : bool) : Db.M Db.Habit :=
  fun db =>
    match findHabit id db with
    | Some habit =>
        let habit' := {| Db.habit_id := Db.habit_id habit;
                         Db.habit_userId := Db.habit_userId habit;
                         Db.isArchived := archived |} in
        (Db.Ok habit',
         {| Db.habit := set_archived id archived <$> Db.habit db;
            Db.habitCompletion := Db.habitCompletion db;
            Db.user := Db.user db;
            Db.achievement := Db.achievement db;
            Db.userAchievement := Db.userAchievement db;
            Db.activityLog := Db.activityLog db |})
    | None => (Db.Throw "RecordNotFound", db)
    end.

Definition archive (userId id : string) : Handlers.M Db.Habit :=
  habit ← Handlers.lift (Db.query (findHabit id));
  match habit with
  | None => Handlers.throw "NOT_FOUND"
  | Some habit =>
      if negb (String.eqb (Db.habit_userId habit) userId)
      then Handlers.throw "NOT_FOUND"
      else Handlers.lift (habit_setArchived id true)
  end.

(** [restore] does not look at the user of the context. *)
Definition restore (id : string) : Handlers.M Db.Habit :=
  Handlers.lift (habit_setArchived id false).

End HabitsProcedures.

(** *** gamification router: getResources, addResource, repairStreak
    (part_008) *)

Module GamificationProcedures.

Import Handlers.

(** [getResources]: every resource type, 0 for those without a row. *)
Definition getResources (userId : string) : Handlers.M (ResourceType -> Z) :=
  fun w =>
    (Db.Ok (fun resourceType => default 0 (userResource w !! (userId, resourceType))), w).

(** [addResource].  Its input schema wants [amount] to be at least 1
    ([z.number().min(1)]); an input that fails the schema is answered with
    BAD_REQUEST before the procedure runs.  Then the
    [db.userResource.upsert]: the result is the new amount. *)
Definition addResource (userId : string) (resourceType : ResourceType) (amount : Z)
    : Handlers.M Z :=
  if amount <? 1 then Handlers.throw "BAD_REQUEST"
  else
    fun w =>
      let amount' :=
        match userResource w !! (userId, resourceType) with
        | Some old => old + amount
        | None => amount
        end in
      (Db.Ok amount',
       {| db := db w;
          habit_xpReward := habit_xpReward w;
          userResource := <[(userId, resourceType) := amount']> (userResource w) |}).

(** [RESOURCE_COSTS] and the choice [repairStreak] makes among them. *)
Definition STREAK_REPAIR_1 : ResourceType * Z := (GOLD, 50).
Definition STREAK_REPAIR_2 : ResourceType * Z := (ELIXIR, 25).
Definition STREAK_REPAIR_3 : ResourceType * Z := (DARK_MATTER, 10).

Definition repairCost (daysAgo : Z) : ResourceType * Z :=
  if daysAgo =? 1 then STREAK_REPAIR_1
  else if daysAgo <=? 3 then STREAK_REPAIR_2
  else STREAK_REPAIR_3.

(** [db.habitCompletion.upsert] of [repairStreak]: the row of the habit
    and day is marked completed, or a completed row is created. *)
Definition upsertCompleted (userId habitId : string) (date : Z) : Db.M unit :=
  fun db =>
    let rows :=
      match HabitsProcedures.findCompletion habitId date db with
      | Some _ =>
          (fun c => if bool_decide (Db.hc_habitId c = habitId /\ Db.date c = date) then
                      {| Db.hc_habitId := Db.hc_habitId c; Db.hc_userId := Db.hc_userId c;
                         Db.date := Db.date c; Db.completed := true |}
                    else c) <$> Db.habitCompletion db
      | None =>
          Db.habitCompletion db ++
          [{| Db.hc_habitId := habitId; Db.hc_userId := userId;
              Db.date := date; Db.completed := true |}]
      end in
    (Db.Ok tt,
     {| Db.habit := Db.habit db;
        Db.habitCompletion := rows;
        Db.user := Db.user db;
        Db.achievement := Db.achievement db;
        Db.userAchievement := Db.userAchievement db;
        Db.activityLog := Db.activityLog db |}).

(** The result of [repairStreak] without its [message] text. *)
Record RepairResult := {
  success : bool;
  resourceUsed : ResourceType;
  amountSpent : Z
}.

(** [repairStreak] for the user of the context on the day [today].  Its
    input schema wants [daysAgo] between 1 and 7
    ([z.number().min(1).max(7)]); an input that fails the schema is
    answered with BAD_REQUEST before the procedure runs.  The log row has
    no [entityId] and no [xpEarned]: the empty string and 0 stand for
    them. *)
Definition repairStreak (today : Z) (userId : string) (daysAgo : Z)
    : Handlers.M RepairResult :=
  if (daysAgo <? 1) || (7 <? daysAgo) then Handlers.throw "BAD_REQUEST"
  else
    let cost := repairCost daysAgo in
    resource ← (fun w => (Db.Ok (userResource w !! (userId, cost.1)), w));
    match resource with
    | None => Handlers.throw "BAD_REQUEST"
    | Some amount =>
        if amount <? cost.2 then Handlers.throw "BAD_REQUEST"
        else
          (fun w =>
             (Db.Ok tt,
              {| db := db w;
                 habit_xpReward := habit_xpReward w;
                 userResource :=
                   alter (fun a => a - cost.2) (userId, cost.1) (userResource w) |}));;
          let targetDate := today - daysAgo in
          habits ← Handlers.lift (Db.query (HabitsRouter.activeHabits userId));
          Handlers.lift (Db.forEach habits (fun habit =>
            upsertCompleted userId (Db.habit_id habit) targetDate));;
          Handlers.lift (Db.activityLog_create
            {| Db.al_userId := userId;
               Db.action := "streak_repaired";
               Db.entityType := "streak";
               Db.entityId := "";
               Db.xpEarned := 0 |});;
          Handlers.ret {| success := true; resourceUsed := cost.1; amountSpent := cost.2 |}
    end.

End GamificationProcedures.

(** ** Views of the database used to state properties *)

(** The days on which the habit has a completed row, in table order. *)
Definition completedDays (habitId userId : string) (db : Db.t) : list Z :=
  Db.date <$>
  filter (fun c => Db.hc_habitId c = habitId /\ Db.hc_userId c = userId /\
                   Db.completed c = true)
         (Db.habitCompletion db).

(** [n] days in a row, the latest one, [start], first. *)
Definition daysBack (start : Z) (n : nat) : list Z :=
  (fun k => start - Z.of_nat k) <$> seq 0 n.

(** Habit [habitId] has a completed row on the day [day]. *)
Definition completedOn (day : Z) (rows : list Db.HabitCompletion) (habitId : string) : Prop :=
  exists c, c ∈ rows /\ Db.hc_habitId c = habitId /\ Db.date c = day /\
            Db.completed c = true.

(** The order of days in which the later day comes first. *)
Definition later_first (a b : Z) : Prop := b <= a.

#[global] Instance later_first_dec : RelDecision later_first.
Proof. unfold later_first. solve_decision. Defined.

(** The sample database with another completion history of its habit. *)
Definition history_db (days : list Z) : Db.t :=
  {| Db.habit := Db.habit sample_db;
     Db.habitCompletion := done_on <$> days;
     Db.user := Db.user sample_db;
     Db.achievement := Db.achievement sample_db;
     Db.userAchievement := Db.userAchievement sample_db;
     Db.activityLog := Db.activityLog sample_db |}.

(** A sample state of the procedures: the sample database, every habit
    worth 100 XP, and 60 gold and 10 elixir for [u1]. *)
Definition sample_world : Handlers.t :=
  {| Handlers.db := sample_db;
     Handlers.habit_xpReward := fun _ => 100;
     Handlers.userResource :=
       {[ ("u1", Handlers.GOLD) := 60; ("u1", Handlers.ELIXIR) := 10 ]} |}.

(** * Properties *)

(** ** Numbers *)

Section Numbers.




(** The integer square root of the floor is the floor of the real square
    root. *)
Lemma Z_sqrt_floor_real (x : Q) :
  (0 <= x)%Q -> Z.sqrt (Qfloor x) = Zfloor (sqrt (Q2R x)).
Proof.
  intros Hx.
  symmetry. apply Zfloor_eq.
  assert (Hf0 : 0 <= Qfloor x).
  { rewrite <- (Qfloor_Z 0). now apply Qfloor_resp_le. }
  destruct (Z.sqrt_spec (Qfloor x) Hf0) as [Hlo Hhi].
  set (k := Z.sqrt (Qfloor x)) in *.
  assert (Hk : 0 <= k) by apply Z.sqrt_nonneg.
  assert (HxR : (0 <= Q2R x)%R).
  { replace 0%R with (Q2R 0) by (unfold Q2R; simpl; lra). now apply Qle_Rle. }
  assert (HloR : (IZR (k * k) <= Q2R x)%R).
  { apply Rle_trans with (IZR (Qfloor x)); [now apply IZR_le |].
    replace (IZR (Qfloor x)) with (Q2R (inject_Z (Qfloor x)))
      by (unfold Q2R; simpl; lra).
    apply Qle_Rle, Qfloor_le. }
  assert (HhiR : (Q2R x < IZR ((k + 1) * (k + 1)))%R).
  { apply Rlt_le_trans with (IZR (Qfloor x + 1)).
    - replace (IZR (Qfloor x + 1)) with (Q2R (inject_Z (Qfloor x + 1)))
        by (unfold Q2R; simpl; lra).
      apply Qlt_Rlt, Qlt_floor.
    - apply IZR_le. change (Z.succ k) with (k + 1) in Hhi. lia. }
  assert (HkR : (0 <= IZR k)%R) by now apply IZR_le.
  split.
  - rewrite <- (sqrt_square (IZR k)) by exact HkR.
    apply sqrt_le_1_alt. now rewrite <- mult_IZR.
  - rewrite <- plus_IZR.
    rewrite <- (sqrt_square (IZR (k + 1))) by (apply IZR_le; lia).
    apply sqrt_lt_1_alt. split; [exact HxR |]. now rewrite <- mult_IZR.
Qed.

End Numbers.

(** ** Doubles *)

Section Doubles.

Local Open Scope Q_scope.

Lemma pow2_pos (e : Z) : 0 < 2 ^ e.
Proof. apply Qpower_0_lt. reflexivity. Qed.

Lemma pow2_add (a b : Z) : 2 ^ (a + b) == 2 ^ a * 2 ^ b.
Proof. apply Qpower_plus. discriminate. Qed.

Lemma pow2_le (a b : Z) : (a <= b)%Z -> 2 ^ a <= 2 ^ b.
Proof. intros H. apply Qpower_le_compat_l; [exact H | discriminate]. Qed.

Lemma pow2_lt (a b : Z) : (a < b)%Z -> 2 ^ a < 2 ^ b.
Proof. intros H. apply Qpower_lt_compat_l; [exact H | reflexivity]. Qed.

Lemma pow2_lt_inv (a b : Z) : 2 ^ a < 2 ^ b -> (a < b)%Z.
Proof. intros H. apply (Qpower_lt_compat_l_inv 2); [exact H | reflexivity]. Qed.

Lemma pow2_Z (n : Z) : (0 <= n)%Z -> 2 ^ n == inject_Z (2 ^ n).
Proof. intros H. symmetry. apply (Zpower_Qpower 2 n H). Qed.

Lemma Qmake_lt_div (a A : Z) (b B : positive) :
  (a * Zpos B < A * Zpos b)%Z -> a # b < inject_Z A / inject_Z (Zpos B).
Proof.
  intros H. apply Qlt_shift_div_l; [reflexivity |].
  unfold Qlt, Qmult, inject_Z; simpl. lia.
Qed.

Lemma Qmake_le_div (a A : Z) (b B : positive) :
  (A * Zpos b <= a * Zpos B)%Z -> inject_Z A / inject_Z (Zpos B) <= a # b.
Proof.
  intros H. apply Qle_shift_div_r; [reflexivity |].
  unfold Qle, Qmult, inject_Z; simpl. lia.
Qed.

Lemma pow2_sub_Z (a b : Z) :
  (0 <= a)%Z -> (0 <= b)%Z -> 2 ^ (a - b) == inject_Z (2 ^ a) / inject_Z (2 ^ b).
Proof.
  intros Ha Hb.
  replace (a - b)%Z with (a + - b)%Z by lia.
  rewrite pow2_add, Qpower_opp, !pow2_Z by assumption. reflexivity.
Qed.

(** [ilog2 q] is the exponent of [q]: the power of two at or below it. *)
Lemma ilog2_spec (q : Q) : 0 < q -> 2 ^ JS.ilog2 q <= q /\ q < 2 ^ (JS.ilog2 q + 1).
Proof.
  intros Hq. destruct q as [a b].
  assert (Ha : (0 < a)%Z) by (unfold Qlt in Hq; simpl in Hq; lia).
  unfold JS.ilog2. cbn [Qnum Qden].
  destruct (Z.log2_spec a Ha) as [Ha1 Ha2].
  destruct (Z.log2_spec (Zpos b) ltac:(lia)) as [Hb1 Hb2].
  pose proof (Z.log2_nonneg a) as Hla.
  pose proof (Z.log2_nonneg (Zpos b)) as Hlb.
  set (la := Z.log2 a) in *. set (lb := Z.log2 (Zpos b)) in *.
  assert (Hup : a # b < 2 ^ (la - lb + 1)).
  { replace (la - lb + 1)%Z with (Z.succ la - lb)%Z by lia.
    rewrite pow2_sub_Z by lia.
    assert (Hp : (0 < 2 ^ lb)%Z) by (apply Z.pow_pos_nonneg; lia).
    destruct (2 ^ lb)%Z as [| B |] eqn:HB; try lia.
    apply Qmake_lt_div. nia. }
  assert (Hlow : 2 ^ (la - lb - 1) <= a # b).
  { replace (la - lb - 1)%Z with (la - Z.succ lb)%Z by lia.
    rewrite pow2_sub_Z by lia.
    assert (Hp : (0 < 2 ^ Z.succ lb)%Z) by (apply Z.pow_pos_nonneg; lia).
    destruct (2 ^ Z.succ lb)%Z as [| B |] eqn:HB; try lia.
    apply Qmake_le_div. nia. }
  destruct (Qle_bool (2 ^ (la - lb)) (a # b)) eqn:Hle.
  - apply Qle_bool_iff in Hle. split; [exact Hle | exact Hup].
  - split; [exact Hlow |].
    replace (la - lb - 1 + 1)%Z with (la - lb)%Z by lia.
    apply Qnot_le_lt. intros Hc. apply Qle_bool_iff in Hc. congruence.
Qed.

(** Rounding to the nearest integer, ties to the even one. *)
Lemma round_half_even_le (t : Q) (k : Z) :
  t <= inject_Z k -> (JS.round_half_even t <= k)%Z.
Proof.
  intros Ht. unfold JS.round_half_even.
  pose proof (Qfloor_le t) as Hf1. pose proof (Qlt_floor t) as Hf2.
  assert (Hfk : (Qfloor t <= k)%Z).
  { rewrite <- (Qfloor_Z k). now apply Qfloor_resp_le. }
  set (f := Qfloor t) in *. rewrite inject_Z_plus in Hf2.
  destruct (Z.eq_dec f k) as [-> | Hne].
  - destruct (Qcompare_spec (t - inject_Z k) (1 # 2)) as [He | Hl | Hg].
    + exfalso. Lqa.lra.
    + lia.
    + exfalso. Lqa.lra.
  - destruct (t - inject_Z f ?= 1 # 2); [destruct (Z.even f) | |]; lia.
Qed.

Lemma round_half_even_ge (t : Q) (k : Z) :
  inject_Z k <= t -> (k <= JS.round_half_even t)%Z.
Proof.
  intros Ht. unfold JS.round_half_even. cbv zeta.
  assert (Hfk : (k <= Qfloor t)%Z).
  { rewrite <- (Qfloor_Z k). now apply Qfloor_resp_le. }
  destruct (t - inject_Z (Qfloor t) ?= 1 # 2); [destruct (Z.even (Qfloor t)) | |]; lia.
Qed.

Lemma round_half_even_near (t : Q) :
  t - (1 # 2) <= inject_Z (JS.round_half_even t) <= t + (1 # 2).
Proof.
  unfold JS.round_half_even.
  pose proof (Qfloor_le t) as Hf1. pose proof (Qlt_floor t) as Hf2.
  set (f := Qfloor t) in *. rewrite inject_Z_plus in Hf2.
  destruct (Qcompare_spec (t - inject_Z f) (1 # 2)) as [He | Hl | Hg];
    [destruct (Z.even f) | |]; rewrite ?inject_Z_plus;
    change (inject_Z 1) with 1 in *; split; Lqa.lra.
Qed.

Lemma ulp_pos_eq (q : Q) :
  0 < q -> JS.ulp q = 2 ^ (Z.max (JS.ilog2 q) (-1022) - 52).
Proof.
  intros Hq. unfold JS.ulp. destruct q as [a b]. unfold Qabs.
  rewrite Z.abs_eq; [reflexivity |]. unfold Qlt in Hq; simpl in Hq; lia.
Qed.

Lemma double_pos_eq (q : Q) :
  0 < q -> JS.double q == inject_Z (JS.round_half_even (q / JS.ulp q)) * JS.ulp q.
Proof.
  intros Hq. unfold JS.double.
  destruct (Qeq_bool q 0) eqn:Hz.
  - apply Qeq_bool_iff in Hz. rewrite Hz in Hq. discriminate.
  - apply Qred_correct.
Qed.

Lemma double_0 (q : Q) : q == 0 -> JS.double q = 0.
Proof. intros Hq. unfold JS.double. apply Qeq_bool_iff in Hq. now rewrite Hq. Qed.

Lemma inject_Z_pow2_53 (m : Z) : (Z.abs m <= 2 ^ 53)%Z -> inject_Z m <= 2 ^ 53.
Proof.
  intros Hm. rewrite (pow2_Z 53) by lia. rewrite <- Zle_Qle. lia.
Qed.

(** A number whose mantissa is finer than the grid at exponent [e] is at
    most [2 ^ e]. *)
Lemma representable_coarse (m j e : Z) :
  (Z.abs m <= 2 ^ 53)%Z -> (j < e - 52)%Z -> inject_Z m * 2 ^ j <= 2 ^ e.
Proof.
  intros Hm Hj.
  apply Qle_trans with (2 ^ 53 * 2 ^ j).
  - apply Qmult_le_compat_r; [now apply inject_Z_pow2_53 |].
    apply Qlt_le_weak, pow2_pos.
  - rewrite <- pow2_add. apply pow2_le. lia.
Qed.

(** Between [q] and a number [r] at or above it lies a multiple of the unit
    of [q]. *)
Lemma grid_above (q r : Q) :
  0 < q -> q <= r -> JS.representable r ->
  exists k : Z, q <= inject_Z k * JS.ulp q /\ inject_Z k * JS.ulp q <= r.
Proof.
  intros Hq Hqr (m & j & Hm & Hj & Hr).
  rewrite ulp_pos_eq by exact Hq.
  destruct (ilog2_spec q Hq) as [He1 He2].
  set (e := JS.ilog2 q) in *. set (E := Z.max e (-1022)).
  destruct (Z_le_gt_dec (E - 52) j) as [Hfine | Hcoarse].
  - exists (m * 2 ^ (j - (E - 52)))%Z.
    assert (Hk : inject_Z (m * 2 ^ (j - (E - 52))) * 2 ^ (E - 52) == r).
    { rewrite inject_Z_mult, <- pow2_Z by lia.
      rewrite <- Qmult_assoc, <- pow2_add.
      replace (j - (E - 52) + (E - 52))%Z with j by lia.
      symmetry; exact Hr. }
    rewrite Hk. split; [exact Hqr | apply Qle_refl].
  - exists (2 ^ 52)%Z.
    assert (HE : E = e) by lia.
    assert (Hk : inject_Z (2 ^ 52) * 2 ^ (E - 52) == 2 ^ e).
    { rewrite <- pow2_Z by lia. rewrite <- pow2_add.
      replace (52 + (E - 52))%Z with e by lia. reflexivity. }
    assert (Hre : r <= 2 ^ e).
    { rewrite Hr. apply representable_coarse; [exact Hm | lia]. }
    rewrite Hk. split.
    + now apply Qle_trans with r.
    + now apply Qle_trans with q.
Qed.

Lemma grid_below (q r : Q) :
  0 < q -> r <= q -> JS.representable r ->
  exists k : Z, inject_Z k * JS.ulp q <= q /\ r <= inject_Z k * JS.ulp q.
Proof.
  intros Hq Hqr (m & j & Hm & Hj & Hr).
  rewrite ulp_pos_eq by exact Hq.
  destruct (ilog2_spec q Hq) as [He1 He2].
  set (e := JS.ilog2 q) in *. set (E := Z.max e (-1022)).
  destruct (Z_le_gt_dec (E - 52) j) as [Hfine | Hcoarse].
  - exists (m * 2 ^ (j - (E - 52)))%Z.
    assert (Hk : inject_Z (m * 2 ^ (j - (E - 52))) * 2 ^ (E - 52) == r).
    { rewrite inject_Z_mult, <- pow2_Z by lia.
      rewrite <- Qmult_assoc, <- pow2_add.
      replace (j - (E - 52) + (E - 52))%Z with j by lia.
      symmetry; exact Hr. }
    rewrite Hk. split; [exact Hqr | apply Qle_refl].
  - exists (2 ^ 52)%Z.
    assert (HE : E = e) by lia.
    assert (Hk : inject_Z (2 ^ 52) * 2 ^ (E - 52) == 2 ^ e).
    { rewrite <- pow2_Z by lia. rewrite <- pow2_add.
      replace (52 + (E - 52))%Z with e by lia. reflexivity. }
    assert (Hre : r <= 2 ^ e).
    { rewrite Hr. apply representable_coarse; [exact Hm | lia]. }
    rewrite Hk. split; [exact He1 | exact Hre].
Qed.

Lemma ulp_pos (q : Q) : 0 < JS.ulp q.
Proof. apply pow2_pos. Qed.

(** Rounding to the nearest number never crosses a number. *)
Lemma double_le_pos (q r : Q) :
  0 < q -> q <= r -> JS.representable r -> JS.double q <= r.
Proof.
  intros Hq Hqr Hr.
  destruct (grid_above q r Hq Hqr Hr) as (k & Hk1 & Hk2).
  rewrite double_pos_eq by exact Hq.
  apply Qle_trans with (inject_Z k * JS.ulp q); [| exact Hk2].
  apply Qmult_le_compat_r; [| apply Qlt_le_weak, ulp_pos].
  rewrite <- Zle_Qle. apply round_half_even_le.
  apply Qle_shift_div_r; [apply ulp_pos | exact Hk1].
Qed.

Lemma double_ge_pos (q r : Q) :
  0 < q -> r <= q -> JS.representable r -> r <= JS.double q.
Proof.
  intros Hq Hqr Hr.
  destruct (grid_below q r Hq Hqr Hr) as (k & Hk1 & Hk2).
  rewrite double_pos_eq by exact Hq.
  apply Qle_trans with (inject_Z k * JS.ulp q); [exact Hk2 |].
  apply Qmult_le_compat_r; [| apply Qlt_le_weak, ulp_pos].
  rewrite <- Zle_Qle. apply round_half_even_ge.
  apply Qle_shift_div_l; [apply ulp_pos | exact Hk1].
Qed.

Lemma representable_Z (n : Z) : (Z.abs n <= 2 ^ 53)%Z -> JS.representable (inject_Z n).
Proof.
  intros Hn. exists n, 0%Z. split; [exact Hn |]. split; [lia |].
  change (2 ^ 0) with 1. now rewrite Qmult_1_r.
Qed.

Lemma double_le (q r : Q) :
  0 <= q -> q <= r -> JS.representable r -> JS.double q <= r.
Proof.
  intros Hq Hqr Hr. destruct (Qle_lt_or_eq _ _ Hq) as [Hpos | Hz].
  - now apply double_le_pos.
  - rewrite double_0 by now symmetry. now apply Qle_trans with q.
Qed.

Lemma double_ge (q r : Q) :
  0 <= q -> r <= q -> JS.representable r -> r <= JS.double q.
Proof.
  intros Hq Hqr Hr. destruct (Qle_lt_or_eq _ _ Hq) as [Hpos | Hz].
  - now apply double_ge_pos.
  - rewrite double_0 by now symmetry. now rewrite Hz.
Qed.

Lemma double_nonneg (q : Q) : 0 <= q -> 0 <= JS.double q.
Proof.
  intros Hq. apply double_ge; [exact Hq | exact Hq |].
  apply (representable_Z 0). lia.
Qed.

(** A number is its own rounding. *)
Lemma double_exact (r : Q) : 0 <= r -> JS.representable r -> JS.double r == r.
Proof.
  intros Hr Hrep. destruct (Qle_lt_or_eq _ _ Hr) as [Hpos | Hz].
  - apply Qle_antisym.
    + apply double_le; [exact Hr | apply Qle_refl | exact Hrep].
    + apply double_ge; [exact Hr | apply Qle_refl | exact Hrep].
  - rewrite double_0 by now symmetry. exact Hz.
Qed.

(** The result of a rounding is a number. *)
Lemma double_representable (q : Q) : 0 <= q -> JS.representable (JS.double q).
Proof.
  intros Hq0. destruct (Qle_lt_or_eq _ _ Hq0) as [Hq | Hz].
  2: { rewrite double_0 by now symmetry. apply (representable_Z 0). lia. }
  destruct (ilog2_spec q Hq) as [He1 He2].
  exists (JS.round_half_even (q / JS.ulp q)), (Z.max (JS.ilog2 q) (-1022) - 52)%Z.
  split; [| split; [lia |]].
  - apply Z.abs_le. split.
    + apply Z.le_trans with 0%Z; [lia |]. apply round_half_even_ge.
      apply Qle_shift_div_l; [apply ulp_pos |]. now rewrite Qmult_0_l.
    + apply round_half_even_le.
      apply Qle_shift_div_r; [apply ulp_pos |].
      rewrite ulp_pos_eq by exact Hq.
      rewrite <- pow2_Z by lia. rewrite <- pow2_add.
      apply Qle_trans with (2 ^ (JS.ilog2 q + 1)); [now apply Qlt_le_weak |].
      apply pow2_le. lia.
  - rewrite double_pos_eq by exact Hq. now rewrite ulp_pos_eq by exact Hq.
Qed.

Lemma round_half_even_mono (t1 t2 : Q) :
  t1 <= t2 -> (JS.round_half_even t1 <= JS.round_half_even t2)%Z.
Proof.
  intros Ht.
  pose proof (Qfloor_resp_le _ _ Ht) as Hf.
  destruct (Z.eq_dec (Qfloor t1) (Qfloor t2)) as [Heq | Hne].
  - unfold JS.round_half_even. cbv zeta. rewrite <- Heq.
    set (f := Qfloor t1) in *.
    destruct (Qcompare_spec (t1 - inject_Z f) (1 # 2)) as [He1 | Hl1 | Hg1];
      destruct (Qcompare_spec (t2 - inject_Z f) (1 # 2)) as [He2 | Hl2 | Hg2];
      try (destruct (Z.even f)); try lia; exfalso; Lqa.lra.
  - apply Z.le_trans with (Qfloor t2).
    + apply round_half_even_le.
      pose proof (Qlt_floor t1) as H1.
      apply Qle_trans with (inject_Z (Qfloor t1 + 1)); [now apply Qlt_le_weak |].
      rewrite <- Zle_Qle. lia.
    + apply round_half_even_ge, Qfloor_le.
Qed.

(** Rounding is monotone. *)
Lemma double_mono (q1 q2 : Q) : 0 <= q1 -> q1 <= q2 -> JS.double q1 <= JS.double q2.
Proof.
  intros H1 H12.
  assert (H2 : 0 <= q2) by now apply Qle_trans with q1.
  destruct (Qle_lt_or_eq _ _ H1) as [Hpos | Hz].
  2: { rewrite (double_0 q1) by now symmetry. now apply double_nonneg. }
  assert (Hpos2 : 0 < q2) by now apply Qlt_le_trans with q1.
  destruct (ilog2_spec q1 Hpos) as [Ha1 Ha2].
  destruct (ilog2_spec q2 Hpos2) as [Hb1 Hb2].
  assert (He : (JS.ilog2 q1 <= JS.ilog2 q2)%Z).
  { assert (2 ^ JS.ilog2 q1 < 2 ^ (JS.ilog2 q2 + 1)).
    { apply Qle_lt_trans with q1; [exact Ha1 |]. now apply Qle_lt_trans with q2. }
    apply pow2_lt_inv in H. lia. }
  destruct (Z.eq_dec (Z.max (JS.ilog2 q1) (-1022)) (Z.max (JS.ilog2 q2) (-1022)))
    as [Hsame | Hdiff].
  - rewrite !double_pos_eq by assumption.
    assert (Hu : JS.ulp q1 = JS.ulp q2).
    { rewrite !ulp_pos_eq by assumption. now rewrite Hsame. }
    rewrite Hu.
    apply Qmult_le_compat_r; [| apply Qlt_le_weak, ulp_pos].
    rewrite <- Zle_Qle. apply round_half_even_mono.
    apply Qmult_le_compat_r; [exact H12 |].
    apply Qinv_le_0_compat, Qlt_le_weak, ulp_pos.
  - assert (Hrep : JS.representable (2 ^ JS.ilog2 q2)).
    { exists 1%Z, (JS.ilog2 q2). split; [lia |]. split; [lia |].
      now rewrite Qmult_1_l. }
    apply Qle_trans with (2 ^ JS.ilog2 q2).
    + apply double_le; [exact H1 | | exact Hrep].
      apply Qle_trans with (2 ^ (JS.ilog2 q1 + 1)); [now apply Qlt_le_weak |].
      apply pow2_le. lia.
    + apply double_ge; [exact H2 | exact Hb1 | exact Hrep].
Qed.

(** The relative error of a rounding in the normal range. *)
Lemma double_error (q : Q) :
  2 ^ (-1022) <= q ->
  q * (1 - 2 ^ (-53)) <= JS.double q /\ JS.double q <= q * (1 + 2 ^ (-53)).
Proof.
  intros Hn.
  assert (Hq : 0 < q) by (apply Qlt_le_trans with (2 ^ (-1022)); [apply pow2_pos | exact Hn]).
  destruct (ilog2_spec q Hq) as [He1 He2].
  assert (He : (-1022 <= JS.ilog2 q)%Z).
  { assert (2 ^ (-1022) < 2 ^ (JS.ilog2 q + 1)) by now apply Qle_lt_trans with q.
    apply pow2_lt_inv in H. lia. }
  rewrite double_pos_eq by exact Hq.
  pose proof (ulp_pos q) as Hu.
  assert (Hue : JS.ulp q == 2 ^ JS.ilog2 q * 2 ^ (-52)).
  { rewrite ulp_pos_eq by exact Hq. rewrite Z.max_l by lia.
    replace (JS.ilog2 q - 52)%Z with (JS.ilog2 q + -52)%Z by lia. apply pow2_add. }
  destruct (round_half_even_near (q / JS.ulp q)) as [Hlo Hhi].
  set (u := JS.ulp q) in *. set (R := inject_Z (JS.round_half_even (q / u))) in *.
  set (pe := 2 ^ JS.ilog2 q) in *.
  assert (Hlo' : (q / u - (1 # 2)) * u <= R * u)
    by (apply Qmult_le_compat_r; [exact Hlo | now apply Qlt_le_weak]).
  assert (Hhi' : R * u <= (q / u + (1 # 2)) * u)
    by (apply Qmult_le_compat_r; [exact Hhi | now apply Qlt_le_weak]).
  assert (E1 : (q / u - (1 # 2)) * u == q - u * (1 # 2))
    by (field; intros Hc; rewrite Hc in Hu; discriminate).
  assert (E2 : (q / u + (1 # 2)) * u == q + u * (1 # 2))
    by (field; intros Hc; rewrite Hc in Hu; discriminate).
  rewrite E1 in Hlo'. rewrite E2 in Hhi'.
  change (2 ^ (-53)) with (1 # 9007199254740992).
  change (2 ^ (-52)) with (1 # 4503599627370496) in Hue.
  split; Lqa.lra.
Qed.

Lemma Qfloor_unique (x : Q) (n : Z) :
  inject_Z n <= x -> x < inject_Z (n + 1) -> Qfloor x = n.
Proof.
  intros Hlo Hhi. apply Z.le_antisymm.
  - assert (H : (Qfloor x < n + 1)%Z); [| lia].
    rewrite Zlt_Qlt. apply Qle_lt_trans with x; [apply Qfloor_le | exact Hhi].
  - rewrite <- (Qfloor_Z n). now apply Qfloor_resp_le.
Qed.

Lemma Qfloor_ge (x : Q) (n : Z) : inject_Z n <= x -> (n <= Qfloor x)%Z.
Proof. intros H. rewrite <- (Qfloor_Z n). now apply Qfloor_resp_le. Qed.

Lemma pow4_600 : 4 ^ 600 == inject_Z (2 ^ 600 * 2 ^ 600).
Proof.
  rewrite inject_Z_mult. rewrite <- !pow2_Z by lia.
  change 4 with (2 * 2). rewrite Qmult_power. reflexivity.
Qed.

Lemma pow2_600_pos : 0 < 2 ^ 600.
Proof. apply pow2_pos. Qed.

(** The stand-in for the square root of [x] is at least [n] when [x] is at
    least [n * n]. *)
Lemma sqrt_sticky_ge (x : Q) (n : Z) :
  (0 <= n)%Z -> inject_Z (n * n) <= x -> inject_Z n <= JS.sqrt_sticky x.
Proof.
  intros Hn Hx. unfold JS.sqrt_sticky. cbv zeta.
  set (scaled := x * 4 ^ 600).
  assert (HK : (0 < 2 ^ 600)%Z) by (apply Z.pow_pos_nonneg; lia).
  set (K := (2 ^ 600)%Z) in *.
  assert (Hs : inject_Z ((n * K) * (n * K)) <= scaled).
  { unfold scaled. rewrite pow4_600. fold K.
    replace (n * K * (n * K))%Z with (n * n * (K * K))%Z by ring.
    rewrite (inject_Z_mult (n * n)).
    apply Qmult_le_compat_r; [exact Hx |].
    rewrite <- (Zle_Qle 0). nia. }
  apply Qfloor_ge in Hs.
  assert (Hroot : (n * K <= Z.sqrt (Qfloor scaled))%Z).
  { apply Z.sqrt_le_square; nia. }
  set (s := Z.sqrt (Qfloor scaled)) in *.
  apply Qle_shift_div_l; [apply pow2_pos |].
  rewrite (pow2_Z 600) by lia. fold K. rewrite <- inject_Z_mult.
  apply Qle_trans with (inject_Z s); [now rewrite <- Zle_Qle |].
  destruct (Qeq_bool (inject_Z (s * s)) scaled); Lqa.lra.
Qed.

(** It is at most [T / 2 ^ 600] when [x], scaled, is at most [T * T]. *)
Lemma sqrt_sticky_le (x : Q) (T : Z) :
  (0 <= T)%Z -> 0 <= x -> x * 4 ^ 600 <= inject_Z (T * T) ->
  JS.sqrt_sticky x <= inject_Z T / 2 ^ 600.
Proof.
  intros HT Hx0 Hx. unfold JS.sqrt_sticky. cbv zeta.
  set (scaled := x * 4 ^ 600) in *.
  assert (Hsc : 0 <= scaled).
  { unfold scaled. apply Qmult_le_0_compat; [exact Hx0 |].
    rewrite pow4_600. rewrite <- (Zle_Qle 0). nia. }
  assert (HN : (0 <= Qfloor scaled)%Z) by (now apply (Qfloor_ge _ 0)).
  destruct (Z.sqrt_spec _ HN) as [Hs1 _].
  pose proof (Z.sqrt_nonneg (Qfloor scaled)) as Hs0.
  pose proof (Qfloor_le scaled) as Hfl.
  set (s := Z.sqrt (Qfloor scaled)) in *.
  assert (HsN : inject_Z (s * s) <= scaled).
  { apply Qle_trans with (inject_Z (Qfloor scaled)); [now rewrite <- Zle_Qle | exact Hfl]. }
  assert (HsT : (s * s <= T * T)%Z).
  { rewrite Zle_Qle. now apply Qle_trans with scaled. }
  assert (HsT' : (s <= T)%Z) by nia.
  apply Qmult_le_compat_r; [| apply Qinv_le_0_compat, Qlt_le_weak, pow2_pos].
  destruct (Z.eq_dec s T) as [Heq | Hne].
  - assert (Hex : inject_Z (s * s) == scaled).
    { apply Qle_antisym; [exact HsN |]. now rewrite Heq. }
    apply Qeq_bool_iff in Hex. rewrite Hex, Heq. Lqa.lra.
  - assert (Hst : inject_Z s + 1 <= inject_Z T).
    { change 1 with (inject_Z 1). rewrite <- inject_Z_plus, <- Zle_Qle. lia. }
    destruct (Qeq_bool (inject_Z (s * s)) scaled); Lqa.lra.
Qed.

Lemma sqrt_sticky_nonneg (x : Q) : 0 <= x -> 0 <= JS.sqrt_sticky x.
Proof.
  intros Hx. apply (sqrt_sticky_ge x 0); [lia | exact Hx].
Qed.

(** The quotient [xp / 50] as the program computes it, between the squares
    around it. *)
Lemma quot_50_bounds (xp n : Z) :
  (0 <= n)%Z -> (n + 1 <= 2 ^ 23)%Z ->
  (50 * (n * n) <= xp)%Z -> (xp < 50 * ((n + 1) * (n + 1)))%Z ->
  inject_Z (n * n) <= JS.quot xp 50 /\
  JS.quot xp 50 <= inject_Z (64 * ((n + 1) * (n + 1)) - 1) * 2 ^ (-6).
Proof.
  intros Hn Hn23 Hlo Hhi. unfold JS.quot.
  assert (Hq0 : 0 <= inject_Z xp / inject_Z 50).
  { apply Qle_shift_div_l; [reflexivity |].
    rewrite Qmult_0_l. rewrite <- (Zle_Qle 0). nia. }
  split.
  - apply double_ge; [exact Hq0 | |].
    + apply Qle_shift_div_l; [reflexivity |].
      rewrite <- inject_Z_mult, <- Zle_Qle. lia.
    + apply representable_Z. rewrite Z.abs_eq by nia.
      change (2 ^ 53)%Z with (2 ^ 23 * 2 ^ 23 * 2 ^ 7)%Z. nia.
  - apply double_le; [exact Hq0 | |].
    + apply Qle_shift_div_r; [reflexivity |].
      change (2 ^ (-6)) with (1 # 64).
      assert (H : inject_Z (64 * xp) <= inject_Z (50 * (64 * ((n + 1) * (n + 1)) - 1)))
        by (rewrite <- Zle_Qle; lia).
      set (M := (64 * ((n + 1) * (n + 1)) - 1)%Z) in *.
      rewrite !inject_Z_mult in H.
      change (inject_Z 64) with 64 in *. change (inject_Z 50) with 50 in *.
      Lqa.lra.
    + exists (64 * ((n + 1) * (n + 1)) - 1)%Z, (-6)%Z.
      split; [| split; [lia | reflexivity]].
      rewrite Z.abs_eq by nia.
      change (2 ^ 53)%Z with (64 * (2 ^ 23 * 2 ^ 23) * 2)%Z. nia.
Qed.

Lemma scale_2_54 : 2 ^ (-6) * 4 ^ 600 == inject_Z (2 ^ 54 * (2 ^ 570 * 2 ^ 570)).
Proof.
  rewrite pow4_600. rewrite !inject_Z_mult. rewrite <- !pow2_Z by lia.
  rewrite <- !pow2_add. reflexivity.
Qed.

Lemma scale_2_30 : inject_Z (2 ^ 570) / 2 ^ 600 == 2 ^ (-30).
Proof.
  rewrite <- pow2_Z by lia. unfold Qdiv. rewrite <- Qpower_opp, <- pow2_add.
  reflexivity.
Qed.

(** The floor of the square root of a number between two squares, for
    square roots up to [2 ^ 23]. *)
Lemma Math_sqrt_floor (y : Q) (n : Z) :
  (0 <= n)%Z -> (n + 1 <= 2 ^ 23)%Z ->
  inject_Z (n * n) <= y -> y <= inject_Z (64 * ((n + 1) * (n + 1)) - 1) * 2 ^ (-6) ->
  exists r, JS.Math_sqrt y = Some r /\ JS.Math_floor r = n.
Proof.
  intros Hn Hn23 Hlo Hhi.
  assert (Hy : 0 <= y).
  { apply Qle_trans with (inject_Z (n * n)); [| exact Hlo].
    rewrite <- (Zle_Qle 0). nia. }
  exists (JS.double (JS.sqrt_sticky y)). split.
  { unfold JS.Math_sqrt. apply Qle_bool_iff in Hy. now rewrite Hy. }
  pose proof (sqrt_sticky_nonneg y Hy) as Hs0.
  pose proof (sqrt_sticky_ge y n Hn Hlo) as Hs1.
  assert (Hc : (0 < 2 ^ 570)%Z) by (apply Z.pow_pos_nonneg; lia).
  set (c := (2 ^ 570)%Z) in *.
  set (m := ((n + 1) * 2 ^ 30 - 1)%Z).
  assert (Hm : (0 <= m)%Z) by (unfold m; lia).
  assert (Hs2 : JS.sqrt_sticky y <= inject_Z m * 2 ^ (-30)).
  { assert (HT : JS.sqrt_sticky y <= inject_Z (m * c) / 2 ^ 600).
    { apply sqrt_sticky_le; [nia | exact Hy |].
      apply Qle_trans with (inject_Z (64 * ((n + 1) * (n + 1)) - 1) * 2 ^ (-6) * 4 ^ 600).
      - apply Qmult_le_compat_r; [exact Hhi |].
        rewrite pow4_600. rewrite <- (Zle_Qle 0). nia.
      - rewrite <- Qmult_assoc, scale_2_54. fold c.
        rewrite <- inject_Z_mult, <- Zle_Qle.
        replace (m * c * (m * c))%Z with (m * m * (c * c))%Z by ring.
        rewrite Z.mul_assoc. apply Z.mul_le_mono_nonneg_r; [nia |].
        unfold m. nia. }
    rewrite inject_Z_mult in HT. unfold Qdiv in HT.
    rewrite <- Qmult_assoc in HT. fold (Qdiv (inject_Z c) (2 ^ 600)) in HT.
    unfold c in HT. now rewrite scale_2_30 in HT. }
  assert (Hrep : JS.representable (inject_Z m * 2 ^ (-30))).
  { exists m, (-30)%Z. split; [| split; [lia | reflexivity]].
    rewrite Z.abs_eq by exact Hm. unfold m.
    change (2 ^ 53)%Z with (2 ^ 23 * 2 ^ 30)%Z. nia. }
  unfold JS.Math_floor. apply Qfloor_unique.
  - apply double_ge; [exact Hs0 | exact Hs1 |].
    apply representable_Z. rewrite Z.abs_eq by exact Hn.
    change (2 ^ 53)%Z with (2 ^ 23 * 2 ^ 30)%Z. nia.
  - apply Qle_lt_trans with (inject_Z m * 2 ^ (-30)).
    + apply double_le; [exact Hs0 | exact Hs2 | exact Hrep].
    + unfold m. rewrite inject_Z_plus.
      replace ((n + 1) * 2 ^ 30 - 1)%Z with ((n + 1) * 2 ^ 30 + -1)%Z by lia.
      rewrite inject_Z_plus, inject_Z_mult, inject_Z_plus.
      change (2 ^ (-30)) with (1 # 1073741824).
      change (inject_Z (2 ^ 30)) with 1073741824.
      change (inject_Z 1) with 1. change (inject_Z (-1)) with (-1).
      Lqa.lra.
Qed.

(** A quotient of integers, rounded, times 100, rounded: the integer
    [Math.round] makes of it is within one half of the exact percentage. *)
Lemma percent_near (a b : Z) :
  (0 <= a <= b)%Z -> (0 < b < 2 ^ 43)%Z ->
  ((2 * JS.Math_round (JS.mul (JS.quot a b) 100) - 1) * b <= 200 * a /\
   200 * a <= (2 * JS.Math_round (JS.mul (JS.quot a b) 100) + 1) * b)%Z.
Proof.
  intros [Ha0 Hab] [Hb0 Hb]. unfold JS.quot.
  assert (HB : 0 < inject_Z b) by (rewrite <- (Zlt_Qlt 0); lia).
  assert (HB43 : inject_Z b < inject_Z (2 ^ 43)) by (rewrite <- Zlt_Qlt; lia).
  change (inject_Z (2 ^ 43)) with 8796093022208 in HB43.
  destruct (Z.eq_dec a 0%Z) as [-> | Hane].
  { rewrite (double_0 (inject_Z 0 / inject_Z b)) by (unfold Qdiv; now rewrite Qmult_0_l).
    unfold JS.mul. rewrite (double_0 (0 * 100)) by reflexivity.
    change (JS.Math_round 0) with 0%Z. lia. }
  set (q1 := inject_Z a / inject_Z b).
  assert (HqB : q1 * inject_Z b == inject_Z a)
    by (unfold q1; field; intros Hc; rewrite Hc in HB; discriminate).
  assert (HA1 : 1 <= inject_Z a) by (rewrite <- (Zle_Qle 1); lia).
  assert (HAB : inject_Z a <= inject_Z b) by (now rewrite <- Zle_Qle).
  assert (Hq1 : q1 <= 1).
  { unfold q1. apply Qle_shift_div_r; [exact HB |]. now rewrite Qmult_1_l. }
  assert (Hq43 : 2 ^ (-43) <= q1).
  { unfold q1. apply Qle_shift_div_l; [exact HB |].
    change (2 ^ (-43)) with (1 # 8796093022208). Lqa.lra. }
  assert (Hn1 : 2 ^ (-1022) <= q1).
  { apply Qle_trans with (2 ^ (-43)); [apply pow2_le; lia | exact Hq43]. }
  destruct (double_error q1 Hn1) as [Hlo1 Hhi1].
  set (d1 := JS.double q1) in *.
  change (2 ^ (-53)) with (1 # 9007199254740992) in Hlo1, Hhi1.
  change (2 ^ (-43)) with (1 # 8796093022208) in Hq43.
  assert (Hd44 : 2 ^ (-44) <= d1).
  { change (2 ^ (-44)) with (1 # 17592186044416). Lqa.lra. }
  assert (Hn2 : 2 ^ (-1022) <= d1 * 100).
  { apply Qle_trans with (2 ^ (-44)); [apply pow2_le; lia |].
    change (2 ^ (-44)) with (1 # 17592186044416) in *. Lqa.lra. }
  destruct (double_error (d1 * 100) Hn2) as [Hlo2 Hhi2].
  unfold JS.mul. set (d2 := JS.double (d1 * 100)) in *.
  change (2 ^ (-53)) with (1 # 9007199254740992) in Hlo2, Hhi2.
  unfold JS.Math_round.
  pose proof (Qfloor_le (d2 + (1 # 2))) as Hp1.
  pose proof (Qlt_floor (d2 + (1 # 2))) as Hp2.
  set (p := Qfloor (d2 + (1 # 2))) in *.
  rewrite inject_Z_plus in Hp2. change (inject_Z 1) with 1 in Hp2.
  assert (Hup : inject_Z p <= 100 * q1 + (1 # 2) + (1 # 17592186044416)) by Lqa.lra.
  assert (Hdn : 100 * q1 + (1 # 2) - (1 # 17592186044416) < inject_Z p + 1) by Lqa.lra.
  apply (Qmult_le_compat_r _ _ (inject_Z b)) in Hup; [| now apply Qlt_le_weak].
  apply (Qmult_lt_compat_r _ _ (inject_Z b)) in Hdn; [| exact HB].
  assert (E1 : (100 * q1 + (1 # 2) + (1 # 17592186044416)) * inject_Z b ==
               100 * inject_Z a + ((1 # 2) + (1 # 17592186044416)) * inject_Z b).
  { rewrite <- HqB. ring. }
  assert (E2 : (100 * q1 + (1 # 2) - (1 # 17592186044416)) * inject_Z b ==
               100 * inject_Z a + ((1 # 2) - (1 # 17592186044416)) * inject_Z b).
  { rewrite <- HqB. ring. }
  rewrite E1 in Hup. rewrite E2 in Hdn.
  rewrite <- inject_Z_mult in Hup.
  assert (E3 : (inject_Z p + 1) * inject_Z b == inject_Z (p * b) + inject_Z b).
  { rewrite inject_Z_mult. ring. }
  rewrite E3 in Hdn.
  set (PB := inject_Z (p * b)) in *.
  assert (G1 : inject_Z (2 * (p * b)) < inject_Z (200 * a + 1 + b)).
  { rewrite !inject_Z_plus, !inject_Z_mult. fold PB.
    change (inject_Z 2) with 2. change (inject_Z 200) with 200.
    change (inject_Z 1) with 1. Lqa.lra. }
  assert (G2 : inject_Z (200 * a) < inject_Z (2 * (p * b) + b + 1)).
  { rewrite !inject_Z_plus, !inject_Z_mult. fold PB.
    change (inject_Z 2) with 2. change (inject_Z 200) with 200.
    change (inject_Z 1) with 1. Lqa.lra. }
  rewrite <- Zlt_Qlt in G1, G2. lia.
Qed.

(** Rounding keeps the sign of a number that is not tiny. *)
Lemma double_neg (q : Q) : q <= - 2 ^ (-1074) -> JS.double q < 0.
Proof.
  intros Hq.
  pose proof (pow2_pos (-1074)) as Ht.
  assert (Hneg : q < 0) by Lqa.lra.
  assert (Habs : Qabs q == - q) by (apply Qabs_neg; Lqa.lra).
  assert (Hpos : 0 < Qabs q) by (rewrite Habs; Lqa.lra).
  destruct (ilog2_spec (Qabs q) Hpos) as [He1 He2].
  assert (He : (-1074 <= JS.ilog2 (Qabs q))%Z).
  { assert (2 ^ (-1074) < 2 ^ (JS.ilog2 (Qabs q) + 1)).
    { apply Qle_lt_trans with (Qabs q); [rewrite Habs; Lqa.lra | exact He2]. }
    apply pow2_lt_inv in H. lia. }
  assert (Hu : JS.ulp q <= - q).
  { rewrite <- Habs. apply Qle_trans with (2 ^ JS.ilog2 (Qabs q)); [| exact He1].
    unfold JS.ulp. apply pow2_le. lia. }
  pose proof (ulp_pos q) as Hu0.
  unfold JS.double. destruct (Qeq_bool q 0) eqn:Hz.
  { apply Qeq_bool_iff in Hz. rewrite Hz in Hneg. discriminate. }
  rewrite Qred_correct.
  assert (HR : (JS.round_half_even (q / JS.ulp q) <= -1)%Z).
  { apply round_half_even_le. apply Qle_shift_div_r; [exact Hu0 |].
    change (inject_Z (-1)) with (-1). Lqa.lra. }
  rewrite Zle_Qle in HR. change (inject_Z (-1)) with (-1) in HR.
  apply (Qmult_le_compat_r _ _ (JS.ulp q)) in HR; [| now apply Qlt_le_weak].
  Lqa.lra.
Qed.

Lemma sqrt_sticky_mono (x1 x2 : Q) :
  0 <= x1 -> x1 <= x2 -> JS.sqrt_sticky x1 <= JS.sqrt_sticky x2.
Proof.
  intros H0 H12. unfold JS.sqrt_sticky. cbv zeta.
  assert (HK : 0 <= 4 ^ 600) by (rewrite pow4_600; rewrite <- (Zle_Qle 0); nia).
  assert (Hsc : x1 * 4 ^ 600 <= x2 * 4 ^ 600) by now apply Qmult_le_compat_r.
  assert (Hsc0 : 0 <= x1 * 4 ^ 600) by now apply Qmult_le_0_compat.
  set (Y1 := x1 * 4 ^ 600) in *. set (Y2 := x2 * 4 ^ 600) in *.
  pose proof (Qfloor_resp_le _ _ Hsc) as HN.
  assert (HN1 : (0 <= Qfloor Y1)%Z) by now apply (Qfloor_ge _ 0).
  pose proof (Z.sqrt_le_mono _ _ HN) as Hs.
  destruct (Z.sqrt_spec _ HN1) as [Hs1 _].
  pose proof (Qfloor_le Y1) as Hfl.
  set (s1 := Z.sqrt (Qfloor Y1)) in *. set (s2 := Z.sqrt (Qfloor Y2)) in *.
  apply Qmult_le_compat_r; [| apply Qinv_le_0_compat, Qlt_le_weak, pow2_pos].
  destruct (Z.eq_dec s1 s2) as [Heq | Hne].
  - rewrite <- Heq.
    destruct (Qeq_bool (inject_Z (s1 * s1)) Y2) eqn:Hex2.
    + apply Qeq_bool_iff in Hex2.
      assert (Hex1 : inject_Z (s1 * s1) == Y1).
      { apply Qle_antisym.
        - apply Qle_trans with (inject_Z (Qfloor Y1)); [now rewrite <- Zle_Qle | exact Hfl].
        - now rewrite Hex2. }
      apply Qeq_bool_iff in Hex1. rewrite Hex1. apply Qle_refl.
    + destruct (Qeq_bool (inject_Z (s1 * s1)) Y1); Lqa.lra.
  - assert (Hst : inject_Z s1 + 1 <= inject_Z s2).
    { change 1 with (inject_Z 1). rewrite <- inject_Z_plus, <- Zle_Qle. lia. }
    destruct (Qeq_bool (inject_Z (s1 * s1)) Y1);
      destruct (Qeq_bool (inject_Z (s2 * s2)) Y2); Lqa.lra.
Qed.



(** The integer [Math.round] makes of an exact percentage. *)
Lemma Math_round_exact_percent (a b p : Z) :
  (0 < b)%Z -> ((2 * p - 1) * b <= 200 * a)%Z -> (200 * a < (2 * p + 1) * b)%Z ->
  JS.Math_round (100 * inject_Z a / inject_Z b) = p.
Proof.
  intros Hb Hlo Hhi.
  assert (HB : 0 < inject_Z b) by (rewrite <- (Zlt_Qlt 0); lia).
  assert (G1 : inject_Z (2 * (p * b)) <= inject_Z (200 * a + b))
    by (rewrite <- Zle_Qle; lia).
  assert (G2 : inject_Z (200 * a) < inject_Z (2 * (p * b) + b))
    by (rewrite <- Zlt_Qlt; lia).
  rewrite !inject_Z_plus, !inject_Z_mult in G1, G2.
  change (inject_Z 2) with 2 in *. change (inject_Z 200) with 200 in *.
  unfold JS.Math_round. apply Qfloor_unique.
  - assert (H : inject_Z p - (1 # 2) <= 100 * inject_Z a / inject_Z b); [| Lqa.lra].
    apply Qle_shift_div_l; [exact HB |]. Lqa.lra.
  - rewrite inject_Z_plus. change (inject_Z 1) with 1.
    assert (H : 100 * inject_Z a / inject_Z b < inject_Z p + (1 # 2)); [| Lqa.lra].
    apply Qlt_shift_div_r; [exact HB |]. Lqa.lra.
Qed.

End Doubles.

(** ** XP reward *)

(** C1 (the code at the baseline difficulty and over the whole table):
    [calculateXPReward] multiplies by 10 before it rounds to an integer and
    then divides and multiplies by 10 again, so it returns ten times the
    base XP times the multiplier: 100 at difficulty 3, where the
    specification says 10, and 75 at difficulty 2, which is no multiple
    of 10. *)
Lemma calculateXPReward_table :
  (HabitsRouter.calculateXPReward 1 == 50 /\
   HabitsRouter.calculateXPReward 2 == 75 /\
   HabitsRouter.calculateXPReward 3 == 100 /\
   HabitsRouter.calculateXPReward 4 == 150 /\
   HabitsRouter.calculateXPReward 5 == 200 /\
   xpReward_spec 3 == 10 /\
   ~ HabitsRouter.calculateXPReward 3 == xpReward_spec 3)%Q.
Proof. repeat split; vm_compute; congruence. Qed.

(** An index outside the array reads [undefined]. *)
Lemma index_out_of_range {A} (a : list A) (i : Z) :
  i < 0 \/ Z.of_nat (length a) <= i -> JS.index a i = None.
Proof.
  intros [Hneg | Hbig]; unfold JS.index.
  - apply Z.ltb_lt in Hneg. now rewrite Hneg.
  - destruct (i <? 0); [reflexivity |].
    apply lookup_ge_None. lia.
Qed.

(** C9: for a difficulty outside 1..5 the read of the multiplier array is
    [undefined], nothing is raised, and [|| 1] makes the multiplier 1,
    which is the multiplier of difficulty 3: the reward is the reward of
    multiplier 1, [Math.round(10 * 1 * 10) / 10 * 10], which is the 100 of
    difficulty 3. *)
Theorem calculateXPReward_out_of_range (difficulty : Z) :
  difficulty < 1 \/ 5 < difficulty ->
  JS.index HabitsRouter.multipliers (difficulty - 1) = None /\
  HabitsRouter.multiplier difficulty = 1%Q /\
  HabitsRouter.multiplier 3 = 1%Q /\
  HabitsRouter.calculateXPReward difficulty =
    (inject_Z (JS.Math_round (HabitsRouter.baseXP * 1 * 10)) / 10 * 10)%Q /\
  (HabitsRouter.calculateXPReward difficulty == 100)%Q /\
  HabitsRouter.calculateXPReward difficulty = HabitsRouter.calculateXPReward 3.
Proof.
  intros Hout.
  assert (Hi : JS.index HabitsRouter.multipliers (difficulty - 1) = None).
  { apply index_out_of_range. cbn [length HabitsRouter.multipliers]. lia. }
  assert (Hm : HabitsRouter.multiplier difficulty = 1%Q).
  { unfold HabitsRouter.multiplier. now rewrite Hi. }
  split; [exact Hi |]. split; [exact Hm |].
  split; [reflexivity |].
  unfold HabitsRouter.calculateXPReward. rewrite Hm.
  split; [reflexivity |]. split; reflexivity.
Qed.

Lemma calculateXPReward_out_of_range_witness :
  (6 < 1 \/ 5 < 6) /\
  JS.index HabitsRouter.multipliers (6 - 1) = None /\
  HabitsRouter.multiplier 6 = 1%Q /\
  HabitsRouter.multiplier 3 = 1%Q /\
  HabitsRouter.calculateXPReward 6 =
    (inject_Z (JS.Math_round (HabitsRouter.baseXP * 1 * 10)) / 10 * 10)%Q /\
  (HabitsRouter.calculateXPReward 6 == 100)%Q /\
  HabitsRouter.calculateXPReward 6 = HabitsRouter.calculateXPReward 3.
Proof.
  split; [right; lia |].
  apply (calculateXPReward_out_of_range 6). right; lia.
Defined.

(** The rewards at 0, 6 and -1 are 100, and so is the reward at 3; the
    rewards at 2 and 4, inside the range, are not. *)
Example calculateXPReward_out_of_range_sample :
  (HabitsRouter.calculateXPReward 0 == 100 /\
   HabitsRouter.calculateXPReward 6 == 100 /\
   HabitsRouter.calculateXPReward (-1) == 100 /\
   HabitsRouter.calculateXPReward 3 == 100 /\
   HabitsRouter.calculateXPReward 2 == 75 /\
   HabitsRouter.calculateXPReward 4 == 150)%Q.
Proof. repeat split; vm_compute; reflexivity. Qed.

(** ** Levels *)

Section Levels.

(** Every copy of the formula is this function of [xp], as long as the
    level is at most [2 ^ 23]. *)
Lemma level_formula (xp : Z) :
  0 <= xp < 50 * 2 ^ 46 ->
  (r ← JS.Math_sqrt (JS.quot xp 50); Some (JS.Math_floor r + 1)) =
  Some (Z.sqrt (xp / 50) + 1).
Proof.
  intros [H0 Hb].
  assert (Hq : 0 <= xp / 50) by (apply Z.div_pos; lia).
  destruct (Z.sqrt_spec (xp / 50) Hq) as [Hlo Hhi].
  pose proof (Z.sqrt_nonneg (xp / 50)) as Hn.
  pose proof (Z.mul_div_le xp 50 ltac:(lia)) as Hd1.
  pose proof (Z.mul_succ_div_gt xp 50 ltac:(lia)) as Hd2.
  assert (Hq46 : xp / 50 < 2 ^ 46) by (apply Z.div_lt_upper_bound; lia).
  set (n := Z.sqrt (xp / 50)) in *.
  change (Z.succ n) with (n + 1) in Hhi.
  assert (Hn23 : n + 1 <= 2 ^ 23).
  { destruct (Z_le_gt_dec (n + 1) (2 ^ 23)) as [| Hgt]; [assumption |].
    exfalso. change (2 ^ 46) with (2 ^ 23 * 2 ^ 23) in Hq46. nia. }
  destruct (quot_50_bounds xp n Hn Hn23 ltac:(lia) ltac:(lia)) as [Hy1 Hy2].
  destruct (Math_sqrt_floor _ n Hn Hn23 Hy1 Hy2) as (r & Hr & Hfl).
  rewrite Hr. cbn [mbind option_bind]. now rewrite Hfl.
Qed.

(** A negative [xp] has no level: the square root is [NaN]. *)
Lemma level_negative (xp : Z) :
  xp < 0 -> (r ← JS.Math_sqrt (JS.quot xp 50); Some (JS.Math_floor r + 1)) = None.
Proof.
  intros Hxp. unfold JS.quot.
  assert (Hq : (inject_Z xp / inject_Z 50 <= - 2 ^ (-1074))%Q).
  { apply Qle_shift_div_r; [reflexivity |].
    apply Qle_trans with (inject_Z (-1)); [rewrite <- Zle_Qle; lia |].
    apply Qle_trans with (- (1 # 64) * inject_Z 50)%Q; [discriminate |].
    apply Qmult_le_compat_r; [| discriminate].
    apply Qopp_le_compat. change (1 # 64)%Q with (2 ^ (-6))%Q. apply pow2_le. lia. }
  apply double_neg in Hq.
  unfold JS.Math_sqrt.
  destruct (Qle_bool 0 (JS.double (inject_Z xp / inject_Z 50))) eqn:Hle; [| reflexivity].
  apply Qle_bool_iff in Hle. exfalso. Lqa.lra.
Qed.

(** The level exists for every [xp >= 0], is at least 1 and grows with
    [xp]: every rounding on the way is monotone. *)
Lemma level_mono (xp1 xp2 : Z) :
  0 <= xp1 -> xp1 <= xp2 ->
  exists l1 l2,
    (r ← JS.Math_sqrt (JS.quot xp1 50); Some (JS.Math_floor r + 1)) = Some l1 /\
    (r ← JS.Math_sqrt (JS.quot xp2 50); Some (JS.Math_floor r + 1)) = Some l2 /\
    1 <= l1 /\ l1 <= l2.
Proof.
  intros H0 H12.
  assert (Hq : forall xp, 0 <= xp -> (0 <= inject_Z xp / inject_Z 50)%Q).
  { intros xp Hxp. apply Qle_shift_div_l; [reflexivity |].
    rewrite Qmult_0_l. rewrite <- (Zle_Qle 0). exact Hxp. }
  assert (Hq12 : (inject_Z xp1 / inject_Z 50 <= inject_Z xp2 / inject_Z 50)%Q).
  { apply Qmult_le_compat_r; [now rewrite <- Zle_Qle | discriminate]. }
  pose proof (double_nonneg _ (Hq xp1 H0)) as Hy1.
  pose proof (double_mono _ _ (Hq xp1 H0) Hq12) as Hy12.
  unfold JS.quot.
  set (y1 := JS.double (inject_Z xp1 / inject_Z 50)) in *.
  set (y2 := JS.double (inject_Z xp2 / inject_Z 50)) in *.
  assert (Hy2 : (0 <= y2)%Q) by now apply Qle_trans with y1.
  pose proof (sqrt_sticky_nonneg y1 Hy1) as Hs1.
  pose proof (sqrt_sticky_mono y1 y2 Hy1 Hy12) as Hs12.
  pose proof (double_nonneg _ Hs1) as Hr1.
  pose proof (double_mono _ _ Hs1 Hs12) as Hr12.
  exists (JS.Math_floor (JS.double (JS.sqrt_sticky y1)) + 1),
         (JS.Math_floor (JS.double (JS.sqrt_sticky y2)) + 1).
  unfold JS.Math_sqrt.
  apply Qle_bool_iff in Hy1 as ->. apply Qle_bool_iff in Hy2 as ->.
  cbn [mbind option_bind].
  split; [reflexivity |]. split; [reflexivity |].
  unfold JS.Math_floor. split.
  - pose proof (Qfloor_ge _ 0 Hr1). lia.
  - pose proof (Qfloor_resp_le _ _ Hr12). lia.
Qed.

Lemma Q2R_inject_Z_div (xp : Z) : Q2R (inject_Z xp / 50) = (IZR xp / 50)%R.
Proof.
  rewrite Q2R_div by discriminate.
  unfold Q2R; simpl. lra.
Qed.

(** The formula of the specification, over the real numbers, is an
    integer square root. *)
Lemma level_spec_sqrt (xp : Z) :
  0 <= xp -> level_spec xp = Some (Z.sqrt (xp / 50) + 1).
Proof.
  intros Hxp. unfold level_spec.
  destruct (decide (0 <= xp)); [| lia].
  do 2 f_equal. rewrite <- Q2R_inject_Z_div.
  rewrite <- Z_sqrt_floor_real.
  - change 50%Q with (inject_Z 50). now rewrite <- Zdiv_Qdiv.
  - apply Qle_shift_div_l; [reflexivity |].
    rewrite Qmult_0_l. change 0%Q with (inject_Z 0). now rewrite <- Zle_Qle.
Qed.

Lemma level_formula_spec (xp : Z) :
  xp < 50 * 2 ^ 46 ->
  (r ← JS.Math_sqrt (JS.quot xp 50); Some (JS.Math_floor r + 1)) = level_spec xp.
Proof.
  intros Hb. destruct (Z_lt_le_dec xp 0) as [Hneg | Hpos].
  - rewrite level_negative by exact Hneg.
    unfold level_spec. destruct (decide (0 <= xp)); [lia | reflexivity].
  - rewrite level_formula by lia. now rewrite level_spec_sqrt.
Qed.

Lemma calculateLevel_nonneg (xp : Z) :
  0 <= xp < 50 * 2 ^ 46 ->
  GamificationRouter.calculateLevel xp = Some (Z.sqrt (xp / 50) + 1).
Proof. apply level_formula. Qed.

(** [xp] is at level [l] exactly between the two thresholds of [l]. *)
Lemma calculateLevel_bounds (xp l : Z) :
  0 <= xp < 50 * 2 ^ 46 -> GamificationRouter.calculateLevel xp = Some l ->
  1 <= l <= 2 ^ 23 /\ 50 * (l - 1) ^ 2 <= xp < 50 * l ^ 2.
Proof.
  intros Hxp Hl. rewrite calculateLevel_nonneg in Hl by exact Hxp.
  injection Hl as <-.
  assert (Hq : 0 <= xp / 50) by (apply Z.div_pos; lia).
  destruct (Z.sqrt_spec (xp / 50) Hq) as [Hlo Hhi].
  pose proof (Z.sqrt_nonneg (xp / 50)) as Hk.
  assert (Hq46 : xp / 50 < 2 ^ 46) by (apply Z.div_lt_upper_bound; lia).
  set (k := Z.sqrt (xp / 50)) in *.
  change (Z.succ k) with (k + 1) in Hhi.
  pose proof (Z.mul_div_le xp 50 ltac:(lia)) as Hd1.
  pose proof (Z.mul_succ_div_gt xp 50 ltac:(lia)) as Hd2.
  replace (k + 1 - 1) with k by lia.
  split; [| nia].
  split; [lia |].
  destruct (Z_le_gt_dec (k + 1) (2 ^ 23)) as [| Hgt]; [assumption |].
  exfalso. change (2 ^ 46) with (2 ^ 23 * 2 ^ 23) in Hq46. nia.
Qed.

End Levels.

(** C6: for every [xp >= 0] that a number holds exactly (up to
    [2 ^ 53 - 1], [Number.MAX_SAFE_INTEGER]) the level exists, is at least
    1, and does not decrease when [xp] grows; below [50 * 2 ^ 46] it is
    [floor (sqrt (xp / 50)) + 1] over the real numbers. *)
Theorem calculateLevel_at_least_1_monotone (xp1 xp2 : Z) :
  0 <= xp1 -> xp1 <= xp2 -> xp2 <= 2 ^ 53 - 1 ->
  exists l1 l2,
    GamificationRouter.calculateLevel xp1 = Some l1 /\
    GamificationRouter.calculateLevel xp2 = Some l2 /\
    1 <= l1 /\ l1 <= l2 /\
    (xp1 < 50 * 2 ^ 46 -> l1 = Zfloor (sqrt (IZR xp1 / 50)) + 1).
Proof.
  intros H0 H12 _.
  destruct (level_mono xp1 xp2 H0 H12) as (l1 & l2 & Hl1 & Hl2 & Hge & Hle).
  exists l1, l2.
  split; [exact Hl1 |]. split; [exact Hl2 |]. split; [exact Hge |].
  split; [exact Hle |].
  intros Hb. rewrite level_formula_spec in Hl1 by exact Hb.
  unfold level_spec in Hl1. destruct (decide (0 <= xp1)); [congruence | lia].
Qed.

Lemma calculateLevel_at_least_1_monotone_witness :
  0 <= 49 /\ 49 <= 5000 /\ 5000 <= 2 ^ 53 - 1 /\
  exists l1 l2,
    GamificationRouter.calculateLevel 49 = Some l1 /\
    GamificationRouter.calculateLevel 5000 = Some l2 /\
    1 <= l1 /\ l1 <= l2 /\
    (49 < 50 * 2 ^ 46 -> l1 = Zfloor (sqrt (IZR 49 / 50)) + 1).
Proof.
  split; [lia |]. split; [lia |]. split; [lia |].
  apply (calculateLevel_at_least_1_monotone 49 5000); lia.
Defined.

(** The levels at 49, 50 and 5000 XP are 1, 2 and 11. *)
Example calculateLevel_sample :
  GamificationRouter.calculateLevel 49 = Some 1 /\
  GamificationRouter.calculateLevel 50 = Some 2 /\
  GamificationRouter.calculateLevel 5000 = Some 11 /\
  GamificationRouter.calculateLevel (-1) = None.
Proof. repeat split; vm_compute; reflexivity. Qed.




(** ** Progress within a level *)

Section LevelProgress.

Import GamificationRouter.

(** The percentage of a level of width [50 * (2 * l - 1)] is never halfway
    between two integers, and the roundings of the quotient and of the
    product are too small to move it across a half: [Math.round] returns
    the integer nearest to the exact percentage. *)
Lemma level_percent (a l : Z) :
  1 <= l <= 2 ^ 23 -> 0 <= a <= 50 * (2 * l - 1) ->
  (2 * JS.Math_round (JS.mul (JS.quot a (50 * (2 * l - 1))) 100) - 1) * (50 * (2 * l - 1))
    < 200 * a /\
  200 * a <
  (2 * JS.Math_round (JS.mul (JS.quot a (50 * (2 * l - 1))) 100) + 1) * (50 * (2 * l - 1)).
Proof.
  intros Hl Ha.
  assert (Hw : 0 < 50 * (2 * l - 1) < 2 ^ 43).
  { split; [lia |]. change (2 ^ 43) with (2 ^ 23 * 2 ^ 20). lia. }
  destruct (percent_near a (50 * (2 * l - 1)) Ha Hw) as [Hlo Hhi].
  set (p := JS.Math_round (JS.mul (JS.quot a (50 * (2 * l - 1))) 100)) in *.
  split.
  - assert (Hne : (2 * p - 1) * (50 * (2 * l - 1)) <> 200 * a); [| lia].
    replace ((2 * p - 1) * (50 * (2 * l - 1)))
      with (50 * (2 * (2 * p * l - p - l) + 1)) by ring.
    lia.
  - assert (Hne : (2 * p + 1) * (50 * (2 * l - 1)) <> 200 * a); [| lia].
    replace ((2 * p + 1) * (50 * (2 * l - 1)))
      with (50 * (2 * (2 * p * l - p + l - 1) + 1)) by ring.
    lia.
Qed.

(** What [calculateLevelProgress] returns below [50 * 2 ^ 46] XP. *)
Lemma calculateLevelProgress_value (xp : Z) :
  0 <= xp < 50 * 2 ^ 46 ->
  exists l p,
    calculateLevel xp = Some l /\
    calculateLevelProgress xp =
      Some {| level := l;
              currentLevelXP := 50 * (l - 1) ^ 2;
              nextLevelXP := 50 * l ^ 2;
              xpInLevel := xp - 50 * (l - 1) ^ 2;
              xpForNextLevel := 50 * l ^ 2 - 50 * (l - 1) ^ 2;
              progressPercent := p |} /\
    p = JS.Math_round (JS.mul (JS.quot (xp - 50 * (l - 1) ^ 2)
                                       (50 * l ^ 2 - 50 * (l - 1) ^ 2)) 100) /\
    1 <= l <= 2 ^ 23 /\
    50 * (l - 1) ^ 2 <= xp < 50 * l ^ 2 /\
    (2 * p - 1) * (50 * (2 * l - 1)) < 200 * (xp - 50 * (l - 1) ^ 2) /\
    200 * (xp - 50 * (l - 1) ^ 2) < (2 * p + 1) * (50 * (2 * l - 1)).
Proof.
  intros Hxp.
  pose proof (calculateLevel_nonneg xp Hxp) as Hl.
  set (l := Z.sqrt (xp / 50) + 1) in *.
  destruct (calculateLevel_bounds xp l Hxp Hl) as [Hl1 Hb].
  assert (Hw : 50 * l ^ 2 - 50 * (l - 1) ^ 2 = 50 * (2 * l - 1)) by ring.
  assert (Ha : 0 <= xp - 50 * (l - 1) ^ 2 <= 50 * (2 * l - 1)) by lia.
  destruct (level_percent _ l Hl1 Ha) as [Hlo Hhi].
  exists l, (JS.Math_round (JS.mul (JS.quot (xp - 50 * (l - 1) ^ 2)
                                            (50 * l ^ 2 - 50 * (l - 1) ^ 2)) 100)).
  rewrite Hw.
  set (p := JS.Math_round (JS.mul (JS.quot (xp - 50 * (l - 1) ^ 2) (50 * (2 * l - 1))) 100))
    in *.
  split; [exact Hl |].
  split.
  { unfold calculateLevelProgress. rewrite Hl. cbn [mbind option_bind].
    rewrite Hw. fold p. rewrite Z.min_r by nia. reflexivity. }
  split; [reflexivity |]. split; [exact Hl1 |]. split; [exact Hb |].
  split; [exact Hlo | exact Hhi].
Qed.

Lemma calculateLevel_threshold (L : Z) :
  1 <= L <= 2 ^ 23 -> calculateLevel (50 * (L - 1) ^ 2) = Some L.
Proof.
  intros HL. rewrite calculateLevel_nonneg.
  - rewrite Z.mul_comm, Z.div_mul by lia.
    rewrite Z.pow_2_r, Z.sqrt_square by lia.
    f_equal. lia.
  - change (2 ^ 46) with (2 ^ 23 * 2 ^ 23). nia.
Qed.

End LevelProgress.

(** C8, as stated, fails: 51 and 52 XP are both at level 2, one and two
    XP into its 150, and both round to 1 percent. *)
Lemma progressPercent_not_strictly_monotonic :
  ~ (forall xp1 xp2 p1 p2 : Z,
       0 <= xp1 -> xp1 < xp2 ->
       GamificationRouter.calculateLevel xp1 = GamificationRouter.calculateLevel xp2 ->
       GamificationRouter.progressPercent <$> GamificationRouter.calculateLevelProgress xp1 = Some p1 ->
       GamificationRouter.progressPercent <$> GamificationRouter.calculateLevelProgress xp2 = Some p2 ->
       p1 < p2).
Proof.
  intros H.
  specialize (H 51 52 1 1).
  assert (Hlt : 1 < 1); [| lia].
  apply H; try lia; vm_compute; reflexivity.
Qed.

(** C8, amended: below [50 * 2 ^ 46] XP, [progressPercent] is the whole
    percent nearest to the part of the level that is done,
    [100 * xpInLevel / xpForNextLevel].  So within one level it does not
    decrease when [xp] grows, it grows strictly over any two XP values that
    are at least one percent of the level apart, which at level 1, where
    it is [2 * xp], are any two values; and at the first XP of every level
    [L], which is [50 * (L - 1)^2], it is 0. *)
Theorem progressPercent_monotone_and_reset (xp1 xp2 L : Z) :
  0 <= xp1 -> xp1 <= xp2 -> xp2 < 50 * 2 ^ 46 ->
  GamificationRouter.calculateLevel xp1 = GamificationRouter.calculateLevel xp2 ->
  1 <= L <= 2 ^ 23 ->
  (exists l p1 p2,
     GamificationRouter.calculateLevel xp1 = Some l /\
     GamificationRouter.progressPercent <$> GamificationRouter.calculateLevelProgress xp1 = Some p1 /\
     GamificationRouter.progressPercent <$> GamificationRouter.calculateLevelProgress xp2 = Some p2 /\
     (2 * p1 - 1) * (50 * (2 * l - 1)) < 200 * (xp1 - 50 * (l - 1) ^ 2)
       < (2 * p1 + 1) * (50 * (2 * l - 1)) /\
     (2 * p2 - 1) * (50 * (2 * l - 1)) < 200 * (xp2 - 50 * (l - 1) ^ 2)
       < (2 * p2 + 1) * (50 * (2 * l - 1)) /\
     p1 <= p2 /\
     (50 * (2 * l - 1) <= 100 * (xp2 - xp1) -> p1 < p2) /\
     (l = 1 -> p1 = 2 * xp1 /\ p2 = 2 * xp2)) /\
  GamificationRouter.calculateLevel (50 * (L - 1) ^ 2) = Some L /\
  GamificationRouter.progressPercent <$>
    GamificationRouter.calculateLevelProgress (50 * (L - 1) ^ 2) = Some 0.
Proof.
  intros H0 H12 Hb Hsame HL.
  split.
  - destruct (calculateLevelProgress_value xp1 ltac:(lia))
      as (l & p1 & Hl1 & Hp1 & _ & Hl & Hb1 & Hlo1 & Hhi1).
    destruct (calculateLevelProgress_value xp2 ltac:(lia))
      as (l' & p2 & Hl2 & Hp2 & _ & _ & Hb2 & Hlo2 & Hhi2).
    assert (l' = l) by congruence. subst l'.
    exists l, p1, p2.
    split; [exact Hl1 |].
    split; [now rewrite Hp1 |]. split; [now rewrite Hp2 |].
    split; [split; assumption |]. split; [split; assumption |].
    split; [nia |]. split; [intros Hgap; nia |].
    intros ->. lia.
  - pose proof (calculateLevel_threshold L HL) as Hthr.
    split; [exact Hthr |].
    assert (HbL : 0 <= 50 * (L - 1) ^ 2 < 50 * 2 ^ 46).
    { change (2 ^ 46) with (2 ^ 23 * 2 ^ 23). nia. }
    destruct (calculateLevelProgress_value _ HbL)
      as (l & p & Hl & Hp & _ & Hl1 & _ & Hlo & Hhi).
    assert (l = L) by congruence. subst l.
    rewrite Hp. cbn [fmap option_fmap option_map GamificationRouter.progressPercent].
    f_equal. nia.
Qed.

Lemma progressPercent_monotone_and_reset_witness :
  0 <= 51 /\ 51 <= 53 /\ 53 < 50 * 2 ^ 46 /\
  GamificationRouter.calculateLevel 51 = GamificationRouter.calculateLevel 53 /\
  1 <= 2 <= 2 ^ 23 /\
  (exists l p1 p2,
     GamificationRouter.calculateLevel 51 = Some l /\
     GamificationRouter.progressPercent <$> GamificationRouter.calculateLevelProgress 51 = Some p1 /\
     GamificationRouter.progressPercent <$> GamificationRouter.calculateLevelProgress 53 = Some p2 /\
     (2 * p1 - 1) * (50 * (2 * l - 1)) < 200 * (51 - 50 * (l - 1) ^ 2)
       < (2 * p1 + 1) * (50 * (2 * l - 1)) /\
     (2 * p2 - 1) * (50 * (2 * l - 1)) < 200 * (53 - 50 * (l - 1) ^ 2)
       < (2 * p2 + 1) * (50 * (2 * l - 1)) /\
     p1 <= p2 /\
     (50 * (2 * l - 1) <= 100 * (53 - 51) -> p1 < p2) /\
     (l = 1 -> p1 = 2 * 51 /\ p2 = 2 * 53)) /\
  GamificationRouter.calculateLevel (50 * (2 - 1) ^ 2) = Some 2 /\
  GamificationRouter.progressPercent <$>
    GamificationRouter.calculateLevelProgress (50 * (2 - 1) ^ 2) = Some 0.
Proof.
  split; [lia |]. split; [lia |]. split; [lia |].
  split; [vm_compute; reflexivity |]. split; [lia |].
  apply (progressPercent_monotone_and_reset 51 53 2);
    [lia | lia | lia | vm_compute; reflexivity | lia].
Defined.

(** At level 2, which is 150 XP wide, 51, 52 and 53 XP are 1, 1 and 2
    percent; at level 1 every XP is two percent. *)
Example progressPercent_sample :
  (GamificationRouter.progressPercent <$> GamificationRouter.calculateLevelProgress 51) = Some 1 /\
  (GamificationRouter.progressPercent <$> GamificationRouter.calculateLevelProgress 52) = Some 1 /\
  (GamificationRouter.progressPercent <$> GamificationRouter.calculateLevelProgress 53) = Some 2 /\
  (GamificationRouter.progressPercent <$> GamificationRouter.calculateLevelProgress 7) = Some 14.
Proof. repeat split; vm_compute; reflexivity. Qed.

(** ** Ranks *)

Section RankLemmas.

Import GamificationRouter.

Variable table : list Rank.
Variable xp : Z.

(** The downward scan over the first [n] rows: it stops at the last of
    them that is reached, and falls back to the first row of the table
    when none is. *)
Lemma getRankLoop_scan (n : nat) :
  (n <= length table)%nat ->
  (exists i r, (i < n)%nat /\ table !! i = Some r /\ minXP r <= xp /\
               (forall j r', table !! j = Some r' -> (i < j < n)%nat -> xp < minXP r') /\
               getRankLoop table xp n = Some r) \/
  ((forall j r', table !! j = Some r' -> (j < n)%nat -> xp < minXP r') /\
   getRankLoop table xp n = table !! O).
Proof.
  induction n as [| n IH]; intros Hn.
  - right. split; [intros; lia | reflexivity].
  - destruct (lookup_lt_is_Some_2 table n ltac:(lia)) as [r Hr].
    cbn [getRankLoop]. rewrite Hr.
    destruct (xp >=? minXP r) eqn:Hge.
    + left. exists n, r. apply Z.geb_le in Hge.
      repeat split; try assumption; try (intros; lia).
    + assert (Hlt : xp < minXP r).
      { destruct (Z.geb_spec xp (minXP r)); [discriminate | lia]. }
      destruct (IH ltac:(lia)) as [(i & r0 & Hi & Hr0 & Hle & Hlast & Hres) | [Hnone Hres]].
      * left. exists i, r0. repeat split; try assumption; try lia.
        intros j r' Hj Hij.
        destruct (decide (j = n)) as [-> | Hjn]; [congruence |].
        apply (Hlast j r' Hj). lia.
      * right. split; [| exact Hres].
        intros j r' Hj Hjn.
        destruct (decide (j = n)) as [-> | Hne]; [congruence |].
        apply (Hnone j r' Hj). lia.
Qed.

(** The upward scan of [getRankInfo]: the last reached row, or the
    initial value when none is reached. *)
Lemma fold_last (l : list Rank) (init : Rank) :
  let r := fold_left (fun cur rank => if xp >=? minXP rank then rank else cur) l init in
  (exists i, l !! i = Some r /\ minXP r <= xp /\
             forall j r', l !! j = Some r' -> (i < j)%nat -> xp < minXP r') \/
  (r = init /\ forall j r', l !! j = Some r' -> xp < minXP r').
Proof.
  induction l as [| x l IH] using rev_ind; cbn zeta.
  - right. split; [reflexivity |]. intros j r' Hj. now rewrite lookup_nil in Hj.
  - rewrite fold_left_app. cbn [fold_left].
    destruct (xp >=? minXP x) eqn:Hge.
    + left. exists (length l). apply Z.geb_le in Hge.
      split; [now rewrite list_lookup_middle |].
      split; [exact Hge |].
      intros j r' Hj Hlt. apply lookup_lt_Some in Hj.
      rewrite length_app in Hj. cbn in Hj. lia.
    + assert (Hlt : xp < minXP x).
      { destruct (Z.geb_spec xp (minXP x)); [discriminate | lia]. }
      assert (Hnew : forall j r', (l ++ [x]) !! j = Some r' -> (length l <= j)%nat ->
                                  xp < minXP r').
      { intros j r' Hj Hlen.
        rewrite lookup_app_r in Hj by exact Hlen.
        destruct (j - length l)%nat; cbn in Hj; [congruence | discriminate]. }
      cbn zeta in IH.
      destruct IH as [(i & Hi & Hle & Hlast) | [Hinit Hnone]].
      * left. exists i.
        split; [rewrite lookup_app_l; [exact Hi | now apply lookup_lt_Some in Hi] |].
        split; [exact Hle |].
        intros j r' Hj Hij.
        destruct (decide (j < length l)%nat) as [Hjl | Hjl].
        -- rewrite lookup_app_l in Hj by exact Hjl. now apply (Hlast j r').
        -- apply (Hnew j r' Hj). lia.
      * right. split; [exact Hinit |].
        intros j r' Hj.
        destruct (decide (j < length l)%nat) as [Hjl | Hjl].
        -- rewrite lookup_app_l in Hj by exact Hjl. now apply (Hnone j r').
        -- apply (Hnew j r' Hj). lia.
Qed.

(** There is one last reached row. *)
Lemma last_reached_unique (i j : nat) (r r' : Rank) :
  last_reached table xp i r -> last_reached table xp j r' -> i = j /\ r = r'.
Proof.
  intros (Hi & Hle & Hlast) (Hj & Hle' & Hlast').
  assert (Hij : i = j).
  { destruct (Nat.lt_trichotomy i j) as [Hlt | [Heq | Hgt]]; [| exact Heq |].
    - specialize (Hlast j r' Hj Hlt). lia.
    - specialize (Hlast' i r Hi Hgt). lia. }
  split; [exact Hij |]. subst j. congruence.
Qed.

Hypothesis Hvalid : valid_table table.
Hypothesis Hxp : 0 <= xp.

Lemma getRankIn_last_reached :
  exists i r, getRankIn table xp = Some r /\ last_reached table xp i r.
Proof.
  destruct Hvalid as [(r0 & Hr0 & Hmin0) _].
  destruct (getRankLoop_scan (length table) ltac:(lia))
    as [(i & r & Hi & Hr & Hle & Hlast & Hres) | [Hnone _]].
  - exists i, r. split; [exact Hres |].
    split; [exact Hr |]. split; [exact Hle |].
    intros j r' Hj Hij. apply (Hlast j r' Hj).
    apply lookup_lt_Some in Hj. lia.
  - apply lookup_lt_Some in Hr0 as Hlen.
    specialize (Hnone O r0 Hr0 Hlen). lia.
Qed.

Lemma getRankInfoIn_last_reached :
  exists i r, Features.current <$> Features.getRankInfoIn table xp = Some r /\
              last_reached table xp i r.
Proof.
  destruct Hvalid as [(r0 & Hr0 & Hmin0) _].
  unfold Features.getRankInfoIn. rewrite Hr0. cbn.
  destruct (fold_last table r0) as [(i & Hi & Hle & Hlast) | [_ Hnone]].
  - eexists i, _. split; [reflexivity |]. now split.
  - specialize (Hnone O r0 Hr0). lia.
Qed.

End RankLemmas.

(** A table sorted by strictly growing thresholds is strictly increasing. *)
Lemma sorted_strictly_increasing (table : list Rank) :
  StronglySorted (fun a b => minXP a < minXP b) table -> strictly_increasing table.
Proof.
  induction table as [| x l IH]; intros Hs i j ri rj Hi Hj Hij.
  - now rewrite lookup_nil in Hi.
  - apply StronglySorted_cons in Hs as [Hall Hs].
    destruct j as [| j]; [lia |]. cbn in Hj.
    destruct i as [| i]; cbn in Hi.
    + injection Hi as <-. exact (proj1 (Forall_lookup _ _) Hall j rj Hj).
    + apply (IH Hs i j ri rj Hi Hj). lia.
Qed.

(** The table of the code is valid and its ids are distinct. *)
Lemma RANKS_valid : valid_table GamificationRouter.RANKS.
Proof.
  split.
  - eexists. split; reflexivity.
  - apply sorted_strictly_increasing.
    repeat (apply SSorted_cons; [| repeat constructor; cbn; lia]).
    apply SSorted_nil.
Qed.

Lemma RANKS_distinct_ids : distinct_ids GamificationRouter.RANKS.
Proof. unfold distinct_ids. apply (bool_decide_unpack _). vm_compute. exact I. Qed.

(** C5: on a valid table and for [xp >= 0], [getRank] (the downward scan
    of the gamification router) and [getRankInfo] (the upward scan of the
    features module) both return the last row whose threshold is at most
    [xp]; an [xp] equal to a threshold is in the rank of that threshold;
    at 0 XP the rank is the first row. *)
Theorem getRank_last_reached (table : list Rank) (xp : Z) :
  valid_table table -> 0 <= xp ->
  (exists i r,
     last_reached table xp i r /\
     GamificationRouter.getRankIn table xp = Some r /\
     Features.current <$> Features.getRankInfoIn table xp = Some r) /\
  (forall k rk, table !! k = Some rk ->
     GamificationRouter.getRankIn table (minXP rk) = Some rk /\
     Features.current <$> Features.getRankInfoIn table (minXP rk) = Some rk) /\
  GamificationRouter.getRankIn table 0 = table !! O /\
  Features.current <$> Features.getRankInfoIn table 0 = table !! O.
Proof.
  intros Hvalid Hxp.
  assert (Hboth : forall x, 0 <= x -> forall i r, last_reached table x i r ->
            GamificationRouter.getRankIn table x = Some r /\
            Features.current <$> Features.getRankInfoIn table x = Some r).
  { intros x Hx i r Hlast.
    destruct (getRankIn_last_reached table x Hvalid Hx) as (i1 & r1 & Hres1 & Hlast1).
    destruct (getRankInfoIn_last_reached table x Hvalid Hx) as (i2 & r2 & Hres2 & Hlast2).
    destruct (last_reached_unique table x _ _ _ _ Hlast Hlast1) as [_ ->].
    destruct (last_reached_unique table x _ _ _ _ Hlast1 Hlast2) as [_ <-].
    now split. }
  destruct Hvalid as [(r0 & Hr0 & Hmin0) Hinc] eqn:Hv. clear Hv.
  assert (Hnonneg : forall k rk, table !! k = Some rk -> 0 <= minXP rk).
  { intros k rk Hk. destruct k as [| k]; [replace rk with r0 by congruence; lia |].
    specialize (Hinc O (S k) r0 rk Hr0 Hk). lia. }
  assert (Hat : forall k rk, table !! k = Some rk -> last_reached table (minXP rk) k rk).
  { intros k rk Hk. split; [exact Hk |]. split; [lia |].
    intros j r' Hj Hkj. exact (Hinc k j rk r' Hk Hj Hkj). }
  split; [| split].
  - destruct (getRankIn_last_reached table xp ltac:(split; eauto) Hxp)
      as (i & r & Hres & Hlast).
    exists i, r. split; [exact Hlast |]. now apply (Hboth xp Hxp i r).
  - intros k rk Hk. apply (Hboth (minXP rk) (Hnonneg k rk Hk) k rk), Hat, Hk.
  - rewrite Hr0. rewrite <- Hmin0.
    apply (Hboth (minXP r0) ltac:(lia) O r0), Hat, Hr0.
Qed.

Lemma getRank_last_reached_witness :
  valid_table GamificationRouter.RANKS /\ 0 <= 300 /\
  (exists i r,
     last_reached GamificationRouter.RANKS 300 i r /\
     GamificationRouter.getRankIn GamificationRouter.RANKS 300 = Some r /\
     Features.current <$> Features.getRankInfoIn GamificationRouter.RANKS 300 = Some r) /\
  (forall k rk, GamificationRouter.RANKS !! k = Some rk ->
     GamificationRouter.getRankIn GamificationRouter.RANKS (minXP rk) = Some rk /\
     Features.current <$> Features.getRankInfoIn GamificationRouter.RANKS (minXP rk) = Some rk) /\
  GamificationRouter.getRankIn GamificationRouter.RANKS 0 = GamificationRouter.RANKS !! O /\
  Features.current <$> Features.getRankInfoIn GamificationRouter.RANKS 0 =
    GamificationRouter.RANKS !! O.
Proof.
  split; [exact RANKS_valid |]. split; [lia |].
  apply (getRank_last_reached GamificationRouter.RANKS 300); [exact RANKS_valid | lia].
Defined.

(** With distinct ids, [findIndex] by id finds the row itself. *)
Lemma findIndex_from_distinct (l : list Rank) (i : nat) (x : Rank) (k : Z) :
  NoDup (id <$> l) -> l !! i = Some x ->
  JS.findIndex_from (fun r => String.eqb (id r) (id x)) l k = k + Z.of_nat i.
Proof.
  revert i k. induction l as [| y l IH]; intros i k Hnd Hi.
  - now rewrite lookup_nil in Hi.
  - rewrite fmap_cons in Hnd. apply NoDup_cons in Hnd as [Hnotin Hnd].
    cbn [JS.findIndex_from].
    destruct i as [| i]; cbn in Hi.
    + injection Hi as ->. rewrite String.eqb_refl. lia.
    + destruct (String.eqb_spec (id y) (id x)) as [Heq | Hne].
      * exfalso. apply Hnotin. rewrite Heq.
        apply list_elem_of_fmap. exists x. split; [reflexivity |].
        apply list_elem_of_lookup. now exists i.
      * rewrite (IH i (k + 1) Hnd Hi). lia.
Qed.

Lemma index_nat {A} (a : list A) (i : nat) : JS.index a (Z.of_nat i) = a !! i.
Proof.
  unfold JS.index.
  destruct (Z.ltb_spec (Z.of_nat i) 0); [lia |]. now rewrite Nat2Z.id.
Qed.

(** C7, as stated, fails: at 129 XP the rank is bronze (100) and the next
    one silver (300), the exact percentage is 14.5, which rounds to 15,
    and [getNextRank] returns 14: 29 / 200 is not a double, and the
    nearest double times 100 is a double just below 14.5.  Rounding halves
    to the even integer does not describe the result either: at 101 XP
    the exact percentage is 0.5 and the result is 1. *)
Lemma getNextRank_progress_at_a_tie :
  ((fun n => id (GamificationRouter.rank n)) <$> GamificationRouter.getNextRank 129)
    = Some "silver" /\
  (GamificationRouter.xpRequired <$> GamificationRouter.getNextRank 129) = Some 171 /\
  (GamificationRouter.progress <$> GamificationRouter.getNextRank 129) = Some (Some 14) /\
  (100 * inject_Z (129 - 100) / inject_Z (300 - 100) == 29 # 2)%Q /\
  JS.Math_round (100 * inject_Z (129 - 100) / inject_Z (300 - 100))%Q = 15 /\
  (GamificationRouter.progress <$> GamificationRouter.getNextRank 101) = Some (Some 1) /\
  (100 * inject_Z (101 - 100) / inject_Z (300 - 100) == 1 # 2)%Q.
Proof. repeat split; vm_compute; reflexivity. Qed.

(** The thresholds of a valid table are not negative. *)
Lemma valid_table_nonneg (table : list Rank) (k : nat) (rk : Rank) :
  valid_table table -> table !! k = Some rk -> 0 <= minXP rk.
Proof.
  intros [(r0 & Hr0 & Hmin0) Hinc] Hk.
  destruct k as [| k]; [replace rk with r0 by congruence; lia |].
  specialize (Hinc O (S k) r0 rk Hr0 Hk). lia.
Qed.

(** C7, amended: on a valid table with distinct ids, [getNextRank] returns
    [null] exactly when the current rank (the one [getRank] returns) is
    the last row; otherwise it returns the row after the current one with
    [xpRequired = nextMinXP - xp] and a [progress] that, for [xp >= 0] and
    thresholds below [2 ^ 43], is an integer nearest to
    [100 * (xp - minXP) / (nextMinXP - minXP)]: it is the [round] of that
    quotient unless the quotient is halfway between two integers, and one
    of the two then. *)
Theorem getNextRank_next_or_null (table : list Rank) (xp : Z) :
  valid_table table -> distinct_ids table ->
  Forall (fun r => minXP r < 2 ^ 43) table ->
  exists i cur,
    table !! i = Some cur /\
    GamificationRouter.getRankIn table xp = Some cur /\
    (GamificationRouter.getNextRankIn table xp = None <-> S i = length table) /\
    (forall nxt, table !! S i = Some nxt ->
       exists p,
         GamificationRouter.getNextRankIn table xp =
           Some {| GamificationRouter.rank := nxt;
                   GamificationRouter.xpRequired := minXP nxt - xp;
                   GamificationRouter.progress := Some p |} /\
         (0 <= xp ->
          (2 * p - 1) * (minXP nxt - minXP cur) <= 200 * (xp - minXP cur) /\
          200 * (xp - minXP cur) <= (2 * p + 1) * (minXP nxt - minXP cur) /\
          ((200 * (xp - minXP cur)) mod (2 * (minXP nxt - minXP cur))
             <> minXP nxt - minXP cur ->
           p = JS.Math_round (100 * inject_Z (xp - minXP cur) /
                              inject_Z (minXP nxt - minXP cur))%Q))).
Proof.
  intros Hvalid Hids Hsmall.
  assert (Hcur : exists i cur, table !! i = Some cur /\
                   GamificationRouter.getRankIn table xp = Some cur /\
                   (0 <= xp -> minXP cur <= xp /\
                      forall j r', table !! j = Some r' -> (i < j)%nat -> xp < minXP r')).
  { destruct (getRankLoop_scan table xp (length table) ltac:(lia))
      as [(i & cur & _ & Hi & Hle & Hlast & Hres) | [Hnone Hres]].
    - exists i, cur. split; [exact Hi |]. split; [exact Hres |].
      intros _. split; [exact Hle |].
      intros j r' Hj Hij. apply (Hlast j r' Hj).
      apply lookup_lt_Some in Hj. lia.
    - destruct Hvalid as [(r0 & Hr0 & Hmin0) _].
      exists O, r0. split; [exact Hr0 |].
      split; [unfold GamificationRouter.getRankIn; now rewrite Hres |].
      intros Hxp. apply lookup_lt_Some in Hr0 as Hlen.
      specialize (Hnone O r0 Hr0 Hlen). lia. }
  destruct Hcur as (i & cur & Hi & Hres & Hreached).
  exists i, cur. split; [exact Hi |]. split; [exact Hres |].
  apply lookup_lt_Some in Hi as Hlen.
  unfold GamificationRouter.getNextRankIn. rewrite Hres.
  unfold JS.findIndex. rewrite (findIndex_from_distinct table i cur 0 Hids Hi).
  destruct (Z.eqb_spec (0 + Z.of_nat i) (Z.of_nat (length table) - 1)) as [Hlast | Hmore].
  - split; [split; [lia | reflexivity] |].
    intros nxt Hnxt. apply lookup_lt_Some in Hnxt. lia.
  - destruct (lookup_lt_is_Some_2 table (S i) ltac:(lia)) as [nxt Hnxt].
    replace (0 + Z.of_nat i + 1) with (Z.of_nat (S i)) by lia.
    rewrite index_nat, Hnxt.
    assert (Hgap : minXP cur < minXP nxt).
    { destruct Hvalid as [_ Hinc]. apply (Hinc i (S i) cur nxt Hi Hnxt). lia. }
    cbn [mbind option_bind]. unfold JS.div.
    destruct (Z.eqb_spec (minXP nxt - minXP cur) 0) as [| _]; [lia |].
    cbn [mbind option_bind].
    split; [split; [discriminate | lia] |].
    intros nxt' Hnxt'. replace nxt' with nxt by congruence.
    eexists. split; [reflexivity |].
    intros Hxp. destruct (Hreached Hxp) as [Hle Habove].
    specialize (Habove (S i) nxt Hnxt ltac:(lia)).
    pose proof (valid_table_nonneg table i cur Hvalid Hi) as Hcur0.
    pose proof (proj1 (Forall_lookup _ _) Hsmall (S i) nxt Hnxt) as Hnxt43.
    cbn beta in Hnxt43.
    destruct (percent_near (xp - minXP cur) (minXP nxt - minXP cur)
                ltac:(lia) ltac:(lia)) as [Hlo Hhi].
    set (a := xp - minXP cur) in *. set (b := minXP nxt - minXP cur) in *.
    set (p := JS.Math_round (JS.mul (JS.quot a b) 100)) in *.
    split; [exact Hlo |]. split; [exact Hhi |].
    intros Htie. symmetry. apply Math_round_exact_percent; [lia | exact Hlo |].
    assert (Hne : 200 * a <> (2 * p + 1) * b); [| lia].
    intros Heq. apply Htie. rewrite Heq.
    replace ((2 * p + 1) * b) with (b + p * (2 * b)) by ring.
    rewrite Z_mod_plus_full. apply Z.mod_small. lia.
Qed.

Lemma RANKS_small : Forall (fun r => minXP r < 2 ^ 43) GamificationRouter.RANKS.
Proof. repeat constructor. Qed.

Lemma getNextRank_next_or_null_witness :
  valid_table GamificationRouter.RANKS /\ distinct_ids GamificationRouter.RANKS /\
  Forall (fun r => minXP r < 2 ^ 43) GamificationRouter.RANKS /\
  exists i cur,
    GamificationRouter.RANKS !! i = Some cur /\
    GamificationRouter.getRankIn GamificationRouter.RANKS 129 = Some cur /\
    (GamificationRouter.getNextRankIn GamificationRouter.RANKS 129 = None <->
     S i = length GamificationRouter.RANKS) /\
    (forall nxt, GamificationRouter.RANKS !! S i = Some nxt ->
       exists p,
         GamificationRouter.getNextRankIn GamificationRouter.RANKS 129 =
           Some {| GamificationRouter.rank := nxt;
                   GamificationRouter.xpRequired := minXP nxt - 129;
                   GamificationRouter.progress := Some p |} /\
         (0 <= 129 ->
          (2 * p - 1) * (minXP nxt - minXP cur) <= 200 * (129 - minXP cur) /\
          200 * (129 - minXP cur) <= (2 * p + 1) * (minXP nxt - minXP cur) /\
          ((200 * (129 - minXP cur)) mod (2 * (minXP nxt - minXP cur))
             <> minXP nxt - minXP cur ->
           p = JS.Math_round (100 * inject_Z (129 - minXP cur) /
                              inject_Z (minXP nxt - minXP cur))%Q))).
Proof.
  split; [exact RANKS_valid |]. split; [exact RANKS_distinct_ids |].
  split; [exact RANKS_small |].
  apply (getNextRank_next_or_null GamificationRouter.RANKS 129);
    [exact RANKS_valid | exact RANKS_distinct_ids | exact RANKS_small].
Defined.

(** At 150 XP the next rank is silver, 150 XP away and 25 percent done; at
    4000 XP the rank is the last one and there is no next rank. *)
Example getNextRank_sample :
  ((fun n => id (GamificationRouter.rank n)) <$> GamificationRouter.getNextRank 150) = Some "silver" /\
  (GamificationRouter.xpRequired <$> GamificationRouter.getNextRank 150) = Some 150 /\
  (GamificationRouter.progress <$> GamificationRouter.getNextRank 150) = Some (Some 25) /\
  GamificationRouter.getNextRank 4000 = None.
Proof. repeat split; vm_compute; reflexivity. Qed.

(** ** Streaks *)

(** C2 (the code on a history with a gap): with completions today (day
    10), yesterday and three days ago, [calculateStreak] returns 3: its
    [diffDays === 1] branch skips a missing day at every step of the walk,
    not only at its start.  On the same history the user-level walk of
    [updateUserStreak] stops at the gap and stores 2. *)
Lemma calculateStreak_skips_a_later_gap :
  Db.date <$> HabitsRouter.findCompletions "h1" "u1" sample_db = [10; 9; 7] /\
  fst (HabitsRouter.calculateStreak 10 "h1" "u1" sample_db) = Db.Ok 3 /\
  HabitsRouter.userStreak 10 "u1" sample_db = 2 /\
  Db.currentStreak <$>
    Db.user (snd (HabitsRouter.updateUserStreak 10 "u1" sample_db)) !! "u1" = Some 2.
Proof. repeat split; vm_compute; reflexivity. Qed.

(** The per-habit walk counts a record one day behind the cursor at any
    step, whatever it has counted so far. *)
Lemma streakLoop_counts_across_gap (c : Db.HabitCompletion) (rest : list Db.HabitCompletion)
    (streak currentDate : Z) :
  Db.date c = currentDate - 1 ->
  HabitsRouter.streakLoop (c :: rest) streak currentDate =
  HabitsRouter.streakLoop rest (streak + 1) (currentDate - 2).
Proof.
  intros Hdate. cbn [HabitsRouter.streakLoop]. rewrite Hdate.
  replace (currentDate - (currentDate - 1)) with 1 by lia. cbn.
  f_equal. lia.
Qed.

(** Today's absence is tolerated by both walks: a single completion
    yesterday gives a streak of 1. *)
Example streak_yesterday_only :
  HabitsRouter.streakLoop [done_on 9] 0 10 = 1 /\
  HabitsRouter.userStreakLoop (fun day => if day =? 9 then 1 else 0) 365 0 0 10 = 1.
Proof. split; vm_compute; reflexivity. Qed.

Section UserStreakWalk.

Import HabitsRouter.

Variable count : Z -> Z.

(** After its first iteration the user-level walk counts the unbroken run
    of completed days from the cursor down: the first day without a
    completion ends it. *)
Lemma userStreakLoop_run (n : nat) (i streak day : Z) :
  0 < i ->
  exists r,
    userStreakLoop count n i streak day = streak + r /\
    0 <= r <= Z.of_nat n /\
    (forall k, 0 <= k < r -> 0 < count (day - k)) /\
    (r < Z.of_nat n -> count (day - r) <= 0).
Proof.
  revert i streak day. induction n as [| n IH]; intros i streak day Hi.
  - exists 0. cbn. repeat split; intros; lia.
  - cbn [userStreakLoop].
    destruct (Z.gtb_spec (count day) 0) as [Hdone | Hmissing].
    + destruct (IH (i + 1) (streak + 1) (day - 1) ltac:(lia))
        as (r & Hres & Hr & Hrun & Hend).
      exists (r + 1). rewrite Hres.
      split; [lia |]. split; [lia |]. split.
      * intros k Hk. destruct (decide (k = 0)) as [-> | Hk0].
        -- now rewrite Z.sub_0_r.
        -- replace (day - k) with (day - 1 - (k - 1)) by lia. apply Hrun. lia.
      * intros Hlt. replace (day - (r + 1)) with (day - 1 - r) by lia.
        apply Hend. lia.
    + destruct (Z.gtb_spec i 0) as [_ | ?]; [| lia].
      exists 0. rewrite Z.add_0_r, Z.sub_0_r.
      repeat split; try (intros; lia).
Qed.

(** The whole walk: it starts today, or yesterday when today has no
    completion yet, and counts the unbroken run of completed days from
    there. *)
Lemma userStreakLoop_walk (n : nat) (today : Z) :
  let start := if count today >? 0 then today else today - 1 in
  let days := if count today >? 0 then Z.of_nat (S n) else Z.of_nat n in
  let streak := userStreakLoop count (S n) 0 0 today in
  0 <= streak <= days /\
  (forall k, 0 <= k < streak -> 0 < count (start - k)) /\
  (streak < days -> count (start - streak) <= 0).
Proof.
  cbn [userStreakLoop]. cbn zeta.
  destruct (Z.gtb_spec (count today) 0) as [Hdone | Hmissing].
  - destruct (userStreakLoop_run n (0 + 1) (0 + 1) (today - 1) ltac:(lia))
      as (r & -> & Hr & Hrun & Hend).
    split; [lia |]. split.
    + intros k Hk. destruct (decide (k = 0)) as [-> | Hk0].
      * now rewrite Z.sub_0_r.
      * replace (today - k) with (today - 1 - (k - 1)) by lia. apply Hrun. lia.
    + intros Hlt. replace (today - (0 + 1 + r)) with (today - 1 - r) by lia.
      apply Hend. lia.
  - destruct (Z.gtb_spec 0 0) as [? | _]; [lia |].
    destruct (userStreakLoop_run n (0 + 1) 0 (today - 1) ltac:(lia))
      as (r & -> & Hr & Hrun & Hend).
    rewrite Z.add_0_l. split; [lia |]. split; [exact Hrun | exact Hend].
Qed.

End UserStreakWalk.

Section LongestStreak.

Import HabitsRouter.

Ltac run_handler :=
  unfold mbind, M_bind, Db.bind, Db.query, Db.ret, Db.user_update; cbn beta iota.

(** What one run of [updateUserStreak] does to the row of the user. *)
Lemma updateUserStreak_user (db : Db.t) (today : Z) (userId : string) (u : Db.User) :
  Db.user db !! userId = Some u ->
  exists db' u',
    updateUserStreak today userId db = (Db.Ok tt, db') /\
    Db.user db' !! userId = Some u' /\
    (activeHabits userId db <> [] ->
       Db.currentStreak u' = userStreak today userId db /\
       Db.longestStreak u' = Z.max (Db.longestStreak u) (Db.currentStreak u')) /\
    (activeHabits userId db = [] -> u' = u) /\
    Db.longestStreak u <= Db.longestStreak u'.
Proof.
  intros Hu. unfold updateUserStreak. run_handler.
  destruct (activeHabits userId db) as [| h hs] eqn:Hhabits; cbn [length Nat.eqb].
  - exists db, u. split; [reflexivity |]. split; [exact Hu |].
    split; [intros Hne; now contradiction Hne |].
    split; [reflexivity | lia].
  - rewrite Hu. cbn [fmap option_fmap option_map JS.or_zero].
    eexists _, _. split; [reflexivity |].
    cbn [Db.user]. rewrite lookup_alter_eq, Hu. cbn [fmap option_fmap option_map].
    split; [reflexivity |]. cbn [Db.currentStreak Db.longestStreak].
    split; [intros _; split; [reflexivity | apply Z.max_comm] |].
    split; [discriminate | lia].
Qed.

Lemma recomputeAll_longestStreak (userId : string) (steps : list Recompute) :
  forall (db : Db.t) (u : Db.User),
    Db.user db !! userId = Some u ->
    exists u', Db.user (recomputeAll userId steps db) !! userId = Some u' /\
               Db.longestStreak u <= Db.longestStreak u'.
Proof.
  induction steps as [| step steps IH]; intros db u Hu.
  - exists u. split; [exact Hu | lia].
  - cbn [recomputeAll fold_left].
    set (db0 := {| Db.habit := r_habit step; Db.habitCompletion := r_history step;
                   Db.user := Db.user db; Db.achievement := Db.achievement db;
                   Db.userAchievement := Db.userAchievement db;
                   Db.activityLog := Db.activityLog db |}).
    destruct (updateUserStreak_user db0 (r_today step) userId u Hu)
      as (db1 & u1 & Hrun & Hu1 & _ & _ & Hle).
    assert (Hstep : recompute userId db step = db1).
    { unfold recompute. fold db0. now rewrite Hrun. }
    rewrite Hstep.
    destruct (IH db1 u1 Hu1) as (u' & Hu' & Hle').
    exists u'. split; [exact Hu' | lia].
Qed.

End LongestStreak.

(** C4: a run of [updateUserStreak] stores the streak it computed and, as
    longest streak, the maximum of the stored longest streak and that
    streak (a user without active habits is left as is); so over any
    sequence of runs, whatever the histories, the longest streak never
    decreases. *)
Theorem longestStreak_is_running_max (db : Db.t) (today : Z) (userId : string)
    (u : Db.User) (steps : list Recompute) :
  Db.user db !! userId = Some u ->
  (exists db' u',
     HabitsRouter.updateUserStreak today userId db = (Db.Ok tt, db') /\
     Db.user db' !! userId = Some u' /\
     (HabitsRouter.activeHabits userId db <> [] ->
        Db.currentStreak u' = HabitsRouter.userStreak today userId db /\
        Db.longestStreak u' = Z.max (Db.longestStreak u) (Db.currentStreak u')) /\
     (HabitsRouter.activeHabits userId db = [] -> u' = u) /\
     Db.longestStreak u <= Db.longestStreak u') /\
  (exists u', Db.user (recomputeAll userId steps db) !! userId = Some u' /\
              Db.longestStreak u <= Db.longestStreak u').
Proof.
  intros Hu. split.
  - now apply updateUserStreak_user.
  - now apply recomputeAll_longestStreak.
Qed.

Lemma longestStreak_is_running_max_witness :
  Db.user sample_db !! "u1" =
    Some {| Db.xp := 30; Db.currentStreak := 2; Db.longestStreak := 5 |} /\
  (exists db' u',
     HabitsRouter.updateUserStreak 10 "u1" sample_db = (Db.Ok tt, db') /\
     Db.user db' !! "u1" = Some u' /\
     (HabitsRouter.activeHabits "u1" sample_db <> [] ->
        Db.currentStreak u' = HabitsRouter.userStreak 10 "u1" sample_db /\
        Db.longestStreak u' = Z.max 5 (Db.currentStreak u')) /\
     (HabitsRouter.activeHabits "u1" sample_db = [] ->
        u' = {| Db.xp := 30; Db.currentStreak := 2; Db.longestStreak := 5 |}) /\
     5 <= Db.longestStreak u') /\
  (exists u',
     Db.user (recomputeAll "u1"
                [{| r_today := 11; r_habit := Db.habit sample_db;
                    r_history := [done_on 11] |}] sample_db) !! "u1" = Some u' /\
     5 <= Db.longestStreak u').
Proof.
  split; [vm_compute; reflexivity |].
  apply (longestStreak_is_running_max sample_db 10 "u1"
           {| Db.xp := 30; Db.currentStreak := 2; Db.longestStreak := 5 |}).
  vm_compute; reflexivity.
Defined.

(** ** Achievements *)

Section Achievements.

Import HabitsRouter.

Variable userId : string.

Ltac run_db :=
  unfold mbind, M_bind, Db.bind, Db.query, Db.ret, Db.user_update,
    Db.userAchievement_create, Db.activityLog_create; cbn beta iota.

(** The criterion reads the user's current streak and the number of
    completions, nothing else. *)
Lemma shouldUnlock_stats (user1 user2 : option Db.User) (total : Z) (a : Db.Achievement) :
  JS.or_zero (Db.currentStreak <$> user1) = JS.or_zero (Db.currentStreak <$> user2) ->
  shouldUnlock user1 total a = shouldUnlock user2 total a.
Proof. intros Hstreak. unfold shouldUnlock. now rewrite Hstreak. Qed.

(** The loop of [checkAchievements] over [achs], for a user that exists:
    it adds one row per achievement whose criterion holds and changes
    neither the catalogue, nor the history, nor the streak of the user. *)
Lemma unlock_loop (user0 : option Db.User) (total : Z) (achs : list Db.Achievement) :
  forall (db : Db.t) (u : Db.User),
    Db.user db !! userId = Some u ->
    exists db' u',
      Db.forEach achs (fun a => if shouldUnlock user0 total a
                                then unlock userId a else Db.ret tt) db = (Db.Ok tt, db') /\
      Db.habitCompletion db' = Db.habitCompletion db /\
      Db.achievement db' = Db.achievement db /\
      Db.user db' !! userId = Some u' /\
      Db.currentStreak u' = Db.currentStreak u /\
      Db.userAchievement db' =
        Db.userAchievement db ++
        (row_of userId <$> filter (fun a => shouldUnlock user0 total a = true) achs).
Proof.
  induction achs as [| a achs IH]; intros db u Hu.
  - exists db, u. cbn. rewrite app_nil_r. repeat split; assumption.
  - cbn [Db.forEach]. unfold Db.bind at 1.
    destruct (shouldUnlock user0 total a) eqn:Hs.
    + unfold unlock. run_db. cbn [Db.user]. rewrite Hu.
      match goal with
      | |- context [Db.forEach achs _ ?d] => set (db1 := d)
      end.
      assert (Hu1 : Db.user db1 !! userId =
                    Some {| Db.xp := Db.xp u + Db.xpReward a;
                            Db.currentStreak := Db.currentStreak u;
                            Db.longestStreak := Db.longestStreak u |}).
      { subst db1. cbn [Db.user]. now rewrite lookup_alter_eq, Hu. }
      destruct (IH db1 _ Hu1) as (db' & u' & Hrun & Hhist & Hcat & Hu' & Hstreak & Hrows).
      exists db', u'. split; [exact Hrun |].
      split; [now rewrite Hhist |]. split; [now rewrite Hcat |].
      split; [exact Hu' |]. split; [now rewrite Hstreak |].
      rewrite Hrows. subst db1. cbn [Db.userAchievement].
      rewrite filter_cons_True by exact Hs.
      rewrite fmap_cons, <- app_assoc. reflexivity.
    + unfold Db.ret at 1.
      destruct (IH db u Hu) as (db' & u' & Hrun & Hhist & Hcat & Hu' & Hstreak & Hrows).
      exists db', u'. split; [exact Hrun |].
      repeat (split; [assumption |]).
      rewrite Hrows, filter_cons_False by (rewrite Hs; discriminate). reflexivity.
Qed.

(** A loop over achievements none of which qualifies does nothing. *)
Lemma unlock_loop_idle (user0 : option Db.User) (total : Z) (achs : list Db.Achievement)
    (db : Db.t) :
  filter (fun a => shouldUnlock user0 total a = true) achs = [] ->
  Db.forEach achs (fun a => if shouldUnlock user0 total a
                            then unlock userId a else Db.ret tt) db = (Db.Ok tt, db).
Proof.
  induction achs as [| a achs IH]; intros Hnone; [reflexivity |].
  cbn [Db.forEach]. unfold Db.bind at 1.
  destruct (shouldUnlock user0 total a) eqn:Hs.
  - rewrite filter_cons_True in Hnone by exact Hs. discriminate.
  - rewrite filter_cons_False in Hnone by (rewrite Hs; discriminate).
    unfold Db.ret at 1. now apply IH.
Qed.

(** The unlocked set after rows for [achs] were added for the user. *)
Lemma unlockedSet_app (db db' : Db.t) (achs : list Db.Achievement) :
  Db.userAchievement db' = Db.userAchievement db ++ (row_of userId <$> achs) ->
  unlockedSet userId db' = unlockedSet userId db ∪ list_to_set (Db.ach_id <$> achs).
Proof.
  intros Hrows. unfold unlockedSet. rewrite Hrows, filter_app, fmap_app, list_to_set_app_L.
  f_equal. f_equal. clear Hrows.
  induction achs as [| a achs IH]; [reflexivity |].
  rewrite !fmap_cons, filter_cons_True by reflexivity.
  rewrite fmap_cons, IH. reflexivity.
Qed.

(** A run on a database with the same catalogue and the same aggregates,
    whose unlocked set has grown by the achievements of the first run,
    finds nothing to unlock. *)
Lemma newlyUnlocked_second_run (db db2 : Db.t) :
  Db.achievement db2 = Db.achievement db ->
  JS.or_zero (Db.currentStreak <$> Db.user db2 !! userId) =
    JS.or_zero (Db.currentStreak <$> Db.user db !! userId) ->
  totalCompletions userId db2 = totalCompletions userId db ->
  unlockedSet userId db2 =
    unlockedSet userId db ∪ list_to_set (Db.ach_id <$> newlyUnlocked userId db) ->
  newlyUnlocked userId db2 = [].
Proof.
  intros Hcat Hstreak Htotal Hset.
  destruct (newlyUnlocked userId db2) as [| a rest] eqn:Hnew; [reflexivity |].
  exfalso.
  assert (Ha : a ∈ newlyUnlocked userId db2) by (rewrite Hnew; apply list_elem_of_here).
  unfold newlyUnlocked, lockedAchievements in Ha.
  apply list_elem_of_filter in Ha as [Hshould Ha].
  apply list_elem_of_filter in Ha as [Hlocked Ha].
  rewrite Htotal, (shouldUnlock_stats _ _ _ _ Hstreak) in Hshould.
  rewrite Hcat in Ha. rewrite Hset in Hlocked.
  apply Hlocked, elem_of_union.
  destruct (decide (Db.ach_id a ∈ unlockedSet userId db)) as [Hin | Hnotin]; [now left |].
  right. apply elem_of_list_to_set, list_elem_of_fmap_2.
  unfold newlyUnlocked, lockedAchievements.
  apply list_elem_of_filter. split; [exact Hshould |].
  apply list_elem_of_filter. now split.
Qed.

End Achievements.

(** C3: for a user that exists, a run of [checkAchievements] succeeds and
    adds to the unlocked set exactly the achievements it unlocks, leaving
    the streak and the number of completions as they were; a second run,
    on the database the first one left, finds no achievement to unlock,
    creates no row and awards no XP: it leaves the database unchanged. *)
Theorem checkAchievements_no_double_unlock (db : Db.t) (userId : string) (u : Db.User) :
  Db.user db !! userId = Some u ->
  exists db1,
    HabitsRouter.checkAchievements userId db = (Db.Ok tt, db1) /\
    Db.userAchievement db1 =
      Db.userAchievement db ++ (row_of userId <$> HabitsRouter.newlyUnlocked userId db) /\
    HabitsRouter.unlockedSet userId db1 =
      HabitsRouter.unlockedSet userId db ∪
      list_to_set (Db.ach_id <$> HabitsRouter.newlyUnlocked userId db) /\
    Db.currentStreak <$> Db.user db1 !! userId = Some (Db.currentStreak u) /\
    HabitsRouter.totalCompletions userId db1 = HabitsRouter.totalCompletions userId db /\
    HabitsRouter.newlyUnlocked userId db1 = [] /\
    HabitsRouter.checkAchievements userId db1 = (Db.Ok tt, db1).
Proof.
  intros Hu.
  destruct (unlock_loop userId (Db.user db !! userId)
              (HabitsRouter.totalCompletions userId db)
              (HabitsRouter.lockedAchievements userId db) db u Hu)
    as (db1 & u1 & Hrun & Hhist & Hcat & Hu1 & Hstreak & Hrows).
  exists db1.
  assert (Hset : HabitsRouter.unlockedSet userId db1 =
                 HabitsRouter.unlockedSet userId db ∪
                 list_to_set (Db.ach_id <$> HabitsRouter.newlyUnlocked userId db)).
  { now apply unlockedSet_app. }
  assert (Htotal : HabitsRouter.totalCompletions userId db1 =
                   HabitsRouter.totalCompletions userId db).
  { unfold HabitsRouter.totalCompletions. now rewrite Hhist. }
  assert (Hnone : HabitsRouter.newlyUnlocked userId db1 = []).
  { apply (newlyUnlocked_second_run userId db db1 Hcat); [| exact Htotal | exact Hset].
    rewrite Hu1, Hu. cbn. exact Hstreak. }
  split; [exact Hrun |]. split; [exact Hrows |]. split; [exact Hset |].
  split; [rewrite Hu1; cbn; now rewrite Hstreak |].
  split; [exact Htotal |]. split; [exact Hnone |].
  unfold HabitsRouter.checkAchievements, mbind, M_bind, Db.bind, Db.query.
  now apply unlock_loop_idle.
Qed.

Lemma checkAchievements_no_double_unlock_witness :
  Db.user sample_db !! "u1" =
    Some {| Db.xp := 30; Db.currentStreak := 2; Db.longestStreak := 5 |} /\
  exists db1,
    HabitsRouter.checkAchievements "u1" sample_db = (Db.Ok tt, db1) /\
    Db.userAchievement db1 =
      Db.userAchievement sample_db ++
      (row_of "u1" <$> HabitsRouter.newlyUnlocked "u1" sample_db) /\
    HabitsRouter.unlockedSet "u1" db1 =
      HabitsRouter.unlockedSet "u1" sample_db ∪
      list_to_set (Db.ach_id <$> HabitsRouter.newlyUnlocked "u1" sample_db) /\
    Db.currentStreak <$> Db.user db1 !! "u1" = Some 2 /\
    HabitsRouter.totalCompletions "u1" db1 = HabitsRouter.totalCompletions "u1" sample_db /\
    HabitsRouter.newlyUnlocked "u1" db1 = [] /\
    HabitsRouter.checkAchievements "u1" db1 = (Db.Ok tt, db1).
Proof.
  split; [vm_compute; reflexivity |].
  apply (checkAchievements_no_double_unlock sample_db "u1"
           {| Db.xp := 30; Db.currentStreak := 2; Db.longestStreak := 5 |}).
  vm_compute; reflexivity.
Defined.

(** On the sample database the first run unlocks [a1] and [a3] and awards
    their 50 XP. *)
Example checkAchievements_sample :
  Db.ach_id <$> HabitsRouter.newlyUnlocked "u1" sample_db = ["a1"; "a3"] /\
  Db.xp <$> Db.user (snd (HabitsRouter.checkAchievements "u1" sample_db)) !! "u1" = Some 80.
Proof. split; vm_compute; reflexivity. Qed.

(** * Further properties of the code *)

(** ** Level progress *)

(** X1: for [0 <= xp < 50 * 2 ^ 46] the result of [calculateLevelProgress]
    places [xp] inside its level: the level starts at
    [currentLevelXP = 50 * (level - 1)^2] and ends before
    [nextLevelXP = 50 * level^2], [currentLevelXP <= xp < nextLevelXP],
    the XP in the level is below the XP the level takes, which is
    [50 * (2 * level - 1)], and the percentage is the whole percent
    nearest to their quotient, between 0 and 100. *)
Theorem calculateLevelProgress_bounds (xp : Z) :
  0 <= xp < 50 * 2 ^ 46 ->
  exists p,
    GamificationRouter.calculateLevelProgress xp = Some p /\
    1 <= GamificationRouter.level p /\
    GamificationRouter.currentLevelXP p = 50 * (GamificationRouter.level p - 1) ^ 2 /\
    GamificationRouter.nextLevelXP p = 50 * GamificationRouter.level p ^ 2 /\
    GamificationRouter.currentLevelXP p <= xp < GamificationRouter.nextLevelXP p /\
    GamificationRouter.xpInLevel p = xp - GamificationRouter.currentLevelXP p /\
    0 <= GamificationRouter.xpInLevel p < GamificationRouter.xpForNextLevel p /\
    GamificationRouter.xpForNextLevel p = 50 * (2 * GamificationRouter.level p - 1) /\
    (2 * GamificationRouter.progressPercent p - 1) * GamificationRouter.xpForNextLevel p
      < 200 * GamificationRouter.xpInLevel p
      < (2 * GamificationRouter.progressPercent p + 1) * GamificationRouter.xpForNextLevel p /\
    0 <= GamificationRouter.progressPercent p <= 100.
Proof.
  intros Hxp.
  destruct (calculateLevelProgress_value xp Hxp)
    as (l & p & _ & Hp & _ & Hl & Hb & Hlo & Hhi).
  eexists. split; [exact Hp |].
  cbn [GamificationRouter.level GamificationRouter.currentLevelXP
       GamificationRouter.nextLevelXP GamificationRouter.xpInLevel
       GamificationRouter.xpForNextLevel GamificationRouter.progressPercent].
  assert (Hw : 50 * l ^ 2 - 50 * (l - 1) ^ 2 = 50 * (2 * l - 1)) by ring.
  rewrite Hw.
  split; [lia |]. split; [reflexivity |]. split; [reflexivity |].
  split; [exact Hb |]. split; [reflexivity |].
  split; [lia |]. split; [reflexivity |].
  split; [split; assumption |]. nia.
Qed.

Lemma calculateLevelProgress_bounds_witness :
  0 <= 199 < 50 * 2 ^ 46 /\
  exists p,
    GamificationRouter.calculateLevelProgress 199 = Some p /\
    1 <= GamificationRouter.level p /\
    GamificationRouter.currentLevelXP p = 50 * (GamificationRouter.level p - 1) ^ 2 /\
    GamificationRouter.nextLevelXP p = 50 * GamificationRouter.level p ^ 2 /\
    GamificationRouter.currentLevelXP p <= 199 < GamificationRouter.nextLevelXP p /\
    GamificationRouter.xpInLevel p = 199 - GamificationRouter.currentLevelXP p /\
    0 <= GamificationRouter.xpInLevel p < GamificationRouter.xpForNextLevel p /\
    GamificationRouter.xpForNextLevel p = 50 * (2 * GamificationRouter.level p - 1) /\
    (2 * GamificationRouter.progressPercent p - 1) * GamificationRouter.xpForNextLevel p
      < 200 * GamificationRouter.xpInLevel p
      < (2 * GamificationRouter.progressPercent p + 1) * GamificationRouter.xpForNextLevel p /\
    0 <= GamificationRouter.progressPercent p <= 100.
Proof.
  split; [lia |]. apply (calculateLevelProgress_bounds 199). lia.
Defined.

(** Beyond that bound the rounding of the square root can put [xp] one
    level too high: at 3518438047744049 XP the level is 8388610, whose first XP
    is one more, so [xpInLevel] is -1; the percentage is 0. *)
Example calculateLevelProgress_beyond :
  GamificationRouter.calculateLevelProgress 3518438047744049 =
    Some {| GamificationRouter.level := 8388610;
            GamificationRouter.currentLevelXP := 3518438047744050;
            GamificationRouter.nextLevelXP := 3518438886605000;
            GamificationRouter.xpInLevel := -1;
            GamificationRouter.xpForNextLevel := 838860950;
            GamificationRouter.progressPercent := 0 |}.
Proof. vm_compute. reflexivity. Qed.

(** X2: for [0 <= xp < 50 * 2 ^ 46] the three copies of
    [calculateLevelProgress] agree: the percentage the features module
    rounds without a cap, the whole percent nearest to the part of the
    level that is done, never exceeds 100, so the [Math.min(100, ...)] of
    the two routers changes nothing. *)
Theorem calculateLevelProgress_copies_agree (xp : Z) :
  0 <= xp < 50 * 2 ^ 46 ->
  exists pf pg pu,
    Features.calculateLevelProgress xp = Some pf /\
    GamificationRouter.calculateLevelProgress xp = Some pg /\
    UserRouter.calculateLevelProgress xp = Some pu /\
    Features.progressPercent pf <= 100 /\
    (2 * Features.progressPercent pf - 1) * Features.xpForNextLevel pf
      < 200 * Features.xpInLevel pf
      < (2 * Features.progressPercent pf + 1) * Features.xpForNextLevel pf /\
    Features.level pf = GamificationRouter.level pg /\
    Features.currentLevelXP pf = GamificationRouter.currentLevelXP pg /\
    Features.nextLevelXP pf = GamificationRouter.nextLevelXP pg /\
    Features.xpInLevel pf = GamificationRouter.xpInLevel pg /\
    Features.xpForNextLevel pf = GamificationRouter.xpForNextLevel pg /\
    Features.progressPercent pf = GamificationRouter.progressPercent pg /\
    UserRouter.currentLevelXP pu = GamificationRouter.currentLevelXP pg /\
    UserRouter.nextLevelXP pu = GamificationRouter.nextLevelXP pg /\
    UserRouter.progressPercent pu = GamificationRouter.progressPercent pg.
Proof.
  intros Hxp.
  destruct (calculateLevelProgress_value xp Hxp)
    as (l & p & Hl & Hp & Hpeq & Hl1 & Hb & Hlo & Hhi).
  assert (Hcap : p <= 100) by nia.
  unfold Features.calculateLevelProgress, UserRouter.calculateLevelProgress.
  change (Features.calculateLevel xp) with (GamificationRouter.calculateLevel xp).
  change (UserRouter.calculateLevel xp) with (GamificationRouter.calculateLevel xp).
  rewrite Hl, Hp. cbn [mbind option_bind]. rewrite <- Hpeq.
  eexists _, _, _.
  split; [reflexivity |]. split; [reflexivity |]. split; [reflexivity |].
  cbn [Features.progressPercent Features.level Features.currentLevelXP
       Features.nextLevelXP Features.xpInLevel Features.xpForNextLevel
       GamificationRouter.progressPercent GamificationRouter.level
       GamificationRouter.currentLevelXP GamificationRouter.nextLevelXP
       GamificationRouter.xpInLevel GamificationRouter.xpForNextLevel
       UserRouter.currentLevelXP UserRouter.nextLevelXP UserRouter.progressPercent].
  split; [exact Hcap |].
  assert (Hw : 50 * l ^ 2 - 50 * (l - 1) ^ 2 = 50 * (2 * l - 1)) by ring.
  split; [rewrite Hw; split; assumption |].
  repeat (split; [reflexivity |]).
  now rewrite Z.min_r.
Qed.

Lemma calculateLevelProgress_copies_agree_witness :
  0 <= 4999 < 50 * 2 ^ 46 /\
  exists pf pg pu,
    Features.calculateLevelProgress 4999 = Some pf /\
    GamificationRouter.calculateLevelProgress 4999 = Some pg /\
    UserRouter.calculateLevelProgress 4999 = Some pu /\
    Features.progressPercent pf <= 100 /\
    (2 * Features.progressPercent pf - 1) * Features.xpForNextLevel pf
      < 200 * Features.xpInLevel pf
      < (2 * Features.progressPercent pf + 1) * Features.xpForNextLevel pf /\
    Features.level pf = GamificationRouter.level pg /\
    Features.currentLevelXP pf = GamificationRouter.currentLevelXP pg /\
    Features.nextLevelXP pf = GamificationRouter.nextLevelXP pg /\
    Features.xpInLevel pf = GamificationRouter.xpInLevel pg /\
    Features.xpForNextLevel pf = GamificationRouter.xpForNextLevel pg /\
    Features.progressPercent pf = GamificationRouter.progressPercent pg /\
    UserRouter.currentLevelXP pu = GamificationRouter.currentLevelXP pg /\
    UserRouter.nextLevelXP pu = GamificationRouter.nextLevelXP pg /\
    UserRouter.progressPercent pu = GamificationRouter.progressPercent pg.
Proof.
  split; [lia |]. apply (calculateLevelProgress_copies_agree 4999). lia.
Defined.

(** ** Ranks, continued *)

Section RankScan.

Variable table : list Rank.
Hypothesis Hvalid : valid_table table.

(** On a valid table [getRank] returns a row of the table for every [xp]:
    the last reached one, or the first row when [xp] is below every
    threshold. *)
Lemma getRankIn_row (xp : Z) :
  exists i r,
    table !! i = Some r /\ GamificationRouter.getRankIn table xp = Some r /\
    (last_reached table xp i r \/
     (i = O /\ forall j r', table !! j = Some r' -> xp < minXP r')).
Proof.
  destruct (getRankLoop_scan table xp (length table) ltac:(lia))
    as [(i & r & Hi & Hr & Hle & Hlast & Hres) | [Hnone Hres]].
  - exists i, r. split; [exact Hr |]. split; [exact Hres |].
    left. split; [exact Hr |]. split; [exact Hle |].
    intros j r' Hj Hij. apply (Hlast j r' Hj).
    apply lookup_lt_Some in Hj. lia.
  - destruct Hvalid as [(r0 & Hr0 & _) _].
    exists O, r0. split; [exact Hr0 |].
    split; [unfold GamificationRouter.getRankIn; now rewrite Hres |].
    right. split; [reflexivity |].
    intros j r' Hj. apply (Hnone j r' Hj). now apply lookup_lt_Some in Hj.
Qed.

Lemma minXP_index_mono (i j : nat) (ri rj : Rank) :
  table !! i = Some ri -> table !! j = Some rj -> (i <= j)%nat -> minXP ri <= minXP rj.
Proof.
  intros Hi Hj Hij. destruct Hvalid as [_ Hinc].
  destruct (decide (i = j)) as [-> | Hne].
  - replace rj with ri by congruence. lia.
  - specialize (Hinc i j ri rj Hi Hj). lia.
Qed.

(** The rows of a valid table are pairwise different. *)
Lemma valid_table_NoDup : NoDup table.
Proof.
  apply NoDup_alt. intros i j x Hi Hj.
  destruct Hvalid as [_ Hinc].
  destruct (Nat.lt_trichotomy i j) as [Hlt | [Heq | Hgt]]; [| exact Heq |].
  - specialize (Hinc i j x x Hi Hj Hlt). lia.
  - specialize (Hinc j i x x Hj Hi Hgt). lia.
Qed.

End RankScan.

(** X3: on a valid table [getRank] is monotone: more XP never gives a
    lower rank, for every pair of XP values, negative ones included, for
    which [getRank] falls back to the first row. *)
Theorem getRank_monotone (table : list Rank) (xp1 xp2 : Z) :
  valid_table table -> xp1 <= xp2 ->
  exists i1 i2 r1 r2,
    table !! i1 = Some r1 /\ table !! i2 = Some r2 /\
    GamificationRouter.getRankIn table xp1 = Some r1 /\
    GamificationRouter.getRankIn table xp2 = Some r2 /\
    (i1 <= i2)%nat /\ minXP r1 <= minXP r2 /\
    (xp1 < 0 -> GamificationRouter.getRankIn table xp1 = table !! O).
Proof.
  intros Hvalid Hle.
  destruct (getRankIn_row table Hvalid xp1) as (i1 & r1 & Hi1 & Hres1 & Hcase1).
  destruct (getRankIn_row table Hvalid xp2) as (i2 & r2 & Hi2 & Hres2 & Hcase2).
  assert (Hidx : (i1 <= i2)%nat).
  { destruct Hcase1 as [(_ & Hle1 & _) | [-> _]]; [| lia].
    destruct Hcase2 as [(_ & _ & Hlast2) | [_ Hnone2]].
    - destruct (decide (i1 <= i2)%nat) as [| Hgt]; [assumption |].
      specialize (Hlast2 i1 r1 Hi1 ltac:(lia)). lia.
    - specialize (Hnone2 i1 r1 Hi1). lia. }
  exists i1, i2, r1, r2.
  repeat (split; [assumption |]).
  split; [exact (minXP_index_mono table Hvalid i1 i2 r1 r2 Hi1 Hi2 Hidx) |].
  intros Hneg. rewrite Hres1.
  destruct Hcase1 as [(_ & Hle1 & _) | [-> _]]; [| now rewrite Hi1].
  destruct Hvalid as [(r0 & Hr0 & Hmin0) Hinc].
  destruct i1 as [| i1]; [now rewrite Hi1 |].
  specialize (Hinc O (S i1) r0 r1 Hr0 Hi1). lia.
Qed.

Lemma getRank_monotone_witness :
  valid_table GamificationRouter.RANKS /\ -5 <= 650 /\
  exists i1 i2 r1 r2,
    GamificationRouter.RANKS !! i1 = Some r1 /\ GamificationRouter.RANKS !! i2 = Some r2 /\
    GamificationRouter.getRankIn GamificationRouter.RANKS (-5) = Some r1 /\
    GamificationRouter.getRankIn GamificationRouter.RANKS 650 = Some r2 /\
    (i1 <= i2)%nat /\ minXP r1 <= minXP r2 /\
    (-5 < 0 -> GamificationRouter.getRankIn GamificationRouter.RANKS (-5) =
               GamificationRouter.RANKS !! O).
Proof.
  split; [exact RANKS_valid |]. split; [lia |].
  apply (getRank_monotone GamificationRouter.RANKS (-5) 650); [exact RANKS_valid | lia].
Defined.

(** [indexOf] finds a row of a list without repetitions where it is. *)
Lemma findIndex_from_NoDup (l : list Rank) (i : nat) (x : Rank) (k : Z) :
  NoDup l -> l !! i = Some x ->
  JS.findIndex_from (fun r => bool_decide (r = x)) l k = k + Z.of_nat i.
Proof.
  revert i k. induction l as [| y l IH]; intros i k Hnd Hi.
  - now rewrite lookup_nil in Hi.
  - apply NoDup_cons in Hnd as [Hnotin Hnd].
    cbn [JS.findIndex_from].
    destruct i as [| i]; cbn in Hi.
    + injection Hi as ->. rewrite bool_decide_eq_true_2 by reflexivity. lia.
    + rewrite bool_decide_eq_false_2.
      * rewrite (IH i (k + 1) Hnd Hi). lia.
      * intros ->. apply Hnotin, list_elem_of_lookup. now exists i.
Qed.

(** X4: on a valid table with distinct ids the two rank endpoints agree
    for every [xp]: [getRankInfo] of the features module returns the rank
    of [getRank] as current rank, the row of [getNextRank] as next rank and
    the same progress; at the last rank, where [getNextRank] is [null], it
    reports no next rank and a progress of 100. *)
Theorem getRankInfo_agrees_with_router (table : list Rank) (xp : Z) :
  valid_table table -> distinct_ids table ->
  exists info,
    Features.getRankInfoIn table xp = Some info /\
    GamificationRouter.getRankIn table xp = Some (Features.current info) /\
    match GamificationRouter.getNextRankIn table xp with
    | Some n =>
        Features.next info = Some (GamificationRouter.rank n) /\
        Features.progress info = GamificationRouter.progress n
    | None => Features.next info = None /\ Features.progress info = Some 100
    end.
Proof.
  intros Hvalid Hids.
  destruct (getRankIn_row table Hvalid xp) as (i & cur & Hi & Hres & Hcase).
  destruct Hvalid as [(r0 & Hr0 & Hmin0) Hinc] eqn:Hv. clear Hv.
  assert (Hfold : fold_left (fun c rank => if xp >=? minXP rank then rank else c) table r0 = cur).
  { destruct (fold_last xp table r0) as [(i' & Hi' & Hle' & Hlast') | [Hinit Hnone']].
    - destruct Hcase as [Hlast | [_ Hnone]].
      + now destruct (last_reached_unique table xp i' i _ cur
                        ltac:(split; [exact Hi' | split; assumption]) Hlast) as [_ ->].
      + specialize (Hnone i' _ Hi'). lia.
    - destruct Hcase as [(_ & Hle & _) | [-> _]].
      + specialize (Hnone' i cur Hi). lia.
      + rewrite Hinit. congruence. }
  apply lookup_lt_Some in Hi as Hlen.
  unfold Features.getRankInfoIn. rewrite Hr0. cbn [mbind option_bind]. rewrite Hfold.
  unfold Features.indexOf, JS.findIndex.
  rewrite (findIndex_from_NoDup table i cur 0 (valid_table_NoDup table Hvalid) Hi).
  eexists. split; [reflexivity |].
  cbn [Features.current Features.next Features.progress].
  split; [exact Hres |].
  unfold GamificationRouter.getNextRankIn. rewrite Hres.
  unfold JS.findIndex. rewrite (findIndex_from_distinct table i cur 0 Hids Hi).
  destruct (Z.eqb_spec (0 + Z.of_nat i) (Z.of_nat (length table) - 1)) as [Hlast | Hmore].
  - destruct (Z.ltb_spec (0 + Z.of_nat i) (Z.of_nat (length table) - 1)); [lia |].
    now split.
  - destruct (Z.ltb_spec (0 + Z.of_nat i) (Z.of_nat (length table) - 1)); [| lia].
    destruct (lookup_lt_is_Some_2 table (S i) ltac:(lia)) as [nxt Hnxt].
    replace (0 + Z.of_nat i + 1) with (Z.of_nat (S i)) by lia.
    rewrite index_nat, Hnxt. cbn [mbind option_bind GamificationRouter.rank
                                  GamificationRouter.progress].
    now split.
Qed.

Lemma getRankInfo_agrees_with_router_witness :
  valid_table GamificationRouter.RANKS /\ distinct_ids GamificationRouter.RANKS /\
  exists info,
    Features.getRankInfoIn GamificationRouter.RANKS 700 = Some info /\
    GamificationRouter.getRankIn GamificationRouter.RANKS 700 = Some (Features.current info) /\
    match GamificationRouter.getNextRankIn GamificationRouter.RANKS 700 with
    | Some n =>
        Features.next info = Some (GamificationRouter.rank n) /\
        Features.progress info = GamificationRouter.progress n
    | None => Features.next info = None /\ Features.progress info = Some 100
    end.
Proof.
  split; [exact RANKS_valid |]. split; [exact RANKS_distinct_ids |].
  apply (getRankInfo_agrees_with_router GamificationRouter.RANKS 700);
    [exact RANKS_valid | exact RANKS_distinct_ids].
Defined.

(** X5: for a user with [xp >= 0], on a valid table with distinct ids,
    [getRanks] lists the rows of the table in order, marks exactly one of
    them as current, the rank of [getRank], and marks as unlocked exactly
    the rows up to and including the current one. *)
Theorem getRanks_flags (table : list Rank) (user : option Db.User) :
  valid_table table -> distinct_ids table -> 0 <= JS.or_zero (Db.xp <$> user) ->
  length (GamificationRouter.getRanksIn table user) = length table /\
  exists i cur,
    table !! i = Some cur /\
    GamificationRouter.getRankIn table (JS.or_zero (Db.xp <$> user)) = Some cur /\
    forall j rowj,
      GamificationRouter.getRanksIn table user !! j = Some rowj ->
      table !! j = Some (GamificationRouter.row rowj) /\
      (GamificationRouter.isCurrent rowj = true <-> j = i) /\
      (GamificationRouter.isUnlocked rowj = true <-> (j <= i)%nat).
Proof.
  intros Hvalid Hids Hxp.
  set (xp := JS.or_zero (Db.xp <$> user)) in *.
  split; [unfold GamificationRouter.getRanksIn; apply length_fmap |].
  destruct (getRankIn_last_reached table xp Hvalid Hxp) as (i & cur & Hres & Hi & Hle & Hlast).
  exists i, cur. split; [exact Hi |]. split; [exact Hres |].
  intros j rowj Hj.
  unfold GamificationRouter.getRanksIn in Hj. rewrite list_lookup_fmap in Hj.
  destruct (table !! j) as [rj |] eqn:Htj; [| discriminate].
  cbn in Hj. injection Hj as <-. fold xp. rewrite Hres.
  cbn [GamificationRouter.row GamificationRouter.isCurrent GamificationRouter.isUnlocked].
  split; [reflexivity |]. split.
  - split.
    + intros Heq. apply String.eqb_eq in Heq.
      unfold distinct_ids in Hids.
      apply (proj1 (NoDup_alt (id <$> table)) Hids j i (id rj)).
      * rewrite list_lookup_fmap, Htj. reflexivity.
      * rewrite list_lookup_fmap, Hi. cbn. now rewrite Heq.
    + intros ->. replace rj with cur by congruence. apply String.eqb_refl.
  - split.
    + intros Hge. apply Z.geb_le in Hge.
      destruct (decide (j <= i)%nat) as [| Hgt]; [assumption |].
      specialize (Hlast j rj Htj ltac:(lia)). lia.
    + intros Hji. apply Z.geb_le.
      pose proof (minXP_index_mono table Hvalid j i rj cur Htj Hi Hji). lia.
Qed.

Lemma getRanks_flags_witness :
  valid_table GamificationRouter.RANKS /\ distinct_ids GamificationRouter.RANKS /\
  0 <= JS.or_zero (Db.xp <$> Some {| Db.xp := 300; Db.currentStreak := 0;
                                     Db.longestStreak := 0 |}) /\
  length (GamificationRouter.getRanksIn GamificationRouter.RANKS
            (Some {| Db.xp := 300; Db.currentStreak := 0; Db.longestStreak := 0 |})) =
    length GamificationRouter.RANKS /\
  exists i cur,
    GamificationRouter.RANKS !! i = Some cur /\
    GamificationRouter.getRankIn GamificationRouter.RANKS
      (JS.or_zero (Db.xp <$> Some {| Db.xp := 300; Db.currentStreak := 0;
                                     Db.longestStreak := 0 |})) = Some cur /\
    forall j rowj,
      GamificationRouter.getRanksIn GamificationRouter.RANKS
        (Some {| Db.xp := 300; Db.currentStreak := 0; Db.longestStreak := 0 |}) !! j
        = Some rowj ->
      GamificationRouter.RANKS !! j = Some (GamificationRouter.row rowj) /\
      (GamificationRouter.isCurrent rowj = true <-> j = i) /\
      (GamificationRouter.isUnlocked rowj = true <-> (j <= i)%nat).
Proof.
  split; [exact RANKS_valid |]. split; [exact RANKS_distinct_ids |].
  split; [cbn; lia |].
  apply (getRanks_flags GamificationRouter.RANKS
           (Some {| Db.xp := 300; Db.currentStreak := 0; Db.longestStreak := 0 |}));
    [exact RANKS_valid | exact RANKS_distinct_ids | cbn; lia].
Defined.

(** ** Daily bonus *)

(** X6: for a streak that is not negative the multiplier of the daily
    bonus is between 1 and 5, grows with the streak by one per full week
    and stays at 5 from a streak of 28 days on; the bonus is 10 gold and
    5 XP per unit of the multiplier; a user row that does not exist counts
    as a streak of 0. *)
Theorem dailyBonus_bounds (u1 u2 : Db.User) :
  0 <= Db.currentStreak u1 -> Db.currentStreak u1 <= Db.currentStreak u2 ->
  let b1 := GamificationRouter.dailyBonus (Some u1) in
  let b2 := GamificationRouter.dailyBonus (Some u2) in
  1 <= GamificationRouter.streakMultiplier b1 <= 5 /\
  GamificationRouter.streakMultiplier b1 <= GamificationRouter.streakMultiplier b2 /\
  (GamificationRouter.streakMultiplier b1 = 5 <-> 28 <= Db.currentStreak u1) /\
  (Db.currentStreak u1 < 28 ->
   GamificationRouter.streakMultiplier b1 = Db.currentStreak u1 / 7 + 1) /\
  GamificationRouter.goldReward b1 = 10 * GamificationRouter.streakMultiplier b1 /\
  GamificationRouter.xpReward b1 = 5 * GamificationRouter.streakMultiplier b1 /\
  GamificationRouter.streakMultiplier (GamificationRouter.dailyBonus None) = 1.
Proof.
  intros H0 H12. cbn zeta. unfold GamificationRouter.dailyBonus.
  cbn [GamificationRouter.streakMultiplier GamificationRouter.goldReward
       GamificationRouter.xpReward fmap option_fmap option_map JS.or_zero].
  pose proof (Z.div_pos (Db.currentStreak u1) 7 H0 ltac:(lia)) as Hd1.
  pose proof (Z.div_le_mono (Db.currentStreak u1) (Db.currentStreak u2) 7 ltac:(lia) H12).
  assert (Hcap : 4 <= Db.currentStreak u1 / 7 <-> 28 <= Db.currentStreak u1).
  { split; intros Hc.
    - pose proof (Z.mul_div_le (Db.currentStreak u1) 7 ltac:(lia)). lia.
    - apply (Z.div_le_lower_bound _ 7 4); lia. }
  repeat split; try reflexivity; try lia.
Qed.

Lemma dailyBonus_bounds_witness :
  0 <= 13 /\ 13 <= 30 /\
  let b1 := GamificationRouter.dailyBonus
              (Some {| Db.xp := 0; Db.currentStreak := 13; Db.longestStreak := 13 |}) in
  let b2 := GamificationRouter.dailyBonus
              (Some {| Db.xp := 0; Db.currentStreak := 30; Db.longestStreak := 30 |}) in
  1 <= GamificationRouter.streakMultiplier b1 <= 5 /\
  GamificationRouter.streakMultiplier b1 <= GamificationRouter.streakMultiplier b2 /\
  (GamificationRouter.streakMultiplier b1 = 5 <-> 28 <= 13) /\
  (13 < 28 -> GamificationRouter.streakMultiplier b1 = 13 / 7 + 1) /\
  GamificationRouter.goldReward b1 = 10 * GamificationRouter.streakMultiplier b1 /\
  GamificationRouter.xpReward b1 = 5 * GamificationRouter.streakMultiplier b1 /\
  GamificationRouter.streakMultiplier (GamificationRouter.dailyBonus None) = 1.
Proof.
  split; [lia |]. split; [lia |].
  apply (dailyBonus_bounds
           {| Db.xp := 0; Db.currentStreak := 13; Db.longestStreak := 13 |}
           {| Db.xp := 0; Db.currentStreak := 30; Db.longestStreak := 30 |}); cbn; lia.
Defined.

(** ** Streaks, continued *)

Section HabitStreak.

Import HabitsRouter.

#[local] Instance date_desc_transitive : Transitive Db.date_desc.
Proof. intros a b c. unfold Db.date_desc. lia. Qed.

#[local] Instance date_desc_total : Total Db.date_desc.
Proof. intros a b. unfold Db.date_desc. lia. Qed.

#[local] Instance later_first_antisymm : AntiSymm (=) later_first.
Proof. intros a b. unfold later_first. lia. Qed.

#[local] Instance later_first_transitive : Transitive later_first.
Proof. intros a b c. unfold later_first. lia. Qed.

#[local] Instance later_first_total : Total later_first.
Proof. intros a b. unfold later_first. lia. Qed.

(** [calculateStreak] reads the database, leaves it alone and returns what
    the loop returns (0 on no rows, as the loop does). *)
Lemma calculateStreak_loop (today : Z) (habitId userId : string) (db : Db.t) :
  calculateStreak today habitId userId db =
  (Db.Ok (streakLoop (findCompletions habitId userId db) 0 today), db).
Proof.
  unfold calculateStreak, mbind, M_bind, Db.bind, Db.query, Db.ret.
  now destruct (findCompletions habitId userId db).
Qed.

Lemma streakLoop_bounds (completions : list Db.HabitCompletion) (streak currentDate : Z) :
  streak <= streakLoop completions streak currentDate
         <= streak + Z.of_nat (length completions).
Proof.
  revert streak currentDate.
  induction completions as [| c rest IH]; intros streak currentDate; cbn [streakLoop length].
  - lia.
  - destruct (currentDate - Db.date c =? 0).
    + specialize (IH (streak + 1) (currentDate - 1)). lia.
    + destruct (currentDate - Db.date c =? 1).
      * specialize (IH (streak + 1) (Db.date c - 1)). lia.
      * lia.
Qed.

Lemma daysBack_S (start : Z) (n : nat) :
  daysBack start (S n) = start :: daysBack (start - 1) n.
Proof.
  unfold daysBack. cbn [seq fmap list_fmap]. f_equal; [f_equal; lia |].
  rewrite <- fmap_S_seq, <- list_fmap_compose.
  apply list_fmap_ext. intros _ k _. cbn. lia.
Qed.

Lemma daysBack_range (start : Z) (n : nat) (d : Z) :
  d ∈ daysBack start n -> start - Z.of_nat n < d <= start.
Proof.
  unfold daysBack. intros Hd.
  apply list_elem_of_fmap in Hd as (k & -> & Hk).
  apply elem_of_seq in Hk. lia.
Qed.

Lemma daysBack_sorted (start : Z) (n : nat) :
  StronglySorted later_first (daysBack start n).
Proof.
  revert start. induction n as [| n IH]; intros start.
  - constructor.
  - rewrite daysBack_S. constructor; [apply IH |].
    apply Forall_forall. intros d Hd. apply daysBack_range in Hd.
    unfold later_first. lia.
Qed.

(** From a cursor on the first day of an unbroken run of [n] days, with
    every other row at least two days behind the run, the loop counts the
    run. *)
Lemma streakLoop_run (n : nat) :
  forall (completions : list Db.HabitCompletion) (rest : list Z) (streak cursor : Z),
    Db.date <$> completions = daysBack cursor n ++ rest ->
    Forall (fun d => d < cursor - Z.of_nat n - 1) rest ->
    streakLoop completions streak cursor = streak + Z.of_nat n.
Proof.
  induction n as [| n IH]; intros completions rest streak cursor Hdates Hrest.
  - cbn in Hdates. destruct completions as [| c cs]; cbn [streakLoop]; [lia |].
    rewrite fmap_cons in Hdates. subst rest.
    apply Forall_cons in Hrest as [Hc _].
    destruct (Z.eqb_spec (cursor - Db.date c) 0); [lia |].
    destruct (Z.eqb_spec (cursor - Db.date c) 1); lia.
  - rewrite daysBack_S in Hdates.
    destruct completions as [| c cs]; [discriminate |].
    rewrite fmap_cons in Hdates. injection Hdates as Hc Hcs.
    cbn [streakLoop]. rewrite Hc, Z.sub_diag. cbn [Z.eqb].
    rewrite (IH cs rest (streak + 1) (cursor - 1) Hcs).
    + lia.
    + eapply Forall_impl; [exact Hrest |]. cbn. intros d Hd. lia.
Qed.

(** The rows [calculateStreak] walks, when the completed days of the habit
    are an unbroken run of [n <= 365] days from [start] down and days at
    least two days behind the run: the run, then some of the other days. *)
Lemma findCompletions_run (habitId userId : string) (db : Db.t)
    (start : Z) (n : nat) (older : list Z) :
  completedDays habitId userId db ≡ₚ daysBack start n ++ older ->
  Forall (fun d => d < start - Z.of_nat n - 1) older ->
  (n <= 365)%nat ->
  exists rest,
    Db.date <$> findCompletions habitId userId db = daysBack start n ++ rest /\
    Forall (fun d => d < start - Z.of_nat n - 1) rest.
Proof.
  intros Hperm Holder Hn.
  unfold findCompletions, completedDays in *.
  set (rows := filter _ (Db.habitCompletion db)) in *.
  assert (Hsorted : StronglySorted later_first (Db.date <$> merge_sort Db.date_desc rows)).
  { apply (StronglySorted_fmap Db.date Db.date_desc later_first).
    - intros x y Hxy. exact Hxy.
    - apply StronglySorted_merge_sort; typeclasses eauto. }
  assert (Htarget : StronglySorted later_first
                      (daysBack start n ++ merge_sort later_first older)).
  { apply StronglySorted_app. split; [| split].
    - intros d1 d2 Hd1 Hd2. apply daysBack_range in Hd1.
      rewrite merge_sort_Permutation in Hd2.
      pose proof (proj1 (Forall_forall _ _) Holder d2 Hd2) as Hd2'. cbn in Hd2'.
      unfold later_first. lia.
    - apply daysBack_sorted.
    - apply StronglySorted_merge_sort; typeclasses eauto. }
  assert (Heq : Db.date <$> merge_sort Db.date_desc rows =
                daysBack start n ++ merge_sort later_first older).
  { apply (StronglySorted_unique later_first); [exact Hsorted | exact Htarget |].
    rewrite (merge_sort_Permutation Db.date_desc rows), Hperm.
    now rewrite (merge_sort_Permutation later_first older). }
  exists (take (365 - n) (merge_sort later_first older)).
  split.
  - rewrite fmap_take, Heq, take_app.
    assert (Hlen : length (daysBack start n) = n).
    { unfold daysBack. now rewrite length_fmap, length_seq. }
    rewrite Hlen, take_ge by lia. reflexivity.
  - apply Forall_take.
    now rewrite (merge_sort_Permutation later_first older).
Qed.

End HabitStreak.

(** X7: [calculateStreak] only reads the database, and its streak is
    neither negative nor larger than the number of completed rows of the
    habit it fetched, of which there are at most 365. *)
Theorem calculateStreak_bounds (today : Z) (habitId userId : string) (db : Db.t) :
  exists streak,
    HabitsRouter.calculateStreak today habitId userId db = (Db.Ok streak, db) /\
    0 <= streak <= Z.of_nat (length (HabitsRouter.findCompletions habitId userId db)) /\
    streak <= Z.of_nat (length (completedDays habitId userId db)) /\
    streak <= 365.
Proof.
  eexists. split; [apply calculateStreak_loop |].
  pose proof (streakLoop_bounds (HabitsRouter.findCompletions habitId userId db) 0 today)
    as Hb.
  assert (Hlen : (length (HabitsRouter.findCompletions habitId userId db) <=
                  Nat.min 365 (length (completedDays habitId userId db)))%nat).
  { unfold HabitsRouter.findCompletions, completedDays.
    rewrite length_take, length_fmap.
    match goal with
    | |- context [merge_sort ?R ?l] =>
        rewrite (Permutation_length (merge_sort_Permutation R l))
    end.
    lia. }
  lia.
Qed.

(** X8: when the completed days of a habit are an unbroken run of [n]
    days (at most 365) whose latest day [start] is today or yesterday, and
    every other completed day is before [start - n - 1], so that the two
    days [start - n] and [start - n - 1] behind the run are both without a
    completion, [calculateStreak] returns [n]; in particular, with
    [n = 0] and [start] today, it returns 0 when neither today nor
    yesterday has a completion.  (One day without a completion behind the
    run is not enough: the walk steps over it, as it does on the days 10,
    9 and 7.) *)
Theorem calculateStreak_unbroken_run (today : Z) (habitId userId : string) (db : Db.t)
    (start : Z) (n : nat) (older : list Z) :
  start = today \/ start = today - 1 ->
  completedDays habitId userId db ≡ₚ daysBack start n ++ older ->
  Forall (fun d => d < start - Z.of_nat n - 1) older ->
  (n <= 365)%nat ->
  HabitsRouter.calculateStreak today habitId userId db = (Db.Ok (Z.of_nat n), db).
Proof.
  intros Hstart Hperm Holder Hn.
  rewrite calculateStreak_loop. do 2 f_equal.
  destruct (findCompletions_run habitId userId db start n older Hperm Holder Hn)
    as (rest & Hdates & Hrest).
  destruct Hstart as [-> | ->].
  - now rewrite (streakLoop_run n _ rest 0 today Hdates Hrest).
  - destruct n as [| n].
    + apply (streakLoop_run 0 _ rest 0 today); [exact Hdates |].
      eapply Forall_impl; [exact Hrest |]. cbn. intros d Hd. lia.
    + rewrite daysBack_S in Hdates.
      destruct (HabitsRouter.findCompletions habitId userId db) as [| c cs];
        [discriminate |].
      rewrite fmap_cons in Hdates. injection Hdates as Hc Hcs.
      cbn [HabitsRouter.streakLoop]. rewrite Hc.
      replace (today - (today - 1)) with 1 by lia. cbn [Z.eqb Pos.eqb].
      rewrite (streakLoop_run n cs rest (0 + 1) (today - 1 - 1) Hcs).
      * lia.
      * eapply Forall_impl; [exact Hrest |]. cbn. intros d Hd. lia.
Qed.

Lemma calculateStreak_unbroken_run_witness :
  (9 = 10 \/ 9 = 10 - 1) /\
  completedDays "h1" "u1" (history_db [9; 8; 7; 4; 3]) ≡ₚ daysBack 9 3 ++ [4; 3] /\
  Forall (fun d => d < 9 - Z.of_nat 3 - 1) [4; 3] /\
  (3 <= 365)%nat /\
  HabitsRouter.calculateStreak 10 "h1" "u1" (history_db [9; 8; 7; 4; 3]) =
    (Db.Ok (Z.of_nat 3), history_db [9; 8; 7; 4; 3]).
Proof.
  assert (Hperm : completedDays "h1" "u1" (history_db [9; 8; 7; 4; 3])
                  ≡ₚ daysBack 9 3 ++ [4; 3]) by reflexivity.
  assert (Hold : Forall (fun d => d < 9 - Z.of_nat 3 - 1) [4; 3]).
  { repeat constructor; cbn; lia. }
  split; [right; lia |]. split; [exact Hperm |]. split; [exact Hold |].
  split; [lia |].
  apply (calculateStreak_unbroken_run 10 "h1" "u1" (history_db [9; 8; 7; 4; 3])
           9 3 [4; 3]); [right; lia | exact Hperm | exact Hold | lia].
Defined.

(** The user-level streak is the length of the unbroken run of days
    with a completed row of the user, counted from today, or from
    yesterday when today has none yet, and cut off after the 365 days the
    walk visits. *)
Lemma userStreak_run (today : Z) (userId : string) (db : Db.t) :
  let done day := 0 < HabitsRouter.dayCount userId day db in
  let start := if HabitsRouter.dayCount userId today db >? 0 then today else today - 1 in
  let days := if HabitsRouter.dayCount userId today db >? 0 then 365 else 364 in
  let streak := HabitsRouter.userStreak today userId db in
  0 <= streak <= days /\
  (forall k, 0 <= k < streak -> done (start - k)) /\
  (streak < days -> ~ done (start - streak)).
Proof.
  intros done start days streak. subst done start days streak.
  unfold HabitsRouter.userStreak.
  pose proof (userStreakLoop_walk (fun day => HabitsRouter.dayCount userId day db)) as Hwalk.
  specialize (Hwalk 364%nat today). cbv zeta in Hwalk.
  change (Z.of_nat 365) with 365 in Hwalk. change (Z.of_nat 364) with 364 in Hwalk.
  destruct (HabitsRouter.dayCount userId today db >? 0);
    destruct Hwalk as (Hb & Hrun & Hend); (split; [exact Hb |]); (split; [exact Hrun |]);
    intros Hlt; specialize (Hend Hlt); lia.
Qed.

Lemma userStreak_same_history (today : Z) (userId : string) (db db' : Db.t) :
  Db.habitCompletion db' = Db.habitCompletion db ->
  HabitsRouter.userStreak today userId db' = HabitsRouter.userStreak today userId db.
Proof.
  intros Hsame. unfold HabitsRouter.userStreak, HabitsRouter.dayCount.
  now rewrite Hsame.
Qed.

Lemma activeHabits_same_habits (userId : string) (db db' : Db.t) :
  Db.habit db' = Db.habit db ->
  HabitsRouter.activeHabits userId db' = HabitsRouter.activeHabits userId db.
Proof. intros Hsame. unfold HabitsRouter.activeHabits. now rewrite Hsame. Qed.

Lemma userStreak_nonneg (today : Z) (userId : string) (db : Db.t) :
  0 <= HabitsRouter.userStreak today userId db <= 365.
Proof.
  pose proof (userStreak_run today userId db) as Hwalk. cbv zeta in Hwalk.
  destruct (HabitsRouter.dayCount userId today db >? 0); lia.
Qed.

(** X9: the user-level streak is the length of the unbroken run of days
    with a completed row of the user, counted from today, or from
    yesterday when today has none yet, and cut off after the 365 days the
    walk visits. *)
Theorem userStreak_walk (today : Z) (userId : string) (db : Db.t) :
  let done day := 0 < HabitsRouter.dayCount userId day db in
  let start := if HabitsRouter.dayCount userId today db >? 0 then today else today - 1 in
  let days := if HabitsRouter.dayCount userId today db >? 0 then 365 else 364 in
  let streak := HabitsRouter.userStreak today userId db in
  0 <= streak <= days /\
  (forall k, 0 <= k < streak -> done (start - k)) /\
  (streak < days -> ~ done (start - streak)).
Proof. exact (userStreak_run today userId db). Qed.

(** [updateUserStreak] touches nothing but the row of its user (the
    XP in it stays), leaves a current streak that is at most the longest
    streak whenever it recomputes, and is idempotent: a second run on the
    same day changes nothing more, also when the first one throws or
    returns early. *)
Lemma updateUserStreak_frame (today : Z) (userId : string) (db : Db.t) :
  let db1 := snd (HabitsRouter.updateUserStreak today userId db) in
  HabitsRouter.updateUserStreak today userId db1 =
    (fst (HabitsRouter.updateUserStreak today userId db), db1) /\
  Db.habit db1 = Db.habit db /\
  Db.habitCompletion db1 = Db.habitCompletion db /\
  Db.achievement db1 = Db.achievement db /\
  Db.userAchievement db1 = Db.userAchievement db /\
  Db.activityLog db1 = Db.activityLog db /\
  (forall other, other <> userId -> Db.user db1 !! other = Db.user db !! other) /\
  Db.xp <$> Db.user db1 !! userId = Db.xp <$> Db.user db !! userId /\
  (HabitsRouter.activeHabits userId db <> [] ->
   forall u1, Db.user db1 !! userId = Some u1 ->
              0 <= Db.currentStreak u1 <= Db.longestStreak u1).
Proof.
  cbv zeta.
  pose proof (userStreak_nonneg today userId db) as Hs.
  unfold HabitsRouter.updateUserStreak, mbind, M_bind, Db.bind, Db.query, Db.ret,
    Db.user_update.
  destruct (HabitsRouter.activeHabits userId db) as [| h hs] eqn:Hhabits.
  - cbn [length Nat.eqb fst snd]. rewrite Hhabits. cbn [length Nat.eqb].
    repeat (split; [reflexivity |]). intros Hne. now contradiction Hne.
  - cbn [length Nat.eqb].
    destruct (Db.user db !! userId) as [u |] eqn:Hu.
    + cbn [fst snd].
      match goal with
      | |- context [alter ?g userId (Db.user db)] => set (f := g)
      end.
      match goal with
      | |- context [HabitsRouter.activeHabits userId ?d] => set (db1 := d)
      end.
      assert (Hhabits1 : HabitsRouter.activeHabits userId db1 = h :: hs).
      { rewrite <- Hhabits. now apply activeHabits_same_habits. }
      assert (Hstreak1 : HabitsRouter.userStreak today userId db1 =
                         HabitsRouter.userStreak today userId db).
      { now apply userStreak_same_history. }
      assert (Hu1 : Db.user db1 !! userId = Some (f u)).
      { subst db1. cbn [Db.user]. now rewrite lookup_alter_eq, Hu. }
      rewrite Hhabits1. cbn [length Nat.eqb]. rewrite Hu1, Hstreak1.
      clear Hhabits1 Hstreak1 Hu1. subst db1 f.
      set (streak := HabitsRouter.userStreak today userId db) in *. clearbody streak.
      cbn [Db.habit Db.habitCompletion Db.user Db.achievement Db.userAchievement
           Db.activityLog fmap option_fmap option_map JS.or_zero Db.xp Db.currentStreak
           Db.longestStreak].
      split.
      * do 2 f_equal. apply map_eq. intros k.
        destruct (decide (k = userId)) as [-> | Hk].
        -- rewrite !lookup_alter_eq, Hu.
           cbn [fmap option_fmap option_map Db.xp Db.currentStreak Db.longestStreak].
           do 2 f_equal. lia.
        -- now rewrite !lookup_alter_ne by congruence.
      * repeat (split; [reflexivity |]).
        split; [intros other Hother; now rewrite lookup_alter_ne by congruence |].
        split; [reflexivity |].
        intros _ u1 Hu1. injection Hu1 as <-.
        cbn [Db.currentStreak Db.longestStreak]. lia.
    + cbn [fst snd]. rewrite Hhabits. cbn [length Nat.eqb]. rewrite Hu.
      repeat (split; [reflexivity |]).
      intros _ u1 Hu1. congruence.
Qed.

(** X10: [updateUserStreak] touches nothing but the row of its user (the
    XP in it stays), leaves a current streak that is at most the longest
    streak whenever it recomputes, and is idempotent: a second run on the
    same day changes nothing more, also when the first one throws or
    returns early. *)
Theorem updateUserStreak_idempotent (today : Z) (userId : string) (db : Db.t) :
  let db1 := snd (HabitsRouter.updateUserStreak today userId db) in
  HabitsRouter.updateUserStreak today userId db1 =
    (fst (HabitsRouter.updateUserStreak today userId db), db1) /\
  Db.habit db1 = Db.habit db /\
  Db.habitCompletion db1 = Db.habitCompletion db /\
  Db.achievement db1 = Db.achievement db /\
  Db.userAchievement db1 = Db.userAchievement db /\
  Db.activityLog db1 = Db.activityLog db /\
  (forall other, other <> userId -> Db.user db1 !! other = Db.user db !! other) /\
  Db.xp <$> Db.user db1 !! userId = Db.xp <$> Db.user db !! userId /\
  (HabitsRouter.activeHabits userId db <> [] ->
   forall u1, Db.user db1 !! userId = Some u1 ->
              0 <= Db.currentStreak u1 <= Db.longestStreak u1).
Proof. exact (updateUserStreak_frame today userId db). Qed.


(** ** Achievements, continued *)

Section AchievementAccounting.

Import HabitsRouter.

Variable userId : string.

(** The loop of [checkAchievements] again, now for what it awards: the XP
    of the user grows by the rewards of the achievements it unlocks, one
    log row is written for each, and no other user row changes. *)
Lemma unlock_loop_awards (user0 : option Db.User) (total : Z) (achs : list Db.Achievement) :
  forall (db : Db.t) (u : Db.User),
    Db.user db !! userId = Some u ->
    exists db' u',
      Db.forEach achs (fun a => if shouldUnlock user0 total a
                                then unlock userId a else Db.ret tt) db = (Db.Ok tt, db') /\
      Db.habit db' = Db.habit db /\
      Db.user db' !! userId = Some u' /\
      Db.xp u' = Db.xp u +
                 totalReward (filter (fun a => shouldUnlock user0 total a = true) achs) /\
      Db.longestStreak u' = Db.longestStreak u /\
      (forall other, other <> userId -> Db.user db' !! other = Db.user db !! other) /\
      Db.activityLog db' =
        Db.activityLog db ++
        (log_of userId <$> filter (fun a => shouldUnlock user0 total a = true) achs).
Proof.
  induction achs as [| a achs IH]; intros db u Hu.
  - exists db, u. cbn. rewrite app_nil_r, Z.add_0_r. repeat split; try assumption.
  - cbn [Db.forEach]. unfold Db.bind at 1.
    destruct (shouldUnlock user0 total a) eqn:Hs.
    + unfold unlock, mbind, M_bind, Db.bind, Db.user_update, Db.userAchievement_create,
        Db.activityLog_create. cbn [Db.user]. rewrite Hu.
      match goal with
      | |- context [Db.forEach achs _ ?d] => set (db1 := d)
      end.
      assert (Hu1 : Db.user db1 !! userId =
                    Some {| Db.xp := Db.xp u + Db.xpReward a;
                            Db.currentStreak := Db.currentStreak u;
                            Db.longestStreak := Db.longestStreak u |}).
      { subst db1. cbn [Db.user]. now rewrite lookup_alter_eq, Hu. }
      destruct (IH db1 _ Hu1)
        as (db' & u' & Hrun & Hhabit & Hu' & Hxp & Hlong & Hothers & Hlog).
      exists db', u'. split; [exact Hrun |].
      split; [now rewrite Hhabit |]. split; [exact Hu' |].
      rewrite filter_cons_True by exact Hs.
      split; [rewrite Hxp; unfold totalReward; cbn; lia |].
      split; [now rewrite Hlong |].
      split.
      * intros other Hother. rewrite (Hothers other Hother).
        subst db1. cbn [Db.user]. now rewrite lookup_alter_ne by congruence.
      * rewrite Hlog. subst db1. cbn [Db.activityLog].
        rewrite fmap_cons, <- app_assoc. reflexivity.
    + unfold Db.ret at 1.
      destruct (IH db u Hu)
        as (db' & u' & Hrun & Hhabit & Hu' & Hxp & Hlong & Hothers & Hlog).
      exists db', u'. split; [exact Hrun |].
      rewrite filter_cons_False by (rewrite Hs; discriminate).
      repeat (split; [assumption |]). exact Hlog.
Qed.

End AchievementAccounting.

(** For a user that exists, a run of [checkAchievements] adds to the
    user's XP exactly the rewards of the achievements it unlocks, writes
    one [achievement_unlocked] log row for each of them, in catalogue
    order, and changes neither the longest streak, nor the habits, nor the
    row of any other user. *)
Lemma checkAchievements_effect (db : Db.t) (userId : string) (u : Db.User) :
  Db.user db !! userId = Some u ->
  exists db1 u1,
    HabitsRouter.checkAchievements userId db = (Db.Ok tt, db1) /\
    Db.user db1 !! userId = Some u1 /\
    Db.xp u1 = Db.xp u + totalReward (HabitsRouter.newlyUnlocked userId db) /\
    Db.currentStreak u1 = Db.currentStreak u /\
    Db.longestStreak u1 = Db.longestStreak u /\
    Db.activityLog db1 =
      Db.activityLog db ++ (log_of userId <$> HabitsRouter.newlyUnlocked userId db) /\
    Db.habit db1 = Db.habit db /\
    Db.habitCompletion db1 = Db.habitCompletion db /\
    (forall other, other <> userId -> Db.user db1 !! other = Db.user db !! other).
Proof.
  intros Hu.
  destruct (unlock_loop_awards userId (Db.user db !! userId)
              (HabitsRouter.totalCompletions userId db)
              (HabitsRouter.lockedAchievements userId db) db u Hu)
    as (db1 & u1 & Hrun & Hhabit & Hu1 & Hxp & Hlong & Hothers & Hlog).
  destruct (unlock_loop userId (Db.user db !! userId)
              (HabitsRouter.totalCompletions userId db)
              (HabitsRouter.lockedAchievements userId db) db u Hu)
    as (db1' & u1' & Hrun' & Hhist & _ & Hu1' & Hstreak & _).
  assert (db1' = db1) by congruence. subst db1'.
  assert (u1' = u1) by congruence. subst u1'.
  exists db1, u1.
  split; [exact Hrun |]. split; [exact Hu1 |]. split; [exact Hxp |].
  split; [exact Hstreak |]. split; [exact Hlong |]. split; [exact Hlog |].
  split; [exact Hhabit |]. split; [exact Hhist |]. exact Hothers.
Qed.

(** X11: for a user that exists, a run of [checkAchievements] adds to the
    user's XP exactly the rewards of the achievements it unlocks, writes
    one [achievement_unlocked] log row for each of them, in catalogue
    order, and changes neither the longest streak, nor the habits, nor the
    row of any other user. *)
Theorem checkAchievements_awards (db : Db.t) (userId : string) (u : Db.User) :
  Db.user db !! userId = Some u ->
  exists db1 u1,
    HabitsRouter.checkAchievements userId db = (Db.Ok tt, db1) /\
    Db.user db1 !! userId = Some u1 /\
    Db.xp u1 = Db.xp u + totalReward (HabitsRouter.newlyUnlocked userId db) /\
    Db.currentStreak u1 = Db.currentStreak u /\
    Db.longestStreak u1 = Db.longestStreak u /\
    Db.activityLog db1 =
      Db.activityLog db ++ (log_of userId <$> HabitsRouter.newlyUnlocked userId db) /\
    Db.habit db1 = Db.habit db /\
    Db.habitCompletion db1 = Db.habitCompletion db /\
    (forall other, other <> userId -> Db.user db1 !! other = Db.user db !! other).
Proof. exact (checkAchievements_effect db userId u). Qed.


Lemma checkAchievements_awards_witness :
  Db.user sample_db !! "u1" =
    Some {| Db.xp := 30; Db.currentStreak := 2; Db.longestStreak := 5 |} /\
  exists db1 u1,
    HabitsRouter.checkAchievements "u1" sample_db = (Db.Ok tt, db1) /\
    Db.user db1 !! "u1" = Some u1 /\
    Db.xp u1 = 30 + totalReward (HabitsRouter.newlyUnlocked "u1" sample_db) /\
    Db.currentStreak u1 = 2 /\
    Db.longestStreak u1 = 5 /\
    Db.activityLog db1 =
      Db.activityLog sample_db ++
      (log_of "u1" <$> HabitsRouter.newlyUnlocked "u1" sample_db) /\
    Db.habit db1 = Db.habit sample_db /\
    Db.habitCompletion db1 = Db.habitCompletion sample_db /\
    (forall other, other <> "u1" -> Db.user db1 !! other = Db.user sample_db !! other).
Proof.
  split; [vm_compute; reflexivity |].
  apply (checkAchievements_awards sample_db "u1"
           {| Db.xp := 30; Db.currentStreak := 2; Db.longestStreak := 5 |}).
  vm_compute; reflexivity.
Defined.

(** ** The procedures of the habits router *)

Ltac run_procedure :=
  unfold mbind, Handlers_bind, Handlers.bind, Handlers.lift, Handlers.throw,
    Handlers.ret, Handlers.detached, Db.query;
  cbn [Handlers.db Handlers.habit_xpReward Handlers.userResource fst snd].

Section ProcedureLemmas.

Import HabitsRouter HabitsProcedures.



(** A habit [findHabit] returns is a row of the table with that id. *)
Lemma findHabit_Some (id : string) (db : Db.t) (h : Db.Habit) :
  findHabit id db = Some h -> h ∈ Db.habit db /\ Db.habit_id h = id.
Proof.
  unfold findHabit. intros Hhead.
  apply head_Some_elem_of in Hhead.
  apply list_elem_of_filter in Hhead as [Hid Hin]. now split.
Qed.




End ProcedureLemmas.

(** X13: [toggleCompletion] rejects a date after today with BAD_REQUEST
    and, for a date that is not, a habit that does not exist or belongs
    to another user with NOT_FOUND; in both cases nothing is written. *)
Theorem toggleCompletion_rejects (w : Handlers.t) (today : Z) (userId habitId : string)
    (inputDate : option Z) :
  let date := default today inputDate in
  (today < date ->
   HabitsProcedures.toggleCompletion today userId habitId inputDate w =
     (Db.Throw "BAD_REQUEST", w)) /\
  (date <= today ->
   (forall habit, HabitsProcedures.findHabit habitId (Handlers.db w) = Some habit ->
                  Db.habit_userId habit <> userId) ->
   HabitsProcedures.toggleCompletion today userId habitId inputDate w =
     (Db.Throw "NOT_FOUND", w)).
Proof.
  cbv zeta. destruct w as [db xr ur]. unfold HabitsProcedures.toggleCompletion.
  change (match inputDate with Some d => d | None => today end)
    with (default today inputDate).
  split.
  - intros Hfuture.
    destruct (Z.gtb_spec (default today inputDate) today) as [_ | ?]; [| lia].
    reflexivity.
  - intros Hpast Howner.
    destruct (Z.gtb_spec (default today inputDate) today) as [? | _]; [lia |].
    run_procedure.
    destruct (HabitsProcedures.findHabit habitId db) as [habit |] eqn:Hfind; [| reflexivity].
    specialize (Howner habit Hfind).
    destruct (String.eqb_spec (Db.habit_userId habit) userId) as [Heq | _];
      [now contradiction Howner | reflexivity].
Qed.

Section ProcedureSteps.

(** How a procedure runs a call of the database and goes on. *)
Lemma lift_run {A} (m : Db.M A) (db db' : Db.t) (xr : string -> Z)
    (ur : gmap (string * Handlers.ResourceType) Z) (r : Db.Result A) :
  m db = (r, db') ->
  Handlers.lift m {| Handlers.db := db; Handlers.habit_xpReward := xr;
                     Handlers.userResource := ur |} =
  (r, {| Handlers.db := db'; Handlers.habit_xpReward := xr; Handlers.userResource := ur |}).
Proof. intros Hm. unfold Handlers.lift. cbn [Handlers.db]. now rewrite Hm. Qed.

Lemma bind_run {A B} (m : Handlers.M A) (k : A -> Handlers.M B) (w w' : Handlers.t) (a : A) :
  m w = (Db.Ok a, w') -> Handlers.bind m k w = k a w'.
Proof. intros Hm. unfold Handlers.bind. now rewrite Hm. Qed.

Lemma bind_throw {A B} (m : Handlers.M A) (k : A -> Handlers.M B) (w w' : Handlers.t)
    (e : string) :
  m w = (Db.Throw e, w') -> Handlers.bind m k w = (Db.Throw e, w').
Proof. intros Hm. unfold Handlers.bind. now rewrite Hm. Qed.

End ProcedureSteps.

Section ProcedureSteps2.


Lemma user_update_run (userId : string) (f : Db.User -> Db.User) (db : Db.t) (u : Db.User) :
  Db.user db !! userId = Some u ->
  Db.user_update userId f db =
  (Db.Ok tt,
   {| Db.habit := Db.habit db;
      Db.habitCompletion := Db.habitCompletion db;
      Db.user := alter f userId (Db.user db);
      Db.achievement := Db.achievement db;
      Db.userAchievement := Db.userAchievement db;
      Db.activityLog := Db.activityLog db |}).
Proof. intros Hu. unfold Db.user_update. now rewrite Hu. Qed.

(** What a run of [updateUserStreak] leaves, for a user that exists. *)
Lemma updateUserStreak_run (today : Z) (userId : string) (db : Db.t) (u : Db.User) :
  Db.user db !! userId = Some u ->
  exists db' u',
    HabitsRouter.updateUserStreak today userId db = (Db.Ok tt, db') /\
    Db.user db' !! userId = Some u' /\
    Db.xp u' = Db.xp u /\
    Db.longestStreak u <= Db.longestStreak u' /\
    (HabitsRouter.activeHabits userId db <> [] ->
     Db.currentStreak u' = HabitsRouter.userStreak today userId db /\
     Db.currentStreak u' <= Db.longestStreak u') /\
    Db.habit db' = Db.habit db /\
    Db.habitCompletion db' = Db.habitCompletion db /\
    Db.achievement db' = Db.achievement db /\
    Db.userAchievement db' = Db.userAchievement db /\
    Db.activityLog db' = Db.activityLog db.
Proof.
  intros Hu.
  destruct (updateUserStreak_user db today userId u Hu)
    as (db' & u' & Hrun & Hu' & Hactive & _ & Hlong).
  pose proof (updateUserStreak_frame today userId db) as Hframe. cbv zeta in Hframe.
  rewrite Hrun in Hframe. cbn [fst snd] in Hframe.
  destruct Hframe as (_ & Hhabit & Hhist & Hcat & Hua & Hlog & _ & Hxp & Hinv).
  exists db', u'. split; [exact Hrun |]. split; [exact Hu' |].
  split; [rewrite Hu', Hu in Hxp; cbn in Hxp; congruence |].
  split; [exact Hlong |].
  split.
  - intros Hne. destruct (Hactive Hne) as [Hcur _]. split; [exact Hcur |].
    apply (Hinv Hne u' Hu').
  - repeat (split; [assumption |]). exact Hlog.
Qed.

End ProcedureSteps2.







(** Toggling off.  For a habit of the user, a day up to today that has a
    row for the habit and a user that exists, [toggleCompletion] succeeds
    with [completed = false] and minus the XP reward; it deletes the row
    it found, the first one for that habit and day, and takes the reward
    from the user's XP, whatever is left of it; the unlocked achievements
    stay. *)
Lemma toggleCompletion_off (w : Handlers.t) (today : Z) (userId habitId : string)
    (inputDate : option Z) (habit : Db.Habit) (existing : Db.HabitCompletion) (u : Db.User) :
  let date := default today inputDate in
  let xpReward := Handlers.habit_xpReward w habitId in
  date <= today ->
  HabitsProcedures.findHabit habitId (Handlers.db w) = Some habit ->
  Db.habit_userId habit = userId ->
  HabitsProcedures.findCompletion habitId date (Handlers.db w) = Some existing ->
  Db.user (Handlers.db w) !! userId = Some u ->
  exists w' u',
    HabitsProcedures.toggleCompletion today userId habitId inputDate w =
      (Db.Ok {| HabitsProcedures.completed := false;
                HabitsProcedures.xpChange := - xpReward |}, w') /\
    Db.habitCompletion (Handlers.db w') =
      HabitsProcedures.remove_first
        (fun c => bool_decide (Db.hc_habitId c = habitId /\ Db.date c = date))
        (Db.habitCompletion (Handlers.db w)) /\
    Db.habit (Handlers.db w') = Db.habit (Handlers.db w) /\
    Handlers.userResource w' = Handlers.userResource w /\
    Handlers.habit_xpReward w' = Handlers.habit_xpReward w /\
    Db.user (Handlers.db w') !! userId = Some u' /\
    Db.xp u' = Db.xp u - xpReward /\
    Db.longestStreak u <= Db.longestStreak u' /\
    Db.userAchievement (Handlers.db w') = Db.userAchievement (Handlers.db w) /\
    Db.activityLog (Handlers.db w') = Db.activityLog (Handlers.db w).
Proof.
  cbv zeta. destruct w as [db xr ur].
  cbn [Handlers.db Handlers.habit_xpReward Handlers.userResource].
  intros Hpast Hfind Howner Hsome Hu.
  unfold HabitsProcedures.toggleCompletion.
  change (match inputDate with Some d => d | None => today end)
    with (default today inputDate).
  set (date := default today inputDate) in *.
  destruct (Z.gtb_spec date today) as [? | _]; [lia |].
  unfold mbind, Handlers_bind.
  erewrite bind_run; [| apply lift_run; reflexivity].
  rewrite Hfind.
  destruct (String.eqb_spec (Db.habit_userId habit) userId) as [_ | ?]; [| contradiction].
  cbn [negb].
  erewrite bind_run; [| reflexivity]. cbn [Handlers.habit_xpReward].
  erewrite bind_run; [| apply lift_run; reflexivity].
  rewrite Hsome.
  erewrite bind_run; [| apply lift_run; reflexivity].
  match goal with
  | |- context [Handlers.bind _ _ {| Handlers.db := ?d; Handlers.habit_xpReward := _;
                                     Handlers.userResource := _ |}] => set (d1 := d)
  end.
  assert (Hu1 : Db.user d1 !! userId = Some u) by exact Hu.
  erewrite bind_run; [| apply lift_run; apply (user_update_run _ _ d1 u Hu1)].
  match goal with
  | |- context [Handlers.bind _ _ {| Handlers.db := ?d; Handlers.habit_xpReward := _;
                                     Handlers.userResource := _ |}] => set (d2 := d)
  end.
  set (u2 := {| Db.xp := Db.xp u - xr habitId;
                Db.currentStreak := Db.currentStreak u;
                Db.longestStreak := Db.longestStreak u |}).
  assert (Hu2 : Db.user d2 !! userId = Some u2).
  { subst d2. cbn [Db.user]. now rewrite lookup_alter_eq, Hu1. }
  destruct (updateUserStreak_run today userId d2 u2 Hu2)
    as (d3 & u3 & Hrun3 & Hu3 & Hxp3 & Hlong3 & _ & Hhabit3 & Hhist3 & _ & Hua3 & Hlog3).
  erewrite bind_run; [| apply lift_run; exact Hrun3].
  unfold Handlers.ret.
  eexists _, u3. split; [reflexivity |].
  cbn [Handlers.db Handlers.userResource Handlers.habit_xpReward].
  split; [rewrite Hhist3; reflexivity |].
  split; [rewrite Hhabit3; reflexivity |].
  split; [reflexivity |]. split; [reflexivity |]. split; [exact Hu3 |].
  split; [rewrite Hxp3; reflexivity |].
  split; [exact Hlong3 |].
  split; [rewrite Hua3; reflexivity | rewrite Hlog3; reflexivity].
Qed.

(** X15: toggling off (see [toggleCompletion_off]): the row found is
    deleted, the XP reward of the habit is taken from the user's XP
    without a lower bound, and neither the unlocked achievements nor the
    activity log change. *)
Theorem toggleCompletion_uncompletes (w : Handlers.t) (today : Z) (userId habitId : string)
    (inputDate : option Z) (habit : Db.Habit) (existing : Db.HabitCompletion) (u : Db.User) :
  let date := default today inputDate in
  let xpReward := Handlers.habit_xpReward w habitId in
  date <= today ->
  HabitsProcedures.findHabit habitId (Handlers.db w) = Some habit ->
  Db.habit_userId habit = userId ->
  HabitsProcedures.findCompletion habitId date (Handlers.db w) = Some existing ->
  Db.user (Handlers.db w) !! userId = Some u ->
  exists w' u',
    HabitsProcedures.toggleCompletion today userId habitId inputDate w =
      (Db.Ok {| HabitsProcedures.completed := false;
                HabitsProcedures.xpChange := - xpReward |}, w') /\
    Db.habitCompletion (Handlers.db w') =
      HabitsProcedures.remove_first
        (fun c => bool_decide (Db.hc_habitId c = habitId /\ Db.date c = date))
        (Db.habitCompletion (Handlers.db w)) /\
    Db.habit (Handlers.db w') = Db.habit (Handlers.db w) /\
    Handlers.userResource w' = Handlers.userResource w /\
    Handlers.habit_xpReward w' = Handlers.habit_xpReward w /\
    Db.user (Handlers.db w') !! userId = Some u' /\
    Db.xp u' = Db.xp u - xpReward /\
    Db.longestStreak u <= Db.longestStreak u' /\
    Db.userAchievement (Handlers.db w') = Db.userAchievement (Handlers.db w) /\
    Db.activityLog (Handlers.db w') = Db.activityLog (Handlers.db w).
Proof. exact (toggleCompletion_off w today userId habitId inputDate habit existing u). Qed.

Lemma toggleCompletion_uncompletes_witness :
  let date := default 11 (Some 10) in
  let xpReward := Handlers.habit_xpReward sample_world "h1" in
  date <= 11 /\
  HabitsProcedures.findHabit "h1" (Handlers.db sample_world) =
    Some {| Db.habit_id := "h1"; Db.habit_userId := "u1"; Db.isArchived := false |} /\
  HabitsProcedures.findCompletion "h1" date (Handlers.db sample_world) = Some (done_on 10) /\
  Db.user (Handlers.db sample_world) !! "u1" =
    Some {| Db.xp := 30; Db.currentStreak := 2; Db.longestStreak := 5 |} /\
  exists w' u',
    HabitsProcedures.toggleCompletion 11 "u1" "h1" (Some 10) sample_world =
      (Db.Ok {| HabitsProcedures.completed := false;
                HabitsProcedures.xpChange := - xpReward |}, w') /\
    Db.habitCompletion (Handlers.db w') =
      HabitsProcedures.remove_first
        (fun c => bool_decide (Db.hc_habitId c = "h1" /\ Db.date c = date))
        (Db.habitCompletion (Handlers.db sample_world)) /\
    Db.habit (Handlers.db w') = Db.habit (Handlers.db sample_world) /\
    Handlers.userResource w' = Handlers.userResource sample_world /\
    Handlers.habit_xpReward w' = Handlers.habit_xpReward sample_world /\
    Db.user (Handlers.db w') !! "u1" = Some u' /\
    Db.xp u' = 30 - xpReward /\
    5 <= Db.longestStreak u' /\
    Db.userAchievement (Handlers.db w') = Db.userAchievement (Handlers.db sample_world) /\
    Db.activityLog (Handlers.db w') = Db.activityLog (Handlers.db sample_world).
Proof.
  cbv zeta.
  split; [vm_compute; discriminate |]. split; [reflexivity |]. split; [reflexivity |].
  split; [vm_compute; reflexivity |].
  apply (toggleCompletion_uncompletes sample_world 11 "u1" "h1" (Some 10)
           {| Db.habit_id := "h1"; Db.habit_userId := "u1"; Db.isArchived := false |}
           (done_on 10)
           {| Db.xp := 30; Db.currentStreak := 2; Db.longestStreak := 5 |});
    [vm_compute; discriminate | reflexivity | reflexivity | reflexivity
    | vm_compute; reflexivity].
Defined.



(** ** Archiving and restoring a habit *)

Section Archive.

Import HabitsProcedures.

Lemma habit_setArchived_run (id : string) (archived : bool) (db : Db.t) (habit : Db.Habit) :
  findHabit id db = Some habit ->
  exists db',
    habit_setArchived id archived db =
      (Db.Ok {| Db.habit_id := Db.habit_id habit; Db.habit_userId := Db.habit_userId habit;
                Db.isArchived := archived |}, db') /\
    Db.habit db' = set_archived id archived <$> Db.habit db /\
    Db.habitCompletion db' = Db.habitCompletion db /\
    Db.user db' = Db.user db.
Proof.
  intros Hfind. unfold habit_setArchived. rewrite Hfind.
  eexists. split; [reflexivity |]. now repeat split.
Qed.

Lemma set_archived_round_trip (id : string) (habits : list Db.Habit) :
  Forall (fun h => Db.habit_id h = id -> Db.isArchived h = false) habits ->
  set_archived id false <$> (set_archived id true <$> habits) = habits.
Proof.
  intros Hactive. rewrite <- list_fmap_compose.
  induction Hactive as [| h l Hh _ IH]; [reflexivity |].
  rewrite fmap_cons, IH. f_equal.
  unfold compose, set_archived.
  destruct (decide (Db.habit_id h = id)) as [Hid | Hid].
  - rewrite (bool_decide_eq_true_2 _ Hid). cbn [Db.habit_id].
    rewrite (bool_decide_eq_true_2 _ Hid). cbn.
    destruct h as [hid huser harch]. cbn in *. now rewrite (Hh Hid).
  - rewrite !(bool_decide_eq_false_2 _ Hid). reflexivity.
Qed.

Lemma findHabit_set_archived (id : string) (archived : bool) (db db' : Db.t) (habit : Db.Habit) :
  findHabit id db = Some habit ->
  Db.habit db' = set_archived id archived <$> Db.habit db ->
  findHabit id db' =
    Some {| Db.habit_id := Db.habit_id habit; Db.habit_userId := Db.habit_userId habit;
            Db.isArchived := archived |}.
Proof.
  unfold findHabit. intros Hfind Hrows. rewrite Hrows. clear Hrows.
  induction (Db.habit db) as [| h l IH]; [discriminate |].
  rewrite fmap_cons.
  destruct (decide (Db.habit_id h = id)) as [Hid | Hid].
  - rewrite filter_cons_True in Hfind by exact Hid. injection Hfind as ->.
    unfold set_archived at 1. rewrite (bool_decide_eq_true_2 _ Hid).
    rewrite filter_cons_True by exact Hid. reflexivity.
  - rewrite filter_cons_False in Hfind by exact Hid.
    unfold set_archived at 1. rewrite (bool_decide_eq_false_2 _ Hid).
    rewrite filter_cons_False by exact Hid. now apply IH.
Qed.

End Archive.

(** X17: [archive] answers NOT_FOUND, and writes nothing, for a habit
    that does not exist or belongs to another user; for a habit of the
    user it returns the row with [isArchived] set, after which no active
    habit of the user has that id, while completions and users are
    untouched. *)
Theorem archive_owner_only (w : Handlers.t) (userId id : string) :
  match HabitsProcedures.findHabit id (Handlers.db w) with
  | None => HabitsProcedures.archive userId id w = (Db.Throw "NOT_FOUND", w)
  | Some habit =>
      (Db.habit_userId habit <> userId ->
       HabitsProcedures.archive userId id w = (Db.Throw "NOT_FOUND", w)) /\
      (Db.habit_userId habit = userId ->
       exists w',
         HabitsProcedures.archive userId id w =
           (Db.Ok {| Db.habit_id := Db.habit_id habit;
                     Db.habit_userId := Db.habit_userId habit;
                     Db.isArchived := true |}, w') /\
         (forall h, h ∈ HabitsRouter.activeHabits userId (Handlers.db w') ->
                    Db.habit_id h <> id) /\
         Db.habitCompletion (Handlers.db w') = Db.habitCompletion (Handlers.db w) /\
         Db.user (Handlers.db w') = Db.user (Handlers.db w))
  end.
Proof.
  destruct w as [db xr ur]. cbn [Handlers.db].
  unfold HabitsProcedures.archive, mbind, Handlers_bind.
  erewrite bind_run; [| apply lift_run; reflexivity].
  destruct (HabitsProcedures.findHabit id db) as [habit |] eqn:Hfind; [| reflexivity].
  split.
  - intros Hother.
    destruct (String.eqb_spec (Db.habit_userId habit) userId); [contradiction | reflexivity].
  - intros Howner.
    destruct (String.eqb_spec (Db.habit_userId habit) userId); [| contradiction].
    cbn [negb].
    destruct (habit_setArchived_run id true db habit Hfind)
      as (db' & Hrun & Hrows & Hhist & Husers).
    erewrite lift_run by exact Hrun.
    eexists. split; [reflexivity |]. cbn [Handlers.db].
    split; [| now split].
    intros h Hh Hid. unfold HabitsRouter.activeHabits in Hh.
    apply list_elem_of_filter in Hh as [[_ Hactive] Hin].
    rewrite Hrows in Hin. apply list_elem_of_fmap in Hin as (h0 & -> & _).
    unfold HabitsProcedures.set_archived in Hid, Hactive.
    destruct (decide (Db.habit_id h0 = id)) as [Hid0 | Hid0].
    + rewrite (bool_decide_eq_true_2 _ Hid0) in Hactive. discriminate.
    + rewrite (bool_decide_eq_false_2 _ Hid0) in Hid. contradiction.
Qed.

(** X18: [restore] does not check who calls: for every habit that exists
    it succeeds and returns the row with [isArchived] cleared, and it
    throws only when no habit has the id.  After [archive] by the owner of
    a habit that was active it puts the habit table back as it was. *)
Theorem restore_any_caller (w : Handlers.t) (userId id : string) (habit : Db.Habit) :
  HabitsProcedures.findHabit id (Handlers.db w) = Some habit ->
  (exists w',
     HabitsProcedures.restore id w =
       (Db.Ok {| Db.habit_id := Db.habit_id habit;
                 Db.habit_userId := Db.habit_userId habit;
                 Db.isArchived := false |}, w')) /\
  (forall w0, HabitsProcedures.findHabit id (Handlers.db w0) = None ->
              HabitsProcedures.restore id w0 = (Db.Throw "RecordNotFound", w0)) /\
  (Db.habit_userId habit = userId ->
   Forall (fun h => Db.habit_id h = id -> Db.isArchived h = false)
          (Db.habit (Handlers.db w)) ->
   exists w1 w2 h1 h2,
     HabitsProcedures.archive userId id w = (Db.Ok h1, w1) /\
     HabitsProcedures.restore id w1 = (Db.Ok h2, w2) /\
     Db.habit (Handlers.db w2) = Db.habit (Handlers.db w) /\
     h2 = habit).
Proof.
  intros Hfind. destruct w as [db xr ur]. cbn [Handlers.db] in *.
  split; [| split].
  - destruct (habit_setArchived_run id false db habit Hfind) as (db' & Hrun & _).
    unfold HabitsProcedures.restore. erewrite lift_run by exact Hrun. now eexists.
  - intros [db0 xr0 ur0] Hnone. cbn [Handlers.db] in Hnone.
    unfold HabitsProcedures.restore.
    erewrite lift_run; [reflexivity |].
    unfold HabitsProcedures.habit_setArchived. now rewrite Hnone.
  - intros Howner Hactive.
    destruct (habit_setArchived_run id true db habit Hfind)
      as (db1 & Hrun1 & Hrows1 & _).
    pose proof (findHabit_set_archived id true db db1 habit Hfind Hrows1) as Hfind1.
    destruct (habit_setArchived_run id false db1 _ Hfind1)
      as (db2 & Hrun2 & Hrows2 & _).
    cbn [Db.habit_id Db.habit_userId] in Hrun2.
    eexists _, _, _, _.
    split.
    { unfold HabitsProcedures.archive, mbind, Handlers_bind.
      erewrite bind_run; [| apply lift_run; reflexivity].
      rewrite Hfind.
      destruct (String.eqb_spec (Db.habit_userId habit) userId); [| contradiction].
      cbn [negb]. erewrite lift_run by exact Hrun1. reflexivity. }
    split.
    { unfold HabitsProcedures.restore. erewrite lift_run by exact Hrun2. reflexivity. }
    cbn [Handlers.db].
    split; [rewrite Hrows2, Hrows1; now apply set_archived_round_trip |].
    destruct (findHabit_Some id db habit Hfind) as [Hin Hid].
    pose proof (proj1 (Forall_forall _ _) Hactive habit Hin Hid) as Harch.
    destruct habit as [hid huser harch]. cbn in *. now subst harch.
Qed.

Lemma restore_any_caller_witness :
  HabitsProcedures.findHabit "h1" (Handlers.db sample_world) =
    Some {| Db.habit_id := "h1"; Db.habit_userId := "u1"; Db.isArchived := false |} /\
  (exists w',
     HabitsProcedures.restore "h1" sample_world =
       (Db.Ok {| Db.habit_id := "h1"; Db.habit_userId := "u1"; Db.isArchived := false |},
        w')) /\
  (forall w0, HabitsProcedures.findHabit "h1" (Handlers.db w0) = None ->
              HabitsProcedures.restore "h1" w0 = (Db.Throw "RecordNotFound", w0)) /\
  ("u1" = "u1" ->
   Forall (fun h => Db.habit_id h = "h1" -> Db.isArchived h = false)
          (Db.habit (Handlers.db sample_world)) ->
   exists w1 w2 h1 h2,
     HabitsProcedures.archive "u1" "h1" sample_world = (Db.Ok h1, w1) /\
     HabitsProcedures.restore "h1" w1 = (Db.Ok h2, w2) /\
     Db.habit (Handlers.db w2) = Db.habit (Handlers.db sample_world) /\
     h2 = {| Db.habit_id := "h1"; Db.habit_userId := "u1"; Db.isArchived := false |}).
Proof.
  split; [reflexivity |].
  apply (restore_any_caller sample_world "u1" "h1"
           {| Db.habit_id := "h1"; Db.habit_userId := "u1"; Db.isArchived := false |}).
  reflexivity.
Defined.

(** ** The procedures of the gamification router *)

Section Resources.

Import Handlers GamificationProcedures.

(** X19: [addResource] answers BAD_REQUEST and writes nothing when the
    amount is below 1.  Otherwise [getResources], which reports 0 for a
    resource type without a row, reports after [addResource] the old
    amount plus the amount added for that type (the amount itself when
    there was no row), and what it reported before for every other type
    and every other user; the database is not touched. *)
Theorem addResource_getResources (w : Handlers.t) (userId : string)
    (resourceType : ResourceType) (amount : Z) :
  (amount < 1 ->
   addResource userId resourceType amount w = (Db.Throw "BAD_REQUEST", w)) /\
  (1 <= amount ->
   exists before after w',
     getResources userId w = (Db.Ok before, w) /\
     addResource userId resourceType amount w = (Db.Ok (before resourceType + amount), w') /\
     getResources userId w' = (Db.Ok after, w') /\
     after resourceType = before resourceType + amount /\
     (forall other, other <> resourceType -> after other = before other) /\
     (forall t, userResource w !! (userId, t) = None -> before t = 0) /\
     (forall user t, user <> userId ->
        userResource w' !! (user, t) = userResource w !! (user, t)) /\
     Handlers.db w' = Handlers.db w).
Proof.
  split.
  { intros Hlow. unfold addResource.
    destruct (Z.ltb_spec amount 1); [reflexivity | lia]. }
  intros Hamount.
  assert (Hadd : addResource userId resourceType amount w =
            (Db.Ok (match userResource w !! (userId, resourceType) with
                    | Some old => old + amount
                    | None => amount
                    end),
             {| Handlers.db := Handlers.db w;
                habit_xpReward := habit_xpReward w;
                userResource :=
                  <[(userId, resourceType) :=
                      match userResource w !! (userId, resourceType) with
                      | Some old => old + amount
                      | None => amount
                      end]> (userResource w) |})).
  { unfold addResource. destruct (Z.ltb_spec amount 1); [lia | reflexivity]. }
  exists (fun t => default 0 (userResource w !! (userId, t))),
         (fun t => default 0 (userResource (snd (addResource userId resourceType amount w))
                              !! (userId, t))),
         (snd (addResource userId resourceType amount w)).
  split; [reflexivity |].
  rewrite Hadd. cbn [snd userResource Handlers.db].
  split.
  { destruct (userResource w !! (userId, resourceType)) eqn:Hrow; reflexivity. }
  split; [reflexivity |].
  split.
  { rewrite lookup_insert_eq.
    destruct (userResource w !! (userId, resourceType)); reflexivity. }
  split.
  { intros other Hother. now rewrite lookup_insert_ne by congruence. }
  split.
  { intros t Hnone. now rewrite Hnone. }
  split; [| reflexivity].
  intros user t Huser. now rewrite lookup_insert_ne by congruence.
Qed.

Lemma addResource_getResources_witness :
  -5 < 1 /\
  addResource "u1" GOLD (-5) sample_world = (Db.Throw "BAD_REQUEST", sample_world) /\
  1 <= 5 /\
  exists before after w',
    getResources "u1" sample_world = (Db.Ok before, sample_world) /\
    addResource "u1" GOLD 5 sample_world = (Db.Ok (before GOLD + 5), w') /\
    getResources "u1" w' = (Db.Ok after, w') /\
    after GOLD = before GOLD + 5 /\
    (forall other, other <> GOLD -> after other = before other) /\
    (forall t, userResource sample_world !! ("u1", t) = None -> before t = 0) /\
    (forall user t, user <> "u1" ->
       userResource w' !! (user, t) = userResource sample_world !! (user, t)) /\
    Handlers.db w' = Handlers.db sample_world.
Proof.
  split; [lia |].
  split; [apply (addResource_getResources sample_world "u1" GOLD (-5)); lia |].
  split; [lia |].
  apply (addResource_getResources sample_world "u1" GOLD 5). lia.
Defined.

End Resources.

Section RepairStreak.

Import Handlers GamificationProcedures.

Variable userId : string.
Variable target : Z.

Lemma filter_fmap_same {A} (P : A -> Prop) `{forall x, Decision (P x)} (f : A -> A)
    (l : list A) :
  (forall x, P (f x) <-> P x) -> (forall x, P x -> f x = x) ->
  filter P (f <$> l) = filter P l.
Proof.
  intros Hiff Hfix. induction l as [| x l IH]; [reflexivity |].
  rewrite fmap_cons. destruct (decide (P x)) as [Hx | Hx].
  - rewrite (filter_cons_True P (f x)) by now apply Hiff.
    rewrite (filter_cons_True P x) by exact Hx. now rewrite IH, Hfix.
  - rewrite (filter_cons_False P (f x)) by now rewrite Hiff.
    rewrite (filter_cons_False P x) by exact Hx. exact IH.
Qed.

(** One upsert: the habit gets its completed row on the target day, the
    rows other habits have there stay, the other days and tables are not
    touched. *)
Lemma upsertCompleted_step (habitId : string) (db : Db.t) :
  exists db',
    upsertCompleted userId habitId target db = (Db.Ok tt, db') /\
    completedOn target (Db.habitCompletion db') habitId /\
    (forall x, completedOn target (Db.habitCompletion db) x -> completedOn target (Db.habitCompletion db') x) /\
    filter (fun c => Db.date c <> target) (Db.habitCompletion db') =
      filter (fun c => Db.date c <> target) (Db.habitCompletion db) /\
    Db.habit db' = Db.habit db /\ Db.user db' = Db.user db /\
    Db.userAchievement db' = Db.userAchievement db /\
    Db.activityLog db' = Db.activityLog db.
Proof.
  unfold upsertCompleted.
  destruct (HabitsProcedures.findCompletion habitId target db) as [existing |] eqn:Hfind.
  - eexists. split; [reflexivity |]. cbn [Db.habitCompletion Db.habit Db.user
                                           Db.userAchievement Db.activityLog].
    set (mark := fun c : Db.HabitCompletion =>
                   if bool_decide (Db.hc_habitId c = habitId /\ Db.date c = target)
                   then {| Db.hc_habitId := Db.hc_habitId c; Db.hc_userId := Db.hc_userId c;
                           Db.date := Db.date c; Db.completed := true |}
                   else c).
    assert (Hmark : forall c, Db.hc_habitId (mark c) = Db.hc_habitId c /\
                              Db.date (mark c) = Db.date c /\
                              (Db.completed c = true -> Db.completed (mark c) = true) /\
                              (Db.hc_habitId c = habitId -> Db.date c = target ->
                               Db.completed (mark c) = true) /\
                              (Db.date c <> target -> mark c = c)).
    { intros c. subst mark. cbn beta.
      destruct (decide (Db.hc_habitId c = habitId /\ Db.date c = target)) as [Hm | Hm].
      - rewrite (bool_decide_eq_true_2 _ Hm). cbn. repeat split; try reflexivity.
        intros Hd. now destruct Hm.
      - rewrite (bool_decide_eq_false_2 _ Hm). repeat split; try reflexivity; try tauto. }
    split; [| split; [| split; [| now repeat split]]].
    + unfold HabitsProcedures.findCompletion in Hfind.
      apply head_Some_elem_of, list_elem_of_filter in Hfind as [[Hid Hdate] Hin].
      exists (mark existing). destruct (Hmark existing) as (Hi & Hd & _ & Hc & _).
      split; [now apply list_elem_of_fmap_2 |].
      split; [congruence |]. split; [congruence |]. now apply Hc.
    + intros x (c & Hin & Hid & Hdate & Hdone).
      exists (mark c). destruct (Hmark c) as (Hi & Hd & Hc & _ & _).
      split; [now apply list_elem_of_fmap_2 |].
      split; [congruence |]. split; [congruence |]. now apply Hc.
    + apply filter_fmap_same.
      * intros c. destruct (Hmark c) as (_ & Hd & _). now rewrite Hd.
      * intros c Hc. now apply (Hmark c).
  - eexists. split; [reflexivity |]. cbn [Db.habitCompletion Db.habit Db.user
                                           Db.userAchievement Db.activityLog].
    split; [| split; [| split; [| now repeat split]]].
    + eexists. split; [apply elem_of_app; right; apply list_elem_of_here |].
      now repeat split.
    + intros x (c & Hin & Hrest). exists c. split; [| exact Hrest].
      apply elem_of_app. now left.
    + rewrite filter_app, filter_cons_False by (cbn; tauto).
      now rewrite filter_nil, app_nil_r.
Qed.

(** The loop of [repairStreak] over the habits. *)
Lemma upsertCompleted_loop (habits : list Db.Habit) :
  forall db,
    exists db',
      Db.forEach habits (fun habit => upsertCompleted userId (Db.habit_id habit) target) db
        = (Db.Ok tt, db') /\
      (forall h, h ∈ habits -> completedOn target (Db.habitCompletion db') (Db.habit_id h)) /\
      (forall x, completedOn target (Db.habitCompletion db) x -> completedOn target (Db.habitCompletion db') x) /\
      filter (fun c => Db.date c <> target) (Db.habitCompletion db') =
        filter (fun c => Db.date c <> target) (Db.habitCompletion db) /\
      Db.habit db' = Db.habit db /\ Db.user db' = Db.user db /\
      Db.userAchievement db' = Db.userAchievement db /\
      Db.activityLog db' = Db.activityLog db.
Proof.
  induction habits as [| h habits IH]; intros db.
  - exists db. split; [reflexivity |].
    split; [intros h Hh; now apply not_elem_of_nil in Hh |]. now repeat split.
  - destruct (upsertCompleted_step (Db.habit_id h) db)
      as (db1 & Hrun1 & Hh1 & Hkeep1 & Hdays1 & Hhabit1 & Huser1 & Hua1 & Hlog1).
    destruct (IH db1)
      as (db' & Hrun & Hall & Hkeep & Hdays & Hhabit & Huser & Hua & Hlog).
    exists db'. split.
    { cbn [Db.forEach]. unfold Db.bind. now rewrite Hrun1. }
    split.
    { intros h' Hh'. apply elem_of_cons in Hh' as [-> | Hin].
      - now apply Hkeep.
      - now apply Hall. }
    split; [intros x Hx; now apply Hkeep, Hkeep1 |].
    split; [now rewrite Hdays |].
    repeat split; congruence.
Qed.

End RepairStreak.

(** X20: [repairStreak] answers BAD_REQUEST, and writes nothing, when the
    user has no row of the resource the repair costs or less of it than
    the cost: 50 gold for yesterday, 25 elixir for two or three days ago,
    10 dark matter otherwise. *)
Theorem repairStreak_insufficient (w : Handlers.t) (today : Z) (userId : string)
    (daysAgo : Z) :
  let cost := GamificationProcedures.repairCost daysAgo in
  match Handlers.userResource w !! (userId, cost.1) with
  | Some amount => amount < cost.2
  | None => True
  end ->
  GamificationProcedures.repairStreak today userId daysAgo w = (Db.Throw "BAD_REQUEST", w) /\
  cost = (if daysAgo =? 1 then (Handlers.GOLD, 50)
          else if daysAgo <=? 3 then (Handlers.ELIXIR, 25)
          else (Handlers.DARK_MATTER, 10)).
Proof.
  cbv zeta. intros Hlow. split; [| reflexivity].
  unfold GamificationProcedures.repairStreak.
  destruct ((daysAgo <? 1) || (7 <? daysAgo)); [reflexivity |].
  unfold mbind, Handlers_bind.
  erewrite bind_run; [| reflexivity].
  destruct (Handlers.userResource w !! _) as [amount |]; [| reflexivity].
  destruct (Z.ltb_spec amount (GamificationProcedures.repairCost daysAgo).2); [| lia].
  reflexivity.
Qed.

Lemma repairStreak_insufficient_witness :
  let cost := GamificationProcedures.repairCost 2 in
  match Handlers.userResource sample_world !! ("u1", cost.1) with
  | Some amount => amount < cost.2
  | None => True
  end /\
  GamificationProcedures.repairStreak 11 "u1" 2 sample_world =
    (Db.Throw "BAD_REQUEST", sample_world) /\
  cost = (if 2 =? 1 then (Handlers.GOLD, 50)
          else if 2 <=? 3 then (Handlers.ELIXIR, 25)
          else (Handlers.DARK_MATTER, 10)).
Proof.
  cbv zeta. split; [vm_compute; reflexivity |].
  apply (repairStreak_insufficient sample_world 11 "u1" 2).
  vm_compute; reflexivity.
Defined.

(** X21: outside 1..7 days [repairStreak] answers BAD_REQUEST and writes
    nothing.  For [daysAgo] in 1..7 and with enough of the resource it
    succeeds, takes the cost from that resource only, and leaves every
    active habit of the user with a completed row on the day [daysAgo]
    days back; rows of other days, the habits and the users, stored
    streaks included, are as before, and one [streak_repaired] row is
    logged. *)
Theorem repairStreak_repairs (w : Handlers.t) (today : Z) (userId : string)
    (daysAgo amount : Z) :
  let cost := GamificationProcedures.repairCost daysAgo in
  let target := today - daysAgo in
  (daysAgo < 1 \/ 7 < daysAgo ->
   GamificationProcedures.repairStreak today userId daysAgo w =
     (Db.Throw "BAD_REQUEST", w)) /\
  (1 <= daysAgo <= 7 ->
   Handlers.userResource w !! (userId, cost.1) = Some amount ->
   cost.2 <= amount ->
   exists w',
     GamificationProcedures.repairStreak today userId daysAgo w =
       (Db.Ok {| GamificationProcedures.success := true;
                 GamificationProcedures.resourceUsed := cost.1;
                 GamificationProcedures.amountSpent := cost.2 |}, w') /\
     Handlers.userResource w' !! (userId, cost.1) = Some (amount - cost.2) /\
     (forall key, key <> (userId, cost.1) ->
        Handlers.userResource w' !! key = Handlers.userResource w !! key) /\
     (forall h, h ∈ HabitsRouter.activeHabits userId (Handlers.db w) ->
        completedOn target (Db.habitCompletion (Handlers.db w')) (Db.habit_id h)) /\
     filter (fun c => Db.date c <> target) (Db.habitCompletion (Handlers.db w')) =
       filter (fun c => Db.date c <> target) (Db.habitCompletion (Handlers.db w)) /\
     Db.habit (Handlers.db w') = Db.habit (Handlers.db w) /\
     Db.user (Handlers.db w') = Db.user (Handlers.db w) /\
     length (Db.activityLog (Handlers.db w')) = S (length (Db.activityLog (Handlers.db w)))).
Proof.
  cbv zeta. split.
  { intros Hout. unfold GamificationProcedures.repairStreak.
    destruct (Z.ltb_spec daysAgo 1); [reflexivity |].
    destruct (Z.ltb_spec 7 daysAgo); [reflexivity | lia]. }
  destruct w as [db xr ur].
  cbn [Handlers.db Handlers.userResource]. intros Hdays Hrow Henough.
  unfold GamificationProcedures.repairStreak.
  destruct (Z.ltb_spec daysAgo 1); [lia |].
  destruct (Z.ltb_spec 7 daysAgo); [lia |].
  cbn [orb]. unfold mbind, Handlers_bind.
  erewrite bind_run; [| reflexivity]. cbn [Handlers.userResource]. rewrite Hrow.
  destruct (Z.ltb_spec amount (GamificationProcedures.repairCost daysAgo).2); [lia |].
  erewrite bind_run; [| reflexivity]. cbn [Handlers.db Handlers.habit_xpReward
                                            Handlers.userResource].
  erewrite bind_run; [| apply lift_run; reflexivity].
  destruct (upsertCompleted_loop userId (today - daysAgo)
              (HabitsRouter.activeHabits userId db) db)
    as (db1 & Hrun1 & Hall & _ & Hdays' & Hhabit & Huser & _ & Hlog).
  erewrite bind_run; [| apply lift_run; exact Hrun1].
  erewrite bind_run; [| apply lift_run; reflexivity].
  unfold Handlers.ret. eexists. split; [reflexivity |].
  cbn [Handlers.db Handlers.userResource Db.habitCompletion Db.habit Db.user
       Db.activityLog].
  split; [now rewrite lookup_alter_eq, Hrow |].
  split; [intros key Hkey; now rewrite lookup_alter_ne by congruence |].
  split; [exact Hall |]. split; [exact Hdays' |]. split; [exact Hhabit |].
  split; [exact Huser |].
  rewrite length_app, Hlog. cbn [length]. lia.
Qed.

Lemma repairStreak_repairs_witness :
  let cost := GamificationProcedures.repairCost 1 in
  let target := 11 - 1 in
  (8 < 1 \/ 7 < 8) /\
  GamificationProcedures.repairStreak 11 "u1" 8 sample_world =
    (Db.Throw "BAD_REQUEST", sample_world) /\
  1 <= 1 <= 7 /\
  Handlers.userResource sample_world !! ("u1", cost.1) = Some 60 /\
  cost.2 <= 60 /\
  exists w',
    GamificationProcedures.repairStreak 11 "u1" 1 sample_world =
      (Db.Ok {| GamificationProcedures.success := true;
                GamificationProcedures.resourceUsed := cost.1;
                GamificationProcedures.amountSpent := cost.2 |}, w') /\
    Handlers.userResource w' !! ("u1", cost.1) = Some (60 - cost.2) /\
    (forall key, key <> ("u1", cost.1) ->
       Handlers.userResource w' !! key = Handlers.userResource sample_world !! key) /\
    (forall h, h ∈ HabitsRouter.activeHabits "u1" (Handlers.db sample_world) ->
       completedOn target (Db.habitCompletion (Handlers.db w')) (Db.habit_id h)) /\
    filter (fun c => Db.date c <> target) (Db.habitCompletion (Handlers.db w')) =
      filter (fun c => Db.date c <> target)
             (Db.habitCompletion (Handlers.db sample_world)) /\
    Db.habit (Handlers.db w') = Db.habit (Handlers.db sample_world) /\
    Db.user (Handlers.db w') = Db.user (Handlers.db sample_world) /\
    length (Db.activityLog (Handlers.db w')) =
      S (length (Db.activityLog (Handlers.db sample_world))).
Proof.
  cbv zeta.
  split; [right; lia |].
  split; [apply (repairStreak_repairs sample_world 11 "u1" 8 0); right; lia |].
  split; [lia |].
  split; [vm_compute; reflexivity |]. split; [vm_compute; discriminate |].
  apply (repairStreak_repairs sample_world 11 "u1" 1 60);
    [lia | vm_compute; reflexivity | vm_compute; discriminate].
Defined.

(** ** The client's habit store *)

Section HabitStoreProperties.

Import HabitStore.

Lemma update_first_split (id' : string) (f : Habit -> Habit) (before after : list Habit)
    (h : Habit) :
  Forall (fun x => id x <> id') before -> id h = id' ->
  update_first (fun x => String.eqb (id x) id') f (before ++ h :: after) =
  before ++ f h :: after.
Proof.
  intros Hbefore Hh. induction Hbefore as [| x l Hx _ IH]; cbn.
  - now rewrite (proj2 (String.eqb_eq _ _) Hh).
  - rewrite (proj2 (String.eqb_neq _ _) Hx). now rewrite IH.
Qed.

Lemma update_first_absent (id' : string) (f : Habit -> Habit) (l : list Habit) :
  Forall (fun x => id x <> id') l ->
  update_first (fun x => String.eqb (id x) id') f l = l.
Proof.
  intros Hl. induction Hl as [| x l Hx _ IH]; cbn; [reflexivity |].
  rewrite (proj2 (String.eqb_neq _ _) Hx). now rewrite IH.
Qed.

Lemma toggle_id (h : Habit) : id (toggle h) = id h.
Proof. reflexivity. Qed.

Lemma toggle_twice (h : Habit) :
  0 <= currentStreak h -> ~ (isCompletedToday h = true /\ currentStreak h = 0) ->
  toggle (toggle h) = h.
Proof.
  intros Hs Hnot. destruct h as [i c a p o s d]. cbn in *.
  unfold toggle. cbn. destruct d; cbn; f_equal; lia.
Qed.

End HabitStoreProperties.

(** X22: the optimistic [toggleCompletion] of the store changes the first
    habit with the id and nothing else (nothing at all when no habit has
    it); it never makes a streak that is not negative negative; toggling
    twice gives the state back, except for a habit shown as completed
    with streak 0, which comes back with streak 1. *)
Theorem store_toggle_twice (id' : string) (before after : list HabitStore.Habit)
    (h : HabitStore.Habit) :
  Forall (fun x => HabitStore.id x <> id') before ->
  HabitStore.id h = id' ->
  0 <= HabitStore.currentStreak h ->
  let s := {| HabitStore.habits := before ++ h :: after |} in
  HabitStore.toggleCompletion id' s =
    {| HabitStore.habits := before ++ HabitStore.toggle h :: after |} /\
  0 <= HabitStore.currentStreak (HabitStore.toggle h) /\
  (~ (HabitStore.isCompletedToday h = true /\ HabitStore.currentStreak h = 0) ->
   HabitStore.toggleCompletion id' (HabitStore.toggleCompletion id' s) = s) /\
  (HabitStore.isCompletedToday h = true -> HabitStore.currentStreak h = 0 ->
   exists h',
     HabitStore.toggleCompletion id' (HabitStore.toggleCompletion id' s) =
       {| HabitStore.habits := before ++ h' :: after |} /\
     HabitStore.isCompletedToday h' = true /\ HabitStore.currentStreak h' = 1) /\
  (forall s0, Forall (fun x => HabitStore.id x <> id') (HabitStore.habits s0) ->
              HabitStore.toggleCompletion id' s0 = s0).
Proof.
  intros Hbefore Hh Hs. cbv zeta.
  assert (Hone : forall g, HabitStore.id g = id' ->
            HabitStore.toggleCompletion id' {| HabitStore.habits := before ++ g :: after |} =
            {| HabitStore.habits := before ++ HabitStore.toggle g :: after |}).
  { intros g Hg. unfold HabitStore.toggleCompletion. cbn [HabitStore.habits].
    now rewrite update_first_split. }
  split; [now apply Hone |].
  split.
  { unfold HabitStore.toggle. cbn. destruct (HabitStore.isCompletedToday h); cbn; lia. }
  split.
  { intros Hnot. rewrite (Hone h Hh), (Hone (HabitStore.toggle h)) by exact Hh.
    now rewrite toggle_twice. }
  split.
  { intros Hdone Hzero. exists (HabitStore.toggle (HabitStore.toggle h)).
    rewrite (Hone h Hh), (Hone (HabitStore.toggle h)) by exact Hh.
    split; [reflexivity |].
    unfold HabitStore.toggle. cbn. rewrite Hdone, Hzero. cbn. now split. }
  intros [l] Habsent. unfold HabitStore.toggleCompletion. cbn [HabitStore.habits] in *.
  now rewrite update_first_absent.
Qed.

Lemma store_toggle_twice_witness :
  let h := {| HabitStore.id := "h1"; HabitStore.category := "health";
              HabitStore.isArchived := false; HabitStore.isPinned := false;
              HabitStore.orderIndex := 0; HabitStore.currentStreak := 0;
              HabitStore.isCompletedToday := true |} in
  Forall (fun x => HabitStore.id x <> "h1") [] /\
  HabitStore.id h = "h1" /\
  0 <= HabitStore.currentStreak h /\
  let s := {| HabitStore.habits := [] ++ h :: [] |} in
  HabitStore.toggleCompletion "h1" s =
    {| HabitStore.habits := [] ++ HabitStore.toggle h :: [] |} /\
  0 <= HabitStore.currentStreak (HabitStore.toggle h) /\
  (~ (HabitStore.isCompletedToday h = true /\ HabitStore.currentStreak h = 0) ->
   HabitStore.toggleCompletion "h1" (HabitStore.toggleCompletion "h1" s) = s) /\
  (HabitStore.isCompletedToday h = true -> HabitStore.currentStreak h = 0 ->
   exists h',
     HabitStore.toggleCompletion "h1" (HabitStore.toggleCompletion "h1" s) =
       {| HabitStore.habits := [] ++ h' :: [] |} /\
     HabitStore.isCompletedToday h' = true /\ HabitStore.currentStreak h' = 1) /\
  (forall s0, Forall (fun x => HabitStore.id x <> "h1") (HabitStore.habits s0) ->
              HabitStore.toggleCompletion "h1" s0 = s0).
Proof.
  cbv zeta. split; [constructor |]. split; [reflexivity |]. split; [cbn; lia |].
  apply (store_toggle_twice "h1" [] []
           {| HabitStore.id := "h1"; HabitStore.category := "health";
              HabitStore.isArchived := false; HabitStore.isPinned := false;
              HabitStore.orderIndex := 0; HabitStore.currentStreak := 0;
              HabitStore.isCompletedToday := true |});
    [constructor | reflexivity | cbn; lia].
Defined.



(** Of 40 habits with 23 completed the exact percentage is 57.5, and the
    result is 57: 23 / 40 is not a double, and the nearest double times
    100 is a double just below 57.5. *)
Example getTodayProgress_23_of_40 :
  JS.Math_round (JS.mul (JS.quot 23 40) 100) = 57 /\
  JS.Math_round (100 * inject_Z 23 / inject_Z 40)%Q = 58.
Proof. split; vm_compute; reflexivity. Qed.

(** X24: [removeHabit] leaves no habit with the id, keeps every other
    habit, in the order they had, and changes nothing when no habit has
    the id; so removing a habit that [addHabit] has just put at the end,
    when no other habit has its id, gives the state back. *)
Theorem removeHabit_addHabit (h : HabitStore.Habit) (state : HabitStore.State) :
  Forall (fun x => HabitStore.id x <> HabitStore.id h) (HabitStore.habits state) ->
  HabitStore.removeHabit (HabitStore.id h) state = state /\
  HabitStore.removeHabit (HabitStore.id h) (HabitStore.addHabit h state) = state /\
  (forall g, HabitStore.id g = HabitStore.id h ->
     HabitStore.removeHabit (HabitStore.id h)
       (HabitStore.addHabit g (HabitStore.addHabit h state)) = state) /\
  (forall id' s,
     Forall (fun x => HabitStore.id x <> id')
            (HabitStore.habits (HabitStore.removeHabit id' s)) /\
     HabitStore.habits (HabitStore.removeHabit id' s) `sublist_of` HabitStore.habits s /\
     (forall x, x ∈ HabitStore.habits s -> HabitStore.id x <> id' ->
                x ∈ HabitStore.habits (HabitStore.removeHabit id' s))).
Proof.
  intros Hfresh. destruct state as [l]. cbn [HabitStore.habits] in Hfresh.
  assert (Hsame : filter (fun x => HabitStore.id x <> HabitStore.id h) l = l).
  { induction Hfresh as [| x l Hx _ IH]; [reflexivity |].
    now rewrite filter_cons_True, IH by exact Hx. }
  split.
  { unfold HabitStore.removeHabit. cbn [HabitStore.habits]. now rewrite Hsame. }
  split.
  { unfold HabitStore.removeHabit, HabitStore.addHabit. cbn [HabitStore.habits]. f_equal.
    rewrite filter_app, filter_cons_False by (intros Hne; now apply Hne).
    now rewrite filter_nil, app_nil_r. }
  split.
  { intros g Hg.
    unfold HabitStore.removeHabit, HabitStore.addHabit. cbn [HabitStore.habits]. f_equal.
    rewrite !filter_app, !filter_cons_False by (intros Hne; now apply Hne).
    now rewrite !filter_nil, !app_nil_r. }
  intros id' s. unfold HabitStore.removeHabit. cbn [HabitStore.habits].
  split.
  { apply Forall_forall. intros x Hx. now apply list_elem_of_filter in Hx as [Hx _]. }
  split; [apply sublist_filter |].
  intros x Hx Hne. apply list_elem_of_filter. now split.
Qed.

Lemma removeHabit_addHabit_witness :
  let h1 := {| HabitStore.id := "h1"; HabitStore.category := "health";
               HabitStore.isArchived := false; HabitStore.isPinned := true;
               HabitStore.orderIndex := 0; HabitStore.currentStreak := 4;
               HabitStore.isCompletedToday := true |} in
  let h3 := {| HabitStore.id := "h3"; HabitStore.category := "work";
               HabitStore.isArchived := true; HabitStore.isPinned := false;
               HabitStore.orderIndex := 1; HabitStore.currentStreak := 0;
               HabitStore.isCompletedToday := false |} in
  let h := {| HabitStore.id := "h2"; HabitStore.category := "health";
              HabitStore.isArchived := false; HabitStore.isPinned := false;
              HabitStore.orderIndex := 2; HabitStore.currentStreak := 0;
              HabitStore.isCompletedToday := false |} in
  let state := {| HabitStore.habits := [h1; h3] |} in
  Forall (fun x => HabitStore.id x <> HabitStore.id h) (HabitStore.habits state) /\
  HabitStore.removeHabit (HabitStore.id h) state = state /\
  HabitStore.removeHabit (HabitStore.id h) (HabitStore.addHabit h state) = state /\
  (forall g, HabitStore.id g = HabitStore.id h ->
     HabitStore.removeHabit (HabitStore.id h)
       (HabitStore.addHabit g (HabitStore.addHabit h state)) = state) /\
  (forall id' s,
     Forall (fun x => HabitStore.id x <> id')
            (HabitStore.habits (HabitStore.removeHabit id' s)) /\
     HabitStore.habits (HabitStore.removeHabit id' s) `sublist_of` HabitStore.habits s /\
     (forall x, x ∈ HabitStore.habits s -> HabitStore.id x <> id' ->
                x ∈ HabitStore.habits (HabitStore.removeHabit id' s))).
Proof.
  cbv zeta.
  assert (Hfresh : Forall (fun x => HabitStore.id x <> "h2")
            [{| HabitStore.id := "h1"; HabitStore.category := "health";
                HabitStore.isArchived := false; HabitStore.isPinned := true;
                HabitStore.orderIndex := 0; HabitStore.currentStreak := 4;
                HabitStore.isCompletedToday := true |};
             {| HabitStore.id := "h3"; HabitStore.category := "work";
                HabitStore.isArchived := true; HabitStore.isPinned := false;
                HabitStore.orderIndex := 1; HabitStore.currentStreak := 0;
                HabitStore.isCompletedToday := false |}]).
  { repeat constructor; cbn; discriminate. }
  split; [exact Hfresh |].
  apply (removeHabit_addHabit
           {| HabitStore.id := "h2"; HabitStore.category := "health";
              HabitStore.isArchived := false; HabitStore.isPinned := false;
              HabitStore.orderIndex := 2; HabitStore.currentStreak := 0;
              HabitStore.isCompletedToday := false |}
           {| HabitStore.habits := _ |}).
  exact Hfresh.
Defined.

Section Reorder.

Import HabitStore.

Lemma splice_start_nonneg (len : nat) (start : Z) :
  0 <= start -> splice_start len start = Nat.min (Z.to_nat start) len.
Proof.
  intros Hs. unfold splice_start. destruct (Z.ltb_spec start 0); [lia | reflexivity].
Qed.

Lemma imap_with_orderIndex_ids (l : list Habit) :
  id <$> imap with_orderIndex l = id <$> l.
Proof.
  apply list_eq. intros i.
  rewrite !list_lookup_fmap, list_lookup_imap. now destruct (l !! i).
Qed.

End Reorder.

(** X25: [reorderHabits] with [fromIndex] inside the array and a
    [toIndex] that is not negative moves the habit at [fromIndex] to
    [toIndex], or to the end when [toIndex] is beyond it: the store keeps
    the same habits, each with its new position as [orderIndex].  With
    [fromIndex] at or beyond the end nothing is removed and the action
    throws. *)
Theorem reorderHabits_moves (fromIndex toIndex : Z) (state : HabitStore.State) :
  0 <= fromIndex < Z.of_nat (length (HabitStore.habits state)) -> 0 <= toIndex ->
  exists state' moved,
    HabitStore.reorderHabits fromIndex toIndex state = Some state' /\
    HabitStore.habits state !! Z.to_nat fromIndex = Some moved /\
    length (HabitStore.habits state') = length (HabitStore.habits state) /\
    HabitStore.id <$> HabitStore.habits state' ≡ₚ HabitStore.id <$> HabitStore.habits state /\
    (forall i h, HabitStore.habits state' !! i = Some h ->
                 HabitStore.orderIndex h = Z.of_nat i) /\
    HabitStore.id <$>
      HabitStore.habits state' !!
        Nat.min (Z.to_nat toIndex) (length (HabitStore.habits state) - 1)
      = Some (HabitStore.id moved) /\
    (forall far, Z.of_nat (length (HabitStore.habits state)) <= far ->
                 HabitStore.reorderHabits far toIndex state = None).
Proof.
  intros Hfrom Hto. destruct state as [l]. cbn [HabitStore.habits] in *.
  set (from := Z.to_nat fromIndex).
  assert (Hlt : (from < length l)%nat) by lia.
  destruct (lookup_lt_is_Some_2 l from Hlt) as [moved Hmoved].
  set (rest := take from l ++ drop (S from) l).
  assert (Hrest : length rest = (length l - 1)%nat).
  { subst rest. rewrite length_app, length_take, length_drop. lia. }
  set (to := Nat.min (Z.to_nat toIndex) (length l - 1)).
  assert (Hrun : HabitStore.reorderHabits fromIndex toIndex {| HabitStore.habits := l |} =
                 Some {| HabitStore.habits :=
                           imap HabitStore.with_orderIndex
                                (take to rest ++ moved :: drop to rest) |}).
  { unfold HabitStore.reorderHabits. cbn [HabitStore.habits].
    rewrite (splice_start_nonneg (length l) fromIndex) by lia.
    replace (Nat.min (Z.to_nat fromIndex) (length l)) with from by lia.
    fold rest. rewrite (splice_start_nonneg (length rest) toIndex) by lia.
    rewrite Hrest. fold to. now rewrite Hmoved. }
  eexists _, moved. split; [exact Hrun |]. split; [exact Hmoved |].
  cbn [HabitStore.habits].
  assert (Hperm : take to rest ++ moved :: drop to rest ≡ₚ l).
  { rewrite <- Permutation_middle, take_drop. subst rest.
    rewrite Permutation_middle. now rewrite take_drop_middle. }
  split; [now rewrite length_imap, Hperm |].
  split; [now rewrite imap_with_orderIndex_ids, Hperm |].
  split.
  { intros i h Hi. rewrite list_lookup_imap in Hi.
    destruct ((take to rest ++ moved :: drop to rest) !! i); [| discriminate].
    cbn in Hi. now injection Hi as <-. }
  split.
  { rewrite list_lookup_imap.
    assert (Hlen : length (take to rest) = to) by (rewrite length_take; lia).
    rewrite <- Hlen at 2. now rewrite list_lookup_middle. }
  intros far Hfar. unfold HabitStore.reorderHabits. cbn [HabitStore.habits].
  rewrite (splice_start_nonneg (length l) far) by lia.
  replace (Nat.min (Z.to_nat far) (length l)) with (length l) by lia.
  now rewrite (lookup_ge_None_2 l (length l)) by lia.
Qed.

Lemma reorderHabits_moves_witness :
  let a := {| HabitStore.id := "a"; HabitStore.category := "c";
              HabitStore.isArchived := false; HabitStore.isPinned := false;
              HabitStore.orderIndex := 0; HabitStore.currentStreak := 0;
              HabitStore.isCompletedToday := false |} in
  let b := {| HabitStore.id := "b"; HabitStore.category := "c";
              HabitStore.isArchived := false; HabitStore.isPinned := false;
              HabitStore.orderIndex := 1; HabitStore.currentStreak := 0;
              HabitStore.isCompletedToday := false |} in
  let state := {| HabitStore.habits := [a; b] |} in
  0 <= 0 < Z.of_nat (length (HabitStore.habits state)) /\ 0 <= 5 /\
  exists state' moved,
    HabitStore.reorderHabits 0 5 state = Some state' /\
    HabitStore.habits state !! Z.to_nat 0 = Some moved /\
    length (HabitStore.habits state') = length (HabitStore.habits state) /\
    HabitStore.id <$> HabitStore.habits state' ≡ₚ HabitStore.id <$> HabitStore.habits state /\
    (forall i h, HabitStore.habits state' !! i = Some h ->
                 HabitStore.orderIndex h = Z.of_nat i) /\
    HabitStore.id <$>
      HabitStore.habits state' !!
        Nat.min (Z.to_nat 5) (length (HabitStore.habits state) - 1)
      = Some (HabitStore.id moved) /\
    (forall far, Z.of_nat (length (HabitStore.habits state)) <= far ->
                 HabitStore.reorderHabits far 5 state = None).
Proof.
  cbv zeta. split; [cbn; lia |]. split; [lia |].
  apply (reorderHabits_moves 0 5); [cbn; lia | lia].
Defined.

(** ** Edge cases of the streak recomputation *)

(** X26: [updateUserStreak] returns early, writing nothing, for a user
    without an active habit, whether the user row exists or not, so a
    stored streak stays as it is once every habit is archived; with an
    active habit and no user row it throws and writes nothing. *)
Theorem updateUserStreak_edges (today : Z) (userId : string) (db : Db.t) :
  (HabitsRouter.activeHabits userId db = [] ->
   HabitsRouter.updateUserStreak today userId db = (Db.Ok tt, db)) /\
  (HabitsRouter.activeHabits userId db <> [] -> Db.user db !! userId = None ->
   HabitsRouter.updateUserStreak today userId db = (Db.Throw "RecordNotFound", db)).
Proof.
  unfold HabitsRouter.updateUserStreak, mbind, M_bind, Db.bind, Db.query, Db.ret,
    Db.user_update.
  split.
  - intros Hnone. now rewrite Hnone.
  - intros Hsome Hu.
    destruct (HabitsRouter.activeHabits userId db); [contradiction |].
    cbn [length Nat.eqb]. now rewrite Hu.
Qed.

(** ** The rejections on the sample state *)

Lemma toggleCompletion_rejects_witness :
  HabitsProcedures.toggleCompletion 11 "u1" "h1" (Some 12) sample_world =
    (Db.Throw "BAD_REQUEST", sample_world) /\
  HabitsProcedures.toggleCompletion 11 "u2" "h1" None sample_world =
    (Db.Throw "NOT_FOUND", sample_world) /\
  HabitsProcedures.toggleCompletion 11 "u1" "h9" None sample_world =
    (Db.Throw "NOT_FOUND", sample_world).
Proof.
  split; [| split].
  - apply (proj1 (toggleCompletion_rejects sample_world 11 "u1" "h1" (Some 12))).
    vm_compute; reflexivity.
  - apply (proj2 (toggleCompletion_rejects sample_world 11 "u2" "h1" None)).
    + vm_compute; discriminate.
    + intros habit Hfind. vm_compute in Hfind. injection Hfind as <-. discriminate.
  - apply (proj2 (toggleCompletion_rejects sample_world 11 "u1" "h9" None)).
    + vm_compute; discriminate.
    + intros habit Hfind. vm_compute in Hfind. discriminate.
Defined.

Lemma archive_owner_only_witness :
  HabitsProcedures.archive "u2" "h1" sample_world = (Db.Throw "NOT_FOUND", sample_world) /\
  exists w',
    HabitsProcedures.archive "u1" "h1" sample_world =
      (Db.Ok {| Db.habit_id := "h1"; Db.habit_userId := "u1"; Db.isArchived := true |}, w') /\
    (forall h, h ∈ HabitsRouter.activeHabits "u1" (Handlers.db w') -> Db.habit_id h <> "h1") /\
    Db.habitCompletion (Handlers.db w') = Db.habitCompletion (Handlers.db sample_world) /\
    Db.user (Handlers.db w') = Db.user (Handlers.db sample_world).
Proof.
  pose proof (archive_owner_only sample_world "u2" "h1") as Hother.
  pose proof (archive_owner_only sample_world "u1" "h1") as Howner.
  change (HabitsProcedures.findHabit "h1" (Handlers.db sample_world))
    with (Some {| Db.habit_id := "h1"; Db.habit_userId := "u1"; Db.isArchived := false |})
    in Hother, Howner.
  cbn beta iota in Hother, Howner.
  split.
  - apply (proj1 Hother). discriminate.
  - apply (proj2 Howner). reflexivity.
Defined.

Lemma updateUserStreak_edges_witness :
  HabitsRouter.updateUserStreak 10 "u2" sample_db = (Db.Ok tt, sample_db) /\
  HabitsRouter.updateUserStreak 10 "u1"
    {| Db.habit := Db.habit sample_db; Db.habitCompletion := Db.habitCompletion sample_db;
       Db.user := ∅; Db.achievement := []; Db.userAchievement := [];
       Db.activityLog := [] |} =
    (Db.Throw "RecordNotFound",
     {| Db.habit := Db.habit sample_db; Db.habitCompletion := Db.habitCompletion sample_db;
        Db.user := ∅; Db.achievement := []; Db.userAchievement := [];
        Db.activityLog := [] |}).
Proof.
  split.
  - apply (proj1 (updateUserStreak_edges 10 "u2" sample_db)). reflexivity.
  - apply (proj2 (updateUserStreak_edges 10 "u1" _)); [discriminate | reflexivity].
Defined.
